(** * whatisrunning: the train registry, the run ledger and the live board

    A shallow embedding of [server.js] and of the schema of [db.js].

    - JSON request bodies and the objects the handlers build from them are
      finite maps from property names to JavaScript values.
    - The two SQLite tables are lists of typed rows in rowid order; a
      primary-key clash makes an [INSERT] fail.
    - The handlers run in a state-and-exception monad over the database and
      the set of WebSocket clients.  Every prepared statement commits on
      its own (better-sqlite3 runs in autocommit mode and the handlers open
      no transaction), so the state reached when an exception escapes keeps
      the writes made before it.
    - [crypto.randomUUID()], [new Date()] and storage faults are inputs of
      a request (the record [env]).
    - The library functions the handlers call on text, ECMAScript's
      string-to-number conversion and date parsing and SQLite's [date()],
      are parameters of the handlers; the theorems hold for every choice
      of them.
    - A timestamp is the text [toISOString] wrote; the statements compare
      timestamps as SQLite does, bytewise. *)

From Stdlib Require Import ZArith Lia List.
From Stdlib Require Import String Ascii.
From stdpp Require Import gmap strings list sorting.

Local Open Scope Z_scope.

(** ** JavaScript values *)

(** A number is observed by the handlers only through [Number.isInteger],
    comparisons with 0 and 100 and truthiness, so the non-integral values
    are kept apart only as far as truthiness needs. *)
Inductive jsnum : Type :=
  | NInt (z : Z)      (* an integral finite number *)
  | NNaN              (* NaN *)
  | NOther.           (* +-Infinity or a non-integral finite number *)

(** Arrays and objects nested in a body are observed only through
    [Number(v)], which goes through their primitive string. *)
Inductive jsval : Type :=
  | VUndef
  | VNull
  | VBool (b : bool)
  | VNum (n : jsnum)
  | VStr (s : string)
  | VObject (prim : string).

#[global] Instance jsnum_eq_dec : EqDecision jsnum.
Proof. solve_decision. Defined.
#[global] Instance jsval_eq_dec : EqDecision jsval.
Proof. solve_decision. Defined.

(** A JavaScript object with string keys. *)
Abbreviation obj := (gmap string jsval).

(** [o.k]: an absent property reads as [undefined]. *)
Definition get (o : obj) (k : string) : jsval := default VUndef (o !! k).

Definition typeof (v : jsval) : string :=
  match v with
  | VUndef => "undefined"
  | VNull => "object"
  | VBool _ => "boolean"
  | VNum _ => "number"
  | VStr _ => "string"
  | VObject _ => "object"
  end.

(** ToBoolean. *)
Definition truthy (v : jsval) : bool :=
  match v with
  | VUndef | VNull => false
  | VBool b => b
  | VNum (NInt z) => negb (z =? 0)
  | VNum NNaN => false
  | VNum NOther => true
  | VStr s => negb (String.eqb s "")
  | VObject _ => true
  end.

(** [a ?? b]. *)
Definition nullish (a b : jsval) : jsval :=
  match a with
  | VUndef | VNull => b
  | _ => a
  end.

(** A destructuring default [{ k = d }]: used for [undefined] only. *)
Definition with_default (a d : jsval) : jsval :=
  match a with
  | VUndef => d
  | _ => a
  end.

(** [Set.prototype.has] on a set of strings. *)
Definition set_has (s : list string) (v : jsval) : bool :=
  match v with
  | VStr x => bool_decide (x ∈ s)
  | _ => false
  end.

Definition Number_isInteger (v : jsval) : bool :=
  match v with
  | VNum (NInt _) => true
  | _ => false
  end.

(** [v < k] and [v > k] for an integral constant [k], used after
    [Number.isInteger] has accepted [v]. *)
Definition num_lt (v : jsval) (k : Z) : bool :=
  match v with
  | VNum (NInt z) => z <? k
  | _ => false
  end.

Definition num_gt (v : jsval) (k : Z) : bool :=
  match v with
  | VNum (NInt z) => k <? z
  | _ => false
  end.

(** [xs.join(sep)]. *)
Fixpoint join (sep : string) (xs : list string) : string :=
  match xs with
  | [] => ""
  | [x] => x
  | x :: rest => x +:+ sep +:+ join sep rest
  end.

(** ** Validation *)

Definition VALID_LOCATIONS : list string := ["Upper loop"; "Lower loop 1"; "Lower loop 2"].
Definition VALID_POWER : list string := ["Steam"; "Diesel"; "Electric"].
Definition VALID_POWER_TYPES : list string := ["AC"; "DC"; "Digital"].
Definition VALID_TYPES : list string := ["Passenger"; "Freight"; "Special"; "Mixed"].

Definition msg_name : string := "name required".
Definition msg_railway : string := "railway required".
Definition msg_country : string := "country required (emoji flag)".
Definition msg_power : string := "power must be one of: " +:+ join ", " VALID_POWER.
Definition msg_trainType : string := "trainType must be one of: " +:+ join ", " VALID_TYPES.
Definition msg_numberOfCars : string := "numberOfCars must be an integer between 0 and 100".
Definition msg_powerType : string := "powerType must be one of: " +:+ join ", " VALID_POWER_TYPES.
Definition msg_years : string := "years required (e.g. 1950 or 1950â€“1960)".
Definition msg_location : string := "location must be one of: " +:+ join ", " VALID_LOCATIONS.
Definition msg_notes : string := "notes must be a string".
Definition msg_owner : string := "owner must be a string".

(** [validateTrain(body)]: [None] is the [null] of a valid record, [Some m]
    the message of the first check that fails. *)
Definition validateTrain (body : obj) : option string :=
  let name := get body "name" in
  let railway := get body "railway" in
  let country := get body "country" in
  let power := get body "power" in
  let trainType := get body "trainType" in
  let numberOfCars := get body "numberOfCars" in
  let powerType := get body "powerType" in
  let years := get body "years" in
  let notes := with_default (get body "notes") (VStr "") in
  let owner := with_default (get body "owner") (VStr "") in
  let location := get body "location" in
  if negb (truthy name) || negb (String.eqb (typeof name) "string") then Some msg_name
  else if negb (truthy railway) || negb (String.eqb (typeof railway) "string") then Some msg_railway
  else if negb (truthy country) || negb (String.eqb (typeof country) "string") then Some msg_country
  else if negb (truthy power) || negb (set_has VALID_POWER power) then Some msg_power
  else if negb (truthy trainType) || negb (set_has VALID_TYPES trainType) then Some msg_trainType
  else if negb (Number_isInteger numberOfCars) || num_lt numberOfCars 0 || num_gt numberOfCars 100
       then Some msg_numberOfCars
  else if negb (truthy powerType) || negb (set_has VALID_POWER_TYPES powerType) then Some msg_powerType
  else if negb (truthy years) || negb (String.eqb (typeof years) "string") then Some msg_years
  else if negb (truthy location) || negb (set_has VALID_LOCATIONS location) then Some msg_location
  else if negb (String.eqb (typeof notes) "string") then Some msg_notes
  else if negb (String.eqb (typeof owner) "string") then Some msg_owner
  else None.

(** ** The schema of [db.js] *)

(** The descriptive columns, shared by [trains] and [train_runs]. *)
Record fields : Type := mkFields {
  f_name : string;
  f_railway : string;
  f_country : string;
  f_power : string;
  f_trainType : string;
  f_numberOfCars : Z;
  f_powerType : string;
  f_years : string;
  f_notes : string;
  f_owner : string;
  f_location : string
}.

(** A row of [trains]. *)
Record train : Type := mkTrain {
  t_id : string;
  t_fields : fields;
  t_active : Z;
  t_updated_at : string
}.

(** A row of [train_runs]; [r_stop_time = None] is SQL [NULL]. *)
Record run : Type := mkRun {
  r_id : string;
  r_train_id : string;
  r_fields : fields;
  r_start_time : string;
  r_stop_time : option string
}.

Record db : Type := mkDb {
  trains : list train;
  train_runs : list run
}.

#[global] Instance fields_eq_dec : EqDecision fields.
Proof. solve_decision. Defined.
#[global] Instance train_eq_dec : EqDecision train.
Proof. solve_decision. Defined.
#[global] Instance run_eq_dec : EqDecision run.
Proof. solve_decision. Defined.

(** A row of the result of [stmtListRunning]: the twelve selected columns. *)
Record running_row : Type := mkRunning {
  rr_id : string;
  rr_name : string;
  rr_railway : string;
  rr_country : string;
  rr_power : string;
  rr_trainType : string;
  rr_numberOfCars : Z;
  rr_powerType : string;
  rr_years : string;
  rr_notes : string;
  rr_location : string;
  rr_updated_at : string
}.

(** ** Parameter binding and row objects *)

(** better-sqlite3 binds a named parameter from the property of that name
    and ignores the other properties of the object.  Validation lets only
    strings reach the descriptive text columns and an integer reach
    [numberOfCars]; [id], [train_id] and the timestamps are strings the
    handlers make themselves, except for the [id] and [updated_at] of the
    POST handler, which the body can replace.  A parameter of another type
    is modelled as a failed statement: better-sqlite3 throws on a boolean
    or an object and a NOT NULL column rejects [null]; a number, which
    SQLite would store under its text, and a [null] id are outside the
    model. *)
Definition bind_text (v : jsval) : option string :=
  match v with
  | VStr s => Some s
  | _ => None
  end.

Definition bind_integer (v : jsval) : option Z :=
  match v with
  | VNum (NInt z) => Some z
  | _ => None
  end.

(** A nullable text parameter: [null] and [undefined] bind SQL [NULL]. *)
Definition bind_text_null (v : jsval) : option (option string) :=
  match v with
  | VStr s => Some (Some s)
  | VNull | VUndef => Some None
  | _ => None
  end.

Definition bind_fields (o : obj) : option fields :=
  name ← bind_text (get o "name");
  railway ← bind_text (get o "railway");
  country ← bind_text (get o "country");
  power ← bind_text (get o "power");
  trainType ← bind_text (get o "trainType");
  numberOfCars ← bind_integer (get o "numberOfCars");
  powerType ← bind_text (get o "powerType");
  years ← bind_text (get o "years");
  notes ← bind_text (get o "notes");
  owner ← bind_text (get o "owner");
  location ← bind_text (get o "location");
  Some (mkFields name railway country power trainType numberOfCars
                 powerType years notes owner location).

(** The object that [SELECT * FROM trains] yields for a row. *)
Definition obj_of_train (t : train) : obj :=
  list_to_map
    [("id", VStr (t_id t));
     ("name", VStr (f_name (t_fields t)));
     ("railway", VStr (f_railway (t_fields t)));
     ("country", VStr (f_country (t_fields t)));
     ("power", VStr (f_power (t_fields t)));
     ("trainType", VStr (f_trainType (t_fields t)));
     ("numberOfCars", VNum (NInt (f_numberOfCars (t_fields t))));
     ("powerType", VStr (f_powerType (t_fields t)));
     ("years", VStr (f_years (t_fields t)));
     ("notes", VStr (f_notes (t_fields t)));
     ("owner", VStr (f_owner (t_fields t)));
     ("location", VStr (f_location (t_fields t)));
     ("active", VNum (NInt (t_active t)));
     ("updated_at", VStr (t_updated_at t))].

(** The JSON object of a row of the running list. *)
Definition obj_of_running (r : running_row) : obj :=
  list_to_map
    [("id", VStr (rr_id r));
     ("name", VStr (rr_name r));
     ("railway", VStr (rr_railway r));
     ("country", VStr (rr_country r));
     ("power", VStr (rr_power r));
     ("trainType", VStr (rr_trainType r));
     ("numberOfCars", VNum (NInt (rr_numberOfCars r)));
     ("powerType", VStr (rr_powerType r));
     ("years", VStr (rr_years r));
     ("notes", VStr (rr_notes r));
     ("location", VStr (rr_location r));
     ("updated_at", VStr (rr_updated_at r))].

(** ** The prepared statements *)

(** Text compares bytewise (the BINARY collation). *)
Definition text_le (a b : string) : Prop := String.leb a b = true.

(** [ORDER BY location ASC, updated_at DESC]. *)
Definition running_order (a b : running_row) : Prop :=
  match String.compare (rr_location a) (rr_location b) with
  | Lt => True
  | Eq => text_le (rr_updated_at b) (rr_updated_at a)
  | Gt => False
  end.

#[global] Instance text_le_dec a b : Decision (text_le a b).
Proof. unfold text_le. apply _. Defined.

#[global] Instance running_order_dec a b : Decision (running_order a b).
Proof. unfold running_order. destruct (String.compare _ _); apply _. Defined.

(** [ORDER BY start_time DESC] and [ORDER BY start_time ASC] on runs. *)
Definition start_desc (a b : run) : Prop := text_le (r_start_time b) (r_start_time a).
Definition start_asc (a b : run) : Prop := text_le (r_start_time a) (r_start_time b).

#[global] Instance start_desc_dec a b : Decision (start_desc a b).
Proof. unfold start_desc. apply _. Defined.
#[global] Instance start_asc_dec a b : Decision (start_asc a b).
Proof. unfold start_asc. apply _. Defined.

Definition select_running (t : train) : running_row :=
  let f := t_fields t in
  mkRunning (t_id t) (f_name f) (f_railway f) (f_country f) (f_power f)
            (f_trainType f) (f_numberOfCars f) (f_powerType f) (f_years f)
            (f_notes f) (f_location f) (t_updated_at t).

(** [stmtListRunning.all()]. *)
Definition stmtListRunning (d : db) : list running_row :=
  merge_sort running_order
    (select_running <$> filter (λ t, t_active t = 1) (trains d)).

(** [stmtGetById.get(id)]. *)
Definition stmtGetById (id : string) (d : db) : option train :=
  head (filter (λ t, t_id t = id) (trains d)).

(** [stmtInsert.run(row)]: the new row has [active = 1]; the statement
    fails on a primary-key clash. *)
Definition stmtInsert (row : obj) (d : db) : option db :=
  id ← bind_text (get row "id");
  f ← bind_fields row;
  updated_at ← bind_text (get row "updated_at");
  if bool_decide (id ∈ t_id <$> trains d) then None
  else Some (mkDb (trains d ++ [mkTrain id f 1 updated_at]) (train_runs d)).

(** [stmtInsertRun.run(row)]. *)
Definition stmtInsertRun (row : obj) (d : db) : option db :=
  id ← bind_text (get row "id");
  train_id ← bind_text (get row "train_id");
  f ← bind_fields row;
  start_time ← bind_text (get row "start_time");
  stop_time ← bind_text_null (get row "stop_time");
  if bool_decide (id ∈ r_id <$> train_runs d) then None
  else Some (mkDb (trains d)
                  (train_runs d ++ [mkRun id train_id f start_time stop_time])).

(** The assignment of [stmtUpdate] on one row: neither [id] nor [active]
    is assigned. *)
Definition assign_train (id : string) (f : fields) (updated_at : string) (t : train) : train :=
  if bool_decide (t_id t = id)
  then mkTrain (t_id t) f (t_active t) updated_at
  else t.

(** [stmtUpdate.run(row)]. *)
Definition stmtUpdate (row : obj) (d : db) : option db :=
  f ← bind_fields row;
  updated_at ← bind_text (get row "updated_at");
  id ← bind_text (get row "id");
  Some (mkDb (assign_train id f updated_at <$> trains d) (train_runs d)).

(** The assignment of [stmtDeactivate] on one row. *)
Definition deactivate_train (id : string) (updated_at : string) (t : train) : train :=
  if bool_decide (t_id t = id)
  then mkTrain (t_id t) (t_fields t) 0 updated_at
  else t.

(** [stmtDeactivate.run({ id, updated_at })]. *)
Definition stmtDeactivate (row : obj) (d : db) : option db :=
  updated_at ← bind_text (get row "updated_at");
  id ← bind_text (get row "id");
  Some (mkDb (deactivate_train id updated_at <$> trains d) (train_runs d)).

(** [stmtFindOpenRun.get(id)]: the selected column is [id]. *)
Definition stmtFindOpenRun (train_id : string) (d : db) : option string :=
  r_id <$> head (merge_sort start_desc
                   (filter (λ r, r_train_id r = train_id ∧ r_stop_time r = None)
                           (train_runs d))).

(** [stmtFindLatestRun.get(id)]. *)
Definition stmtFindLatestRun (train_id : string) (d : db) : option string :=
  r_id <$> head (merge_sort start_desc
                   (filter (λ r, r_train_id r = train_id) (train_runs d))).

(** The assignment of [stmtUpdateRunStop] on one row. *)
Definition set_stop_time (id : string) (stop_time : option string) (r : run) : run :=
  if bool_decide (r_id r = id)
  then mkRun (r_id r) (r_train_id r) (r_fields r) (r_start_time r) stop_time
  else r.

(** [stmtUpdateRunStop.run({ id, stop_time })]. *)
Definition stmtUpdateRunStop (row : obj) (d : db) : option db :=
  stop_time ← bind_text_null (get row "stop_time");
  id ← bind_text (get row "id");
  Some (mkDb (trains d) (set_stop_time id stop_time <$> train_runs d)).

(** ** The server state and the handler monad *)

(** A message as [JSON.stringify({ event, payload })] carries it. *)
Record message : Type := mkMessage {
  event : string;
  payload : list running_row
}.

(** A member of [wss.clients]: its [readyState] (1 is OPEN) and the
    messages the server has sent on it, oldest first.  A socket that has
    closed stays listed with a [readyState] other than 1; [broadcast]
    skips it either way. *)
Record client : Type := mkClient {
  readyState : Z;
  received : list message
}.

Record world : Type := mkWorld {
  store : db;
  clients : list client
}.

(** The write statements, as far as a storage fault can hit them. *)
Inductive stmt : Type :=
  | StmtInsert
  | StmtInsertRun
  | StmtUpdate
  | StmtDeactivate
  | StmtUpdateRunStop.

(** What one request reads from its environment. *)
Record env : Type := mkEnv {
  env_now : string;          (* new Date().toISOString() *)
  env_uuid_1 : string;       (* the first crypto.randomUUID() *)
  env_uuid_2 : string;       (* the second crypto.randomUUID() *)
  env_fault : stmt → bool    (* the statements the storage engine rejects *)
}.

Inductive result (A : Type) : Type :=
  | Ok (a : A)
  | Thrown.
Arguments Ok {A} a.
Arguments Thrown {A}.

(** A computation may change the world and then either return or throw;
    the world it leaves behind is kept in both cases. *)
Definition M (A : Type) : Type := world → result A * world.

#[global] Instance M_ret : MRet M := λ A a w, (Ok a, w).
#[global] Instance M_bind : MBind M := λ A B f m w,
  match m w with
  | (Ok a, w') => f a w'
  | (Thrown, w') => (Thrown, w')
  end.

(** An exception that escapes the handler. *)
Definition throw {A : Type} : M A := λ w, (Thrown, w).

(** [stmt.get()] / [stmt.all()]. *)
Definition query {A : Type} (q : db → A) : M A :=
  λ w, (Ok (q (store w)), w).

(** [stmt.run(row)]: the statement commits, or throws and changes nothing. *)
Definition run_stmt (e : env) (s : stmt) (f : db → option db) : M unit :=
  λ w, if env_fault e s then (Thrown, w)
       else match f (store w) with
            | Some d => (Ok (), mkWorld d (clients w))
            | None => (Thrown, w)
            end.

(** [client.send(msg)]. *)
Definition send (m : message) (c : client) : client :=
  mkClient (readyState c) (received c ++ [m]).

(** The clients after the loop of [broadcast]: every OPEN one is sent the
    message. *)
Definition broadcast_to (ev : string) (p : list running_row) (cs : list client) : list client :=
  (λ c, if bool_decide (readyState c = 1) then send (mkMessage ev p) c else c) <$> cs.

(** [broadcast(event, payload)]. *)
Definition broadcast (ev : string) (p : list running_row) : M unit :=
  λ w, (Ok (), mkWorld (store w) (broadcast_to ev p (clients w))).

(** ** Responses *)

Record duration : Type := mkDuration {
  minutes : option Z;            (* [None] is NaN *)
  hours : option Z;
  remainderMinutes : option Z
}.

(** A row of the report: the columns of [stmtRunsByDate] and [duration]. *)
Record report_row : Type := mkReport {
  rp_train_id : string;
  rp_fields : fields;
  rp_start_time : string;
  rp_stop_time : option string;
  rp_duration : duration
}.

Inductive resp_body : Type :=
  | RError (error : string)
  | RId (id : string)
  | ROk
  | RTrains (rows : list running_row)
  | RRuns (rows : list report_row).

Record response : Type := mkResponse {
  status : Z;
  body : resp_body
}.

Definition bad (msg : string) : response := mkResponse 400 (RError msg).

Definition not_found : response := mkResponse 404 (RError "not found").

(** ** The report helpers *)

(** A value of [req.query]: a string, or the array or object that the
    query parser builds for a repeated or bracketed parameter, observed
    through the string it converts to ([QOther "2024-05-01"] is the array
    of [?date[]=2024-05-01]). *)
Inductive query_value : Type :=
  | QText (s : string)
  | QOther (prim : string).

Definition jsval_of_query (v : query_value) : jsval :=
  match v with
  | QText s => VStr s
  | QOther prim => VObject prim
  end.

(** ToString. *)
Definition query_text (v : query_value) : string :=
  match v with
  | QText s => s
  | QOther prim => prim
  end.

Definition is_digit (c : ascii) : bool :=
  (48 <=? N_of_ascii c)%N && (N_of_ascii c <=? 57)%N.

Definition is_dash (c : ascii) : bool := Ascii.eqb c "-"%char.

(** [/^\d{4}-\d{2}-\d{2}$/.test(s)]. *)
Definition is_ymd (s : string) : bool :=
  match list_ascii_of_string s with
  | [y1; y2; y3; y4; d1; m1; m2; d2; a1; a2] =>
      is_digit y1 && is_digit y2 && is_digit y3 && is_digit y4 && is_dash d1
      && is_digit m1 && is_digit m2 && is_dash d2 && is_digit a1 && is_digit a2
  | _ => false
  end.

(** [Math.round(x / d)] for [d > 0]: the nearest integer, a tie going up. *)
Definition Math_round_div (x d : Z) : Z := (2 * x + d) / (2 * d).

(** The three numbers of [duration]; [%] is the truncating remainder. *)
Definition duration_of (start stop : option Z) : duration :=
  match start, stop with
  | Some s, Some e =>
      let durationMinutes := Z.max 0 (Math_round_div (e - s) 60000) in
      mkDuration (Some durationMinutes)
                 (Some (durationMinutes / 60))
                 (Some (Z.rem durationMinutes 60))
  | _, _ => mkDuration None None None
  end.

(** ** The handlers *)

Section Server.

(** The text-to-number conversion of ECMAScript ([StringToNumber]). *)
Variable StringToNumber : string → jsnum.

(** The time value, in milliseconds, that [new Date(s)] parses from a
    stored timestamp; [None] is an invalid date. *)
Variable Date_parse : string → option Z.

(** SQLite's [date(s)]; [None] is [NULL]. *)
Variable sql_date : string → option string.

(** [Number(v)]. *)
Definition Number (v : jsval) : jsnum :=
  match v with
  | VUndef => NNaN
  | VNull => NInt 0
  | VBool true => NInt 1
  | VBool false => NInt 0
  | VNum n => n
  | VStr s => StringToNumber s
  | VObject prim => StringToNumber prim
  end.

(** [app.get("/api/running")]. *)
Definition get_running : M response :=
  rows ← query stmtListRunning;
  mret (mkResponse 200 (RTrains rows)).

(** The object [normalized] of the POST handler. *)
Definition normalize (req_body : obj) : obj :=
  <["powerType" := get req_body "powerType"]>
    (<["numberOfCars" := VNum (Number (get req_body "numberOfCars"))]> req_body).

(** The object [row] of the POST handler:
    [{ id, updated_at, ...normalized, notes: ..., owner: ... }]. *)
Definition new_row (id updated_at : string) (normalized : obj) : obj :=
  <["owner" := nullish (get normalized "owner") (VStr "")]>
    (<["notes" := nullish (get normalized "notes") (VStr "")]>
       (normalized ∪ list_to_map [("id", VStr id); ("updated_at", VStr updated_at)])).

(** The object the POST handler hands to [stmtInsertRun]. *)
Definition new_run_row (run_id id updated_at : string) (row : obj) : obj :=
  list_to_map
    [("id", VStr run_id);
     ("train_id", VStr id);
     ("name", get row "name");
     ("railway", get row "railway");
     ("country", get row "country");
     ("power", get row "power");
     ("trainType", get row "trainType");
     ("numberOfCars", get row "numberOfCars");
     ("powerType", get row "powerType");
     ("years", get row "years");
     ("notes", get row "notes");
     ("owner", get row "owner");
     ("location", get row "location");
     ("start_time", VStr updated_at);
     ("stop_time", VNull)].

(** [app.post("/api/running")]. *)
Definition post_running (e : env) (req_body : obj) : M response :=
  let normalized := normalize req_body in
  match validateTrain normalized with
  | Some err => mret (bad err)
  | None =>
      let id := env_uuid_1 e in
      let updated_at := env_now e in
      let row := new_row id updated_at normalized in
      _ ← run_stmt e StmtInsert (stmtInsert row);
      _ ← run_stmt e StmtInsertRun
            (stmtInsertRun (new_run_row (env_uuid_2 e) id updated_at row));
      p ← query stmtListRunning;
      _ ← broadcast "running:update" p;
      mret (mkResponse 201 (RId id))
  end.

(** The object [merged] of the PATCH handler, as it is validated:
    [{ ...existing, ...req.body, id }] with [numberOfCars] converted when
    the body has one. *)
Definition merge_patch (id : string) (req_body : obj) (existing : train) : obj :=
  let merged : obj := <["id" := VStr id]> (req_body ∪ obj_of_train existing) in
  if bool_decide (get req_body "numberOfCars" ≠ VUndef)
  then <["numberOfCars" := VNum (Number (get req_body "numberOfCars"))]> merged
  else merged.

(** [app.patch("/api/running/:id")]. *)
Definition patch_running (e : env) (id : string) (req_body : obj) : M response :=
  existing ← query (stmtGetById id);
  match existing with
  | None => mret not_found
  | Some existing =>
      let merged := merge_patch id req_body existing in
      match validateTrain merged with
      | Some err => mret (bad err)
      | None =>
          let merged : obj := <["updated_at" := VStr (env_now e)]> merged in
          _ ← run_stmt e StmtUpdate (stmtUpdate merged);
          p ← query stmtListRunning;
          _ ← broadcast "running:update" p;
          mret (mkResponse 200 ROk)
      end
  end.

(** The object the DELETE handler hands to [stmtInsertRun] when the
    ledger has no run of the train; [existing] is the row read before the
    train was deactivated. *)
Definition zero_run_row (run_id id stop_time : string) (existing : obj) : obj :=
  list_to_map
    [("id", VStr run_id);
     ("train_id", VStr id);
     ("name", get existing "name");
     ("railway", get existing "railway");
     ("country", get existing "country");
     ("power", get existing "power");
     ("trainType", get existing "trainType");
     ("numberOfCars", get existing "numberOfCars");
     ("powerType", get existing "powerType");
     ("years", get existing "years");
     ("notes", get existing "notes");
     ("owner", get existing "owner");
     ("location", get existing "location");
     ("start_time", VStr stop_time);
     ("stop_time", VStr stop_time)].

(** [app.delete("/api/running/:id")]. *)
Definition delete_running (e : env) (id : string) : M response :=
  existing ← query (stmtGetById id);
  match existing with
  | None => mret not_found
  | Some existing =>
      let stop_time := env_now e in
      _ ← run_stmt e StmtDeactivate
            (stmtDeactivate
               (list_to_map [("id", VStr id); ("updated_at", VStr stop_time)]));
      openRun ← query (stmtFindOpenRun id);
      _ ← match openRun with
          | Some openRun_id =>
              run_stmt e StmtUpdateRunStop
                (stmtUpdateRunStop
                   (list_to_map [("id", VStr openRun_id); ("stop_time", VStr stop_time)]))
          | None =>
              latest ← query (stmtFindLatestRun id);
              let fallbackId := from_option VStr VUndef latest in
              if truthy fallbackId
              then run_stmt e StmtUpdateRunStop
                     (stmtUpdateRunStop
                        (list_to_map [("id", fallbackId); ("stop_time", VStr stop_time)]))
              else
                run_stmt e StmtInsertRun
                  (stmtInsertRun
                     (zero_run_row (env_uuid_1 e) id stop_time (obj_of_train existing)))
          end;
      p ← query stmtListRunning;
      _ ← broadcast "running:update" p;
      mret (mkResponse 200 ROk)
  end.

(** [stmtRunsByDate.all({ date })], the run id left in place. *)
Definition stmtRunsByDate (date : string) (d : db) : list run :=
  merge_sort start_asc
    (filter (λ r, sql_date (r_start_time r) = Some date) (train_runs d)).

(** The callback of [rows.map]; [now] is the instant [new Date()] reads
    for this row. *)
Definition report_row_of (now : Z) (r : run) : report_row :=
  let start := Date_parse (r_start_time r) in
  let stop :=
    if truthy (from_option VStr VNull (r_stop_time r))
    then Date_parse (default "" (r_stop_time r))
    else Some now in
  mkReport (r_train_id r) (r_fields r) (r_start_time r) (r_stop_time r)
           (duration_of start stop).

(** [app.get("/api/reports/runs")]; [clock i] is the instant read while
    row [i] is mapped, [date] the query parameter if there is one.  The
    regular expression tests the string the parameter converts to, and
    better-sqlite3 throws when it is asked to bind an array or an
    object. *)
Definition get_reports_runs (clock : nat → Z) (date : option query_value) : M response :=
  if negb (truthy (from_option jsval_of_query VUndef date))
     || negb (is_ymd (from_option query_text "undefined" date))
  then mret (bad "date query param (YYYY-MM-DD) is required")
  else
    match date with
    | Some (QText date) =>
        rows ← query (stmtRunsByDate date);
        let report := imap (λ i r, report_row_of (clock i) r) rows in
        mret (mkResponse 200 (RRuns report))
    | _ => throw
    end.

(** [wss.on("connection")]: the socket joins [wss.clients] in state OPEN
    and is sent the current list. *)
Definition on_connection : M unit :=
  λ w,
    let ws := mkClient 1 [] in
    let p := stmtListRunning (store w) in
    (Ok (), mkWorld (store w) (clients w ++ [send (mkMessage "running:init" p) ws])).

(** ** Executions *)

(** What can happen to the server, one event at a time. *)
Inductive event_in : Type :=
  | EGetRunning
  | EPost (e : env) (req_body : obj)
  | EPatch (e : env) (id : string) (req_body : obj)
  | EDelete (e : env) (id : string)
  | EReport (clock : nat → Z) (date : option query_value)
  | EConnection
  | ESocketState (i : nat) (rs : Z).   (* socket [i] changes its readyState *)

Definition step (ev : event_in) (w : world) : world :=
  match ev with
  | EGetRunning => (get_running w).2
  | EPost e b => (post_running e b w).2
  | EPatch e id b => (patch_running e id b w).2
  | EDelete e id => (delete_running e id w).2
  | EReport clock date => (get_reports_runs clock date w).2
  | EConnection => (on_connection w).2
  | ESocketState i rs =>
      mkWorld (store w) (alter (λ c, mkClient rs (received c)) i (clients w))
  end.

Definition run_events (evs : list event_in) (w : world) : world :=
  fold_left (λ w ev, step ev w) evs w.

End Server.

(** ** Well-formed databases *)

(** What the primary keys of [db.js] and the use of [crypto.randomUUID()]
    for every run id maintain. *)
Record wf_db (d : db) : Prop := mkWf {
  wf_train_ids : NoDup (t_id <$> trains d);
  wf_run_ids : NoDup (r_id <$> train_runs d);
  wf_run_ids_nonempty : "" ∉ r_id <$> train_runs d
}.

(** ** The validation rules, one by one *)

Inductive rule : Type :=
  | RuleName | RuleRailway | RuleCountry | RulePower | RuleTrainType
  | RulePowerType | RuleNumberOfCars | RuleYears | RuleLocation
  | RuleNotes | RuleOwner.

Definition nonempty_string (v : jsval) : bool :=
  match v with
  | VStr s => negb (String.eqb s "")
  | _ => false
  end.

Definition one_of (s : list string) (v : jsval) : bool :=
  match v with
  | VStr x => bool_decide (x ∈ s)
  | _ => false
  end.

Definition integer_in (lo hi : Z) (v : jsval) : bool :=
  match v with
  | VNum (NInt z) => (lo <=? z) && (z <=? hi)
  | _ => false
  end.

Definition string_if_present (v : jsval) : bool :=
  match v with
  | VUndef | VStr _ => true
  | _ => false
  end.

(** The validator contract, rule by rule, in the words of the
    specification. *)
Definition rule_ok (r : rule) (o : obj) : bool :=
  match r with
  | RuleName => nonempty_string (get o "name")
  | RuleRailway => nonempty_string (get o "railway")
  | RuleCountry => nonempty_string (get o "country")
  | RulePower => one_of ["Steam"; "Diesel"; "Electric"] (get o "power")
  | RuleTrainType => one_of ["Passenger"; "Freight"; "Special"; "Mixed"] (get o "trainType")
  | RulePowerType => one_of ["AC"; "DC"; "Digital"] (get o "powerType")
  | RuleNumberOfCars => integer_in 0 100 (get o "numberOfCars")
  | RuleYears => nonempty_string (get o "years")
  | RuleLocation => one_of ["Upper loop"; "Lower loop 1"; "Lower loop 2"] (get o "location")
  | RuleNotes => string_if_present (get o "notes")
  | RuleOwner => string_if_present (get o "owner")
  end.

Definition rule_msg (r : rule) : string :=
  match r with
  | RuleName => msg_name
  | RuleRailway => msg_railway
  | RuleCountry => msg_country
  | RulePower => msg_power
  | RuleTrainType => msg_trainType
  | RulePowerType => msg_powerType
  | RuleNumberOfCars => msg_numberOfCars
  | RuleYears => msg_years
  | RuleLocation => msg_location
  | RuleNotes => msg_notes
  | RuleOwner => msg_owner
  end.

(** The order in which the specification lists the rules. *)
Definition spec_order : list rule :=
  [RuleName; RuleRailway; RuleCountry; RulePower; RuleTrainType;
   RulePowerType; RuleNumberOfCars; RuleYears; RuleLocation;
   RuleNotes; RuleOwner].

(** The order in which [validateTrain] checks them. *)
Definition code_order : list rule :=
  [RuleName; RuleRailway; RuleCountry; RulePower; RuleTrainType;
   RuleNumberOfCars; RulePowerType; RuleYears; RuleLocation;
   RuleNotes; RuleOwner].

(** The message of the first rule of [order] that [o] violates. *)
Definition first_violation (order : list rule) (o : obj) : option string :=
  rule_msg <$> head (filter (λ r, rule_ok r o = false) order).


(** ** Auxiliary notions for the statements below *)

Definition no_fault (e : env) : Prop := ∀ s, env_fault e s = false.

(** [row] is the train [t] as the board lists it: each of the twelve
    columns of the list holds the train's value of that name. *)
Definition shows (t : train) (row : running_row) : Prop :=
  rr_id row = t_id t
  ∧ rr_name row = f_name (t_fields t)
  ∧ rr_railway row = f_railway (t_fields t)
  ∧ rr_country row = f_country (t_fields t)
  ∧ rr_power row = f_power (t_fields t)
  ∧ rr_trainType row = f_trainType (t_fields t)
  ∧ rr_numberOfCars row = f_numberOfCars (t_fields t)
  ∧ rr_powerType row = f_powerType (t_fields t)
  ∧ rr_years row = f_years (t_fields t)
  ∧ rr_notes row = f_notes (t_fields t)
  ∧ rr_location row = f_location (t_fields t)
  ∧ rr_updated_at row = t_updated_at t.

(** A run with its [stop_time] set. *)
Definition stopped_at (stop_time : string) (r : run) : run :=
  mkRun (r_id r) (r_train_id r) (r_fields r) (r_start_time r) (Some stop_time).

(** The run a stop synthesizes when the ledger has none for the train. *)
Definition zero_run (uuid id now : string) (existing : train) : run :=
  mkRun uuid id (t_fields existing) now (Some now).

(** The world a stop command leaves when it has put the ledger rows
    [runs'] in place. *)
Definition stopped_world (e : env) (id : string) (w : world) (runs' : list run) : world :=
  let d' := mkDb (deactivate_train id (env_now e) <$> trains (store w)) runs' in
  mkWorld d' (broadcast_to "running:update" (stmtListRunning d') (clients w)).

(** The domain rules of the specification, on a typed row. *)
Record valid_fields (f : fields) : Prop := mkValid {
  valid_name : f_name f ≠ "";
  valid_railway : f_railway f ≠ "";
  valid_country : f_country f ≠ "";
  valid_power : f_power f ∈ VALID_POWER;
  valid_trainType : f_trainType f ∈ VALID_TYPES;
  valid_numberOfCars : 0 ≤ f_numberOfCars f ≤ 100;
  valid_powerType : f_powerType f ∈ VALID_POWER_TYPES;
  valid_years : f_years f ≠ "";
  valid_location : f_location f ∈ VALID_LOCATIONS
}.

Definition field_keys : list string :=
  ["name"; "railway"; "country"; "power"; "trainType"; "numberOfCars";
   "powerType"; "years"; "notes"; "owner"; "location"].

(** What [JSON.parse] can produce: no property holds [undefined]. *)
Definition json_body (o : obj) : Prop := ∀ k, o !! k ≠ Some VUndef.

(** [k] is [x / d] rounded to the nearest integer, a tie going up:
    [k - 1/2 <= x/d < k + 1/2], for [d > 0]. *)
Definition nearest_tie_up (x d k : Z) : Prop :=
  2 * d * k - d ≤ 2 * x ∧ 2 * x < 2 * d * k + d.

(** ** States up to the owner *)

(** A row with its [owner] blanked: two states "differ only in the owner
    fields" when they agree after this. *)
Definition hide_owner (f : fields) : fields :=
  mkFields (f_name f) (f_railway f) (f_country f) (f_power f) (f_trainType f)
           (f_numberOfCars f) (f_powerType f) (f_years f) (f_notes f) ""
           (f_location f).

Definition public_train (t : train) : train :=
  mkTrain (t_id t) (hide_owner (t_fields t)) (t_active t) (t_updated_at t).

Definition public_run (r : run) : run :=
  mkRun (r_id r) (r_train_id r) (hide_owner (r_fields r)) (r_start_time r) (r_stop_time r).

Definition pub_db (d : db) : db :=
  mkDb (public_train <$> trains d) (public_run <$> train_runs d).

Definition pub_world (w : world) : world := mkWorld (pub_db (store w)) (clients w).

(** Two outcomes agree for a public observer: both throw or both return,
    with results related by [RA], and the worlds agree up to the owner. *)
Definition sim {A : Type} (RA : A → A → Prop) (x y : result A * world) : Prop :=
  match x.1, y.1 with
  | Ok a, Ok b => RA a b
  | Thrown, Thrown => True
  | _, _ => False
  end
  ∧ pub_world x.2 = pub_world y.2.

(** Two parameter objects that agree on every property but [owner], which
    is the same in both or a string in both. *)
Definition row_sim (o1 o2 : obj) : Prop :=
  (∀ k, k ≠ "owner" → get o1 k = get o2 k)
  ∧ (get o1 "owner" = get o2 "owner"
     ∨ ∃ s1 s2, get o1 "owner" = VStr s1 ∧ get o2 "owner" = VStr s2).

(** ** What a mutation does to the viewers *)

(** A computation that sends nothing. *)
Definition keeps_clients {A : Type} (m : M A) : Prop :=
  ∀ w, clients (m w).2 = clients w.

(** A computation that sends nothing, or one update to every OPEN viewer. *)
Definition publishes {A : Type} (m : M A) : Prop :=
  ∀ w, clients (m w).2 = clients w
       ∨ ∃ p, clients (m w).2 = broadcast_to "running:update" p (clients w).

(** The messages of a viewer: an init, then updates only. *)
Definition init_then_updates (p : list running_row) (ms : list message) : Prop :=
  ∃ rest, ms = mkMessage "running:init" p :: rest
          ∧ Forall (λ m, event m = "running:update") rest.

(** ** The environment the invariant needs *)

(** [crypto.randomUUID()] never yields the empty string. *)
Definition uuid_env (e : env) : Prop := env_uuid_1 e ≠ "" ∧ env_uuid_2 e ≠ "".

(** The events whose UUIDs are not empty. *)
Definition event_ok (ev : event_in) : Prop :=
  match ev with
  | EPost e _ | EDelete e _ => uuid_env e
  | _ => True
  end.

(** A computation that keeps the database well-formed. *)
Definition preserves_wf {A : Type} (m : M A) : Prop :=
  ∀ w, wf_db (store w) → wf_db (store (m w).2).

(** ** Sample data *)

Definition digit_value (c : ascii) : option Z :=
  if is_digit c then Some (Z.of_N (N_of_ascii c) - 48) else None.

Fixpoint number_of_digits (acc : Z) (cs : list ascii) : option Z :=
  match cs with
  | [] => Some acc
  | c :: cs' => d ← digit_value c; number_of_digits (10 * acc + d) cs'
  end.

(** A conversion that reads a string of decimal digits (the empty string
    is 0) and maps every other string to NaN.  ECMAScript accepts more
    numeric literals than this; the function only serves to run the
    handlers on the samples below. *)
Definition digits_to_number (s : string) : jsnum :=
  match number_of_digits 0 (list_ascii_of_string s) with
  | Some z => NInt z
  | None => NNaN
  end.

(** The timestamps that [toISOString] writes, [YYYY-MM-DDTHH:mm:ss.sssZ],
    read back: [iso_time_value] for [new Date(s)] and [iso_date] for
    SQLite's [date(s)].  Both accept more formats than this one; the two
    functions only serve to run the report on the samples. *)

(** Days from 1970-01-01 to the given day of the proleptic Gregorian
    calendar. *)
Definition days_from_civil (y m d : Z) : Z :=
  let y' := if m <=? 2 then y - 1 else y in
  let era := y' / 400 in
  let yoe := y' - era * 400 in
  let mp := if 2 <? m then m - 3 else m + 9 in
  let doy := (153 * mp + 2) / 5 + d - 1 in
  let doe := yoe * 365 + yoe / 4 - yoe / 100 + doy in
  era * 146097 + doe - 719468.

Definition iso_time_value (s : string) : option Z :=
  match list_ascii_of_string s with
  | [y1; y2; y3; y4; "-"; m1; m2; "-"; d1; d2; "T";
     h1; h2; ":"; n1; n2; ":"; s1; s2; "."; f1; f2; f3; "Z"]%char =>
      y ← number_of_digits 0 [y1; y2; y3; y4];
      m ← number_of_digits 0 [m1; m2];
      d ← number_of_digits 0 [d1; d2];
      h ← number_of_digits 0 [h1; h2];
      n ← number_of_digits 0 [n1; n2];
      sec ← number_of_digits 0 [s1; s2];
      ms ← number_of_digits 0 [f1; f2; f3];
      Some ((((days_from_civil y m d * 24 + h) * 60 + n) * 60 + sec) * 1000 + ms)
  | _ => None
  end.

Definition iso_date (s : string) : option string :=
  match iso_time_value s with
  | Some _ => Some (substring 0 10 s)
  | None => None
  end.

Definition sample_body : obj :=
  list_to_map
    [("name", VStr "BR 01"); ("railway", VStr "DB"); ("country", VStr "DE");
     ("power", VStr "Steam"); ("trainType", VStr "Passenger");
     ("numberOfCars", VNum (NInt 8)); ("powerType", VStr "AC");
     ("years", VStr "1950"); ("owner", VStr "Anna");
     ("location", VStr "Upper loop")].

Definition sample_fields : fields :=
  mkFields "BR 01" "DB" "DE" "Steam" "Passenger" 8 "AC" "1950" "" "Anna" "Upper loop".

Definition sample_train : train :=
  mkTrain "t-1" sample_fields 1 "2024-05-01T10:00:00.000Z".

Definition sample_run : run :=
  mkRun "r-1" "t-1" sample_fields "2024-05-01T10:00:00.000Z" None.

Definition empty_world : world := mkWorld (mkDb [] []) [].

Definition sample_world : world := mkWorld (mkDb [sample_train] [sample_run]) [].

Definition sample_env : env :=
  mkEnv "2024-05-01T11:35:00.000Z" "u-1" "u-2" (λ _, false).


(** A valid body that also carries [id] and [updated_at]. *)
Definition override_body : obj :=
  <["updated_at" := VStr "1999-01-01T00:00:00.000Z"]> (<["id" := VStr "X"]> sample_body).

(** A record whose [powerType] and [numberOfCars] are both invalid. *)
Definition two_faults_body : obj :=
  <["powerType" := VStr "Analog"]> (<["numberOfCars" := VNum (NInt 101)]> sample_body).

(** A partial update that carries [id] and [active]. *)
Definition sample_patch : obj :=
  list_to_map
    [("id", VStr "other"); ("active", VBool false); ("numberOfCars", VStr "12");
     ("location", VStr "Lower loop 1")].

(** The sample train stopped 95 minutes after its start. *)
Definition stopped_world_sample : world :=
  mkWorld
    (mkDb [mkTrain "t-1" sample_fields 0 "2024-05-01T11:35:00.000Z"]
          [mkRun "r-1" "t-1" sample_fields "2024-05-01T10:00:00.000Z"
                 (Some "2024-05-01T11:35:00.000Z")])
    [].

(** The sample world with another owner. *)
Definition other_owner_world : world :=
  mkWorld
    (mkDb [mkTrain "t-1"
             (mkFields "BR 01" "DB" "DE" "Steam" "Passenger" 8 "AC" "1950" "" "Bob"
                       "Upper loop")
             1 "2024-05-01T10:00:00.000Z"]
          [mkRun "r-1" "t-1"
             (mkFields "BR 01" "DB" "DE" "Steam" "Passenger" 8 "AC" "1950" "" "Carl"
                       "Upper loop")
             "2024-05-01T10:00:00.000Z" None])
    [].

(** A viewer connects, a train is started, the sample train is stopped. *)
Definition sample_events : list event_in :=
  [EConnection; EPost sample_env sample_body; EDelete sample_env "t-1"].

(** ** Notions for the properties of whole executions *)

(** A train as it was, up to its descriptive fields and [updated_at]:
    the same [id], and not active again once it was not. *)
Definition train_kept (t t' : train) : Prop :=
  t_id t' = t_id t ∧ (t_active t ≠ 1 → t_active t' ≠ 1).

(** A run as it was, up to its [stop_time], which stays set once it is. *)
Definition run_kept (r r' : run) : Prop :=
  r_id r' = r_id r ∧ r_train_id r' = r_train_id r
  ∧ r_fields r' = r_fields r ∧ r_start_time r' = r_start_time r
  ∧ (r_stop_time r ≠ None → r_stop_time r' ≠ None).

(** The later database keeps every row of the earlier one in its place;
    new rows come after. *)
Definition history_kept (d d' : db) : Prop :=
  (∀ i t, trains d !! i = Some t → ∃ t', trains d' !! i = Some t' ∧ train_kept t t')
  ∧ (∀ i r, train_runs d !! i = Some r → ∃ r', train_runs d' !! i = Some r' ∧ run_kept r r').

(** Every stored row meets the domain rules. *)
Definition valid_db (d : db) : Prop :=
  Forall (λ t, valid_fields (t_fields t)) (trains d)
  ∧ Forall (λ r, valid_fields (r_fields r)) (train_runs d).

(** The open runs of a train. *)
Definition open_runs (id : string) (d : db) : list run :=
  filter (λ r, r_train_id r = id ∧ r_stop_time r = None) (train_runs d).

(** No train has two open runs. *)
Definition one_open_run (d : db) : Prop :=
  ∀ id, (length (open_runs id d) ≤ 1)%nat.

(** Every OPEN viewer was last sent the running list as it is now. *)
Definition in_sync (w : world) : Prop :=
  ∀ i c, clients w !! i = Some c → readyState c = 1 →
         ∃ ms m, received c = ms ++ [m] ∧ payload m = stmtListRunning (store w).

(** The bodies on which the model of the POST handler's INSERT is exact:
    an [id] they carry is neither a number nor [null], and an
    [updated_at] they carry is not a number.  SQLite stores a number in a
    TEXT column under its text and admits NULL in [id TEXT PRIMARY KEY];
    the model of [stmtInsert] makes the statement throw on both. *)
Definition text_keys (b : obj) : Prop :=
  (∀ n, b !! "id" ≠ Some (VNum n))
  ∧ b !! "id" ≠ Some VNull
  ∧ (∀ n, b !! "updated_at" ≠ Some (VNum n)).

Definition text_keys_event (ev : event_in) : Prop :=
  match ev with
  | EPost _ b => text_keys b
  | _ => True
  end.

(** An event that meets no storage fault and draws fresh UUIDs, and a
    socket that leaves the OPEN state for good. *)
Definition clean_event (w : world) (ev : event_in) : Prop :=
  match ev with
  | EPost e _ => no_fault e ∧ (env_uuid_2 e ∉ r_id <$> train_runs (store w))
  | EPatch e _ _ => True
  | EDelete e _ => no_fault e ∧ (env_uuid_1 e ∉ r_id <$> train_runs (store w))
  | ESocketState _ rs => rs ≠ 1
  | _ => True
  end.

(** A start draws a train id that no run of the ledger refers to. *)
Definition fresh_train_event (w : world) (ev : event_in) : Prop :=
  match ev with
  | EPost e _ => env_uuid_1 e ∉ r_train_id <$> train_runs (store w)
  | _ => True
  end.

Section Along.
Variable StringToNumber : string → jsnum.
Variable Date_parse : string → option Z.
Variable sql_date : string → option string.

(** [C] holds of every event of the execution, in the world the event
    happens in. *)
Fixpoint along (C : world → event_in → Prop) (evs : list event_in) (w : world) : Prop :=
  match evs with
  | [] => True
  | ev :: evs' =>
      C w ev ∧ along C evs' (step StringToNumber Date_parse sql_date ev w)
  end.
End Along.

Definition msg_years_v0 : string := "years required (e.g. 1950 or 1950–1960)".

(** [validateTrain] as it was before [numberOfCars] and [powerType] were
    added (the earlier [server.js]). *)
Definition validateTrain_v0 (body : obj) : option string :=
  let name := get body "name" in
  let railway := get body "railway" in
  let country := get body "country" in
  let power := get body "power" in
  let trainType := get body "trainType" in
  let years := get body "years" in
  let notes := with_default (get body "notes") (VStr "") in
  let owner := with_default (get body "owner") (VStr "") in
  let location := get body "location" in
  if negb (truthy name) || negb (String.eqb (typeof name) "string") then Some msg_name
  else if negb (truthy railway) || negb (String.eqb (typeof railway) "string") then Some msg_railway
  else if negb (truthy country) || negb (String.eqb (typeof country) "string") then Some msg_country
  else if negb (truthy power) || negb (set_has VALID_POWER power) then Some msg_power
  else if negb (truthy trainType) || negb (set_has VALID_TYPES trainType) then Some msg_trainType
  else if negb (truthy years) || negb (String.eqb (typeof years) "string") then Some msg_years_v0
  else if negb (truthy location) || negb (set_has VALID_LOCATIONS location) then Some msg_location
  else if negb (String.eqb (typeof notes) "string") then Some msg_notes
  else if negb (String.eqb (typeof owner) "string") then Some msg_owner
  else None.

(** ** Further sample data *)

(** A registry with three running trains, two of them on one loop, and a
    stopped one. *)
Definition board_db : db :=
  mkDb
    [mkTrain "t-a"
       (mkFields "BR 01" "DB" "DE" "Steam" "Passenger" 8 "AC" "1950" "n-a" "Anna"
                 "Upper loop")
       1 "2024-05-01T10:00:00.000Z";
     mkTrain "t-b"
       (mkFields "V 200" "DB" "DE" "Diesel" "Freight" 20 "DC" "1960" "n-b" "Bob"
                 "Lower loop 1")
       1 "2024-05-01T09:00:00.000Z";
     mkTrain "t-d"
       (mkFields "Ae 6/6" "SBB" "CH" "Electric" "Mixed" 5 "Digital" "1955" "n-d" "Dora"
                 "Lower loop 2")
       0 "2024-05-01T12:00:00.000Z";
     mkTrain "t-c"
       (mkFields "Re 4/4" "SBB" "CH" "Electric" "Special" 3 "Digital" "1970" "n-c" "Carl"
                 "Lower loop 1")
       1 "2024-05-01T11:00:00.000Z"]
    [].

(** The environment of a later request. *)
Definition later_env : env :=
  mkEnv "2024-05-01T13:10:00.000Z" "u-3" "u-4" (λ _, false).

(** The sample world with one viewer whose socket has closed. *)
Definition closed_viewer_world : world :=
  mkWorld (store sample_world) [mkClient 3 [mkMessage "running:init" []]].

(** ** The schema and the migrations of [db.js] *)

(** The tables of the database file, each with the names of its columns
    in order. *)
Abbreviation schema := (gmap string (list string)).

(** The columns of the two [CREATE TABLE] statements. *)
Definition trains_columns : list string :=
  ["id"; "name"; "railway"; "country"; "power"; "trainType"; "numberOfCars";
   "powerType"; "years"; "notes"; "owner"; "location"; "active"; "updated_at"].

Definition train_runs_columns : list string :=
  ["id"; "train_id"; "name"; "railway"; "country"; "power"; "trainType";
   "numberOfCars"; "powerType"; "years"; "notes"; "owner"; "location";
   "start_time"; "stop_time"].

(** The columns of the two tables in the earlier versions of [db.js]; the
    earliest one has no [train_runs]. *)
Definition trains_columns_v0 : list string :=
  ["id"; "name"; "railway"; "country"; "power"; "trainType"; "years"; "notes";
   "owner"; "location"; "active"; "updated_at"].

Definition train_runs_columns_v0 : list string :=
  ["id"; "train_id"; "name"; "railway"; "country"; "power"; "trainType"; "years";
   "notes"; "owner"; "location"; "start_time"; "stop_time"].

(** [CREATE TABLE IF NOT EXISTS table (...)]. *)
Definition create_if_not_exists (table : string) (cols : list string) (s : schema) : schema :=
  match s !! table with
  | Some _ => s
  | None => <[table := cols]> s
  end.

(** The [db.exec] of the two tables (the indexes add no column). *)
Definition create_tables (s : schema) : schema :=
  create_if_not_exists "train_runs" train_runs_columns
    (create_if_not_exists "trains" trains_columns s).

(** The [name] column of [PRAGMA table_info(table)]: no row for a table
    that does not exist. *)
Definition table_info (table : string) (s : schema) : list string :=
  default [] (s !! table).

(** SQLite compares column names without regard to ASCII case. *)
Definition lower_ascii (c : ascii) : ascii :=
  let n := N_of_ascii c in
  if (65 <=? n)%N && (n <=? 90)%N then ascii_of_N (n + 32) else c.

Fixpoint lower (s : string) : string :=
  match s with
  | EmptyString => EmptyString
  | String c r => String (lower_ascii c) (lower r)
  end.

Section Migration.

(** The name of the column that SQLite adds for the column definition
    after [ADD COLUMN]; [None] when it rejects the definition. *)
Variable added_column : string → option string.

(** [db.exec(`ALTER TABLE ${table} ADD COLUMN ${definition}`)]: it throws
    when the table does not exist, when the definition is rejected and
    when the table has a column of that name. *)
Definition exec_add_column (table definition : string) (s : schema) : option schema :=
  cols ← s !! table;
  c ← added_column definition;
  if bool_decide (lower c ∈ lower <$> cols) then None
  else Some (<[table := cols ++ [c]]> s).

(** [ensureColumn(table, name, definition)]. *)
Definition ensureColumn (table name definition : string) (s : schema) : option schema :=
  let existing := table_info table s in
  if bool_decide (name ∈ existing) then Some s
  else exec_add_column table definition s.

(** The four calls of [ensureColumn]. *)
Definition migrations (s : schema) : option schema :=
  s1 ← ensureColumn "trains" "numberOfCars" "INTEGER NOT NULL DEFAULT 0" s;
  s2 ← ensureColumn "trains" "powerType" "TEXT NOT NULL DEFAULT 'AC'" s1;
  s3 ← ensureColumn "train_runs" "numberOfCars" "INTEGER NOT NULL DEFAULT 0" s2;
  ensureColumn "train_runs" "powerType" "TEXT NOT NULL DEFAULT 'AC'" s3.

(** What loading [db.js] does to the schema of the database file. *)
Definition db_js (s : schema) : option schema := migrations (create_tables s).

End Migration.

(** The first word of a column definition.  SQLite reads the identifier
    a column definition starts with as the name of the column; this
    function does so for a definition that starts with a plain word, and
    only serves to run the migrations on the samples. *)
Fixpoint first_word (s : string) : string :=
  match s with
  | EmptyString => EmptyString
  | String c r => if Ascii.eqb c " " then EmptyString else String c (first_word r)
  end.

Definition first_word_column (definition : string) : option string :=
  Some (first_word definition).

(** A database file written by the earliest [db.js], and one written by
    the version before the present one. *)
Definition schema_v0 : schema := {[ "trains" := trains_columns_v0 ]}.

Definition schema_v1 : schema :=
  <["train_runs" := train_runs_columns_v0]> schema_v0.

(** The prepared statements of [server.js], each with its table and the
    columns its text names ([SELECT *] names none). *)
Definition prepared : list (string * (string * list string)) :=
  [("stmtListRunning",
    ("trains", ["id"; "name"; "railway"; "country"; "power"; "trainType"; "numberOfCars";
                "powerType"; "years"; "notes"; "location"; "updated_at"; "active"]));
   ("stmtInsert",
    ("trains", ["id"; "name"; "railway"; "country"; "power"; "trainType"; "numberOfCars";
                "powerType"; "years"; "notes"; "owner"; "location"; "active";
                "updated_at"]));
   ("stmtInsertRun",
    ("train_runs", ["id"; "train_id"; "name"; "railway"; "country"; "power"; "trainType";
                    "numberOfCars"; "powerType"; "years"; "notes"; "owner"; "location";
                    "start_time"; "stop_time"]));
   ("stmtUpdate",
    ("trains", ["name"; "railway"; "country"; "power"; "trainType"; "numberOfCars";
                "powerType"; "years"; "notes"; "owner"; "location"; "updated_at"; "id"]));
   ("stmtDeactivate", ("trains", ["active"; "updated_at"; "id"]));
   ("stmtGetById", ("trains", ["id"]));
   ("stmtFindOpenRun", ("train_runs", ["id"; "train_id"; "stop_time"; "start_time"]));
   ("stmtFindLatestRun", ("train_runs", ["id"; "train_id"; "start_time"]));
   ("stmtUpdateRunStop", ("train_runs", ["stop_time"; "id"]));
   ("stmtRunsByDate",
    ("train_runs", ["train_id"; "name"; "railway"; "country"; "power"; "trainType";
                    "numberOfCars"; "powerType"; "years"; "notes"; "owner"; "location";
                    "start_time"; "stop_time"]))].

(** [db.prepare] compiles the statement and throws when its table or one
    of the columns it names does not exist. *)
Definition prepares (table : string) (cols : list string) (s : schema) : bool :=
  match s !! table with
  | None => false
  | Some have => forallb (λ c, bool_decide (lower c ∈ lower <$> have)) cols
  end.

(** Every [db.prepare] of [server.js] succeeds. *)
Definition server_js_prepares (s : schema) : bool :=
  forallb (λ p, prepares p.2.1 p.2.2 s) prepared.

(** * Theorems *)

(** ** The validator *)

Lemma filter_rule_cons (o : obj) (r : rule) (rs : list rule) :
  head (filter (λ r, rule_ok r o = false) (r :: rs))
  = if rule_ok r o then head (filter (λ r, rule_ok r o = false) rs) else Some r.
Proof.
  rewrite filter_cons. destruct (rule_ok r o); simpl; reflexivity.
Qed.

Lemma check_string (v : jsval) :
  negb (truthy v) || negb (String.eqb (typeof v) "string") = negb (nonempty_string v).
Proof.
  destruct v as [ | | [] | [ z | | ] | s | p ]; simpl; try reflexivity.
  - apply orb_true_r.
  - apply orb_false_r.
Qed.

Lemma check_member (s : list string) (v : jsval) :
  "" ∉ s → negb (truthy v) || negb (set_has s v) = negb (one_of s v).
Proof.
  intros Hs.
  destruct v as [ | | [] | [ z | | ] | x | p ]; simpl; try reflexivity.
  - apply orb_true_r.
  - destruct (String.eqb_spec x "") as [-> | Hx]; simpl; [ | reflexivity ].
    rewrite bool_decide_eq_false_2 by exact Hs. reflexivity.
Qed.

Lemma check_numberOfCars (v : jsval) :
  negb (Number_isInteger v) || num_lt v 0 || num_gt v 100 = negb (integer_in 0 100 v).
Proof.
  destruct v as [ | | [] | [ z | | ] | x | p ]; simpl; try reflexivity.
  destruct (Z.ltb_spec z 0), (Z.ltb_spec 100 z), (Z.leb_spec 0 z), (Z.leb_spec z 100);
    simpl; try reflexivity; lia.
Qed.

Lemma check_optional_string (v : jsval) :
  negb (String.eqb (typeof (with_default v (VStr ""))) "string") = negb (string_if_present v).
Proof.
  destruct v as [ | | [] | [ z | | ] | x | p ]; reflexivity.
Qed.

Lemma validateTrain_code_order (o : obj) :
  validateTrain o = first_violation code_order o.
Proof.
  unfold validateTrain, first_violation, code_order. cbv zeta.
  rewrite !check_string, !check_numberOfCars, !check_optional_string.
  rewrite (check_member VALID_POWER), (check_member VALID_TYPES),
          (check_member VALID_POWER_TYPES), (check_member VALID_LOCATIONS)
    by (apply (bool_decide_unpack _); vm_compute; exact I).
  rewrite !filter_rule_cons. unfold rule_ok.
  change ["Steam"; "Diesel"; "Electric"] with VALID_POWER.
  change ["Passenger"; "Freight"; "Special"; "Mixed"] with VALID_TYPES.
  change ["AC"; "DC"; "Digital"] with VALID_POWER_TYPES.
  change ["Upper loop"; "Lower loop 1"; "Lower loop 2"] with VALID_LOCATIONS.
  repeat match goal with
         | |- context [ if negb ?b then _ else _ ] => destruct b; simpl; try reflexivity
         end.
Qed.

(** ** Text order *)

Lemma ascii_compare_refl (a : ascii) : Ascii.compare a a = Eq.
Proof. unfold Ascii.compare. apply N.compare_refl. Qed.

Lemma ascii_compare_lt_trans (a b c : ascii) :
  Ascii.compare a b = Lt → Ascii.compare b c = Lt → Ascii.compare a c = Lt.
Proof.
  unfold Ascii.compare. rewrite !N.compare_lt_iff. lia.
Qed.

Lemma string_compare_refl (s : string) : String.compare s s = Eq.
Proof.
  induction s as [ | a s IH ]; simpl; [ reflexivity | ].
  rewrite ascii_compare_refl. exact IH.
Qed.

Lemma string_compare_eq (s1 s2 : string) : String.compare s1 s2 = Eq ↔ s1 = s2.
Proof.
  split; [ apply String.compare_eq_iff | intros ->; apply string_compare_refl ].
Qed.

Lemma string_compare_lt_trans (s1 s2 s3 : string) :
  String.compare s1 s2 = Lt → String.compare s2 s3 = Lt → String.compare s1 s3 = Lt.
Proof.
  revert s2 s3. induction s1 as [ | a s1 IH ]; intros [ | b s2 ] [ | c s3 ]; simpl;
    try discriminate; try reflexivity.
  destruct (Ascii.compare a b) eqn:Hab; try discriminate;
    destruct (Ascii.compare b c) eqn:Hbc; try discriminate; intros H1 H2.
  - apply Ascii.compare_eq_iff in Hab, Hbc. subst. rewrite ascii_compare_refl. eauto.
  - apply Ascii.compare_eq_iff in Hab. subst. rewrite Hbc. reflexivity.
  - apply Ascii.compare_eq_iff in Hbc. subst. rewrite Hab. reflexivity.
  - rewrite (ascii_compare_lt_trans _ _ _ Hab Hbc). reflexivity.
Qed.

Lemma string_compare_gt_lt (s1 s2 : string) :
  String.compare s1 s2 = Gt ↔ String.compare s2 s1 = Lt.
Proof.
  rewrite (String.compare_antisym s2 s1).
  destruct (String.compare s1 s2); simpl; split; congruence.
Qed.

Lemma text_le_cases (a b : string) :
  text_le a b ↔ String.compare a b = Lt ∨ a = b.
Proof.
  unfold text_le, String.leb. rewrite <- string_compare_eq.
  destruct (String.compare a b); split; intros H; try tauto; try discriminate.
  destruct H; discriminate.
Qed.

#[global] Instance text_le_refl : Reflexive text_le.
Proof. intros a. apply text_le_cases. right. reflexivity. Qed.

#[global] Instance text_le_trans : Transitive text_le.
Proof.
  intros a b c. rewrite !text_le_cases. intros [Hab | ->] [Hbc | ->]; eauto.
  left. eapply string_compare_lt_trans; eassumption.
Qed.

#[global] Instance text_le_total : Total text_le.
Proof. intros a b. apply String.leb_total. Qed.

#[global] Instance text_le_antisym : AntiSymm (=) text_le.
Proof. intros a b. apply String.leb_antisym. Qed.

#[global] Instance start_desc_trans : Transitive start_desc.
Proof. intros a b c Hab Hbc. unfold start_desc in *. etrans; eassumption. Qed.

#[global] Instance start_desc_total : Total start_desc.
Proof. intros a b. unfold start_desc. destruct (total text_le (r_start_time a) (r_start_time b)); auto. Qed.

#[global] Instance start_asc_trans : Transitive start_asc.
Proof. intros a b c Hab Hbc. unfold start_asc in *. etrans; eassumption. Qed.

#[global] Instance start_asc_total : Total start_asc.
Proof. intros a b. unfold start_asc. apply (total text_le). Qed.

(** [running_order] spelled out: the location does not decrease, and among
    rows of one location [updated_at] does not increase. *)
Lemma running_order_spec (a b : running_row) :
  running_order a b ↔
  String.compare (rr_location a) (rr_location b) = Lt
  ∨ (rr_location a = rr_location b ∧ text_le (rr_updated_at b) (rr_updated_at a)).
Proof.
  unfold running_order. rewrite <- string_compare_eq.
  destruct (String.compare (rr_location a) (rr_location b)); split; intros H;
    try tauto; try (destruct H as [H | [H _]]; discriminate).
  - destruct H as [H | [_ H]]; [ discriminate | exact H ].
Qed.

#[global] Instance running_order_trans : Transitive running_order.
Proof.
  intros a b c. rewrite !running_order_spec.
  intros [Hab | [Hab Uab]] [Hbc | [Hbc Ubc]].
  - left. eapply string_compare_lt_trans; eassumption.
  - left. rewrite <- Hbc. exact Hab.
  - left. rewrite Hab. exact Hbc.
  - right. split; [ congruence | etrans; eassumption ].
Qed.

#[global] Instance running_order_total : Total running_order.
Proof.
  intros a b. rewrite !running_order_spec.
  destruct (String.compare (rr_location a) (rr_location b)) eqn:H.
  - apply string_compare_eq in H.
    destruct (total text_le (rr_updated_at a) (rr_updated_at b)); [ right | left ];
      right; split; auto.
  - left. left. reflexivity.
  - right. left. apply string_compare_gt_lt. exact H.
Qed.

(** ** Sorted query results *)

Section OrderBy.
Context {A : Type} (R : relation A) `{!∀ x y, Decision (R x y)}.
Context `{!Transitive R, !Total R}.

Lemma StronglySorted_lookup_lt (l : list A) (i j : nat) (a b : A) :
  StronglySorted R l → (i < j)%nat → l !! i = Some a → l !! j = Some b → R a b.
Proof.
  intros Hs. revert i j.
  induction Hs as [ | x l Hs IH Hx ]; intros [ | i ] [ | j ] Hij Hi Hj;
    simplify_eq/=; try lia.
  - rewrite Forall_forall in Hx. apply Hx. eapply list_elem_of_lookup_2. eassumption.
  - apply (IH i j); auto with lia.
Qed.

(** [ORDER BY ... LIMIT 1] yields a row that every selected row follows. *)
Lemma head_merge_sort_Some (l : list A) (x : A) :
  head (merge_sort R l) = Some x → x ∈ l ∧ ∀ y, y ∈ l → R x y.
Proof.
  intros Hh. apply head_Some in Hh as [l' Hl'].
  pose proof (merge_sort_Permutation R l) as Hp.
  pose proof (StronglySorted_merge_sort R l) as Hs.
  rewrite Hl' in Hp, Hs. split.
  - rewrite <- Hp. left.
  - intros y Hy. rewrite <- Hp in Hy.
    apply StronglySorted_cons in Hs as [Hall _]. rewrite Forall_forall in Hall.
    apply elem_of_cons in Hy as [-> | Hy]; [ | auto ].
    destruct (total R x x); assumption.
Qed.

Lemma head_merge_sort_None (l : list A) :
  head (merge_sort R l) = None ↔ l = [].
Proof.
  pose proof (merge_sort_Permutation R l) as Hp. split.
  - intros Hh. destruct (merge_sort R l); [ | discriminate ].
    symmetry. apply Permutation_nil_l. exact Hp.
  - intros ->. reflexivity.
Qed.

End OrderBy.

(** ** The running list (C7) *)

Lemma shows_select_running (t : train) : shows t (select_running t).
Proof. unfold shows, select_running. cbn. repeat split. Qed.

(** C7. In every state of the registry, [stmtListRunning] (the
    [listActive] of the specification) lists exactly the trains with
    [active = 1]: its rows are, one for one and in the order of the list,
    the rows of a rearrangement of these trains, each row carrying the
    train's id, descriptive columns and [updated_at] under their names, so
    every row is that of an active train and every active train has its
    row.  The trains are listed by location ascending and, within one
    location, by [updated_at] descending, and so are the [location] and
    [updated_at] columns of the rows. *)
Theorem stmtListRunning_active_ordered (d : db) :
  ∃ ts : list train,
    ts ≡ₚ filter (λ t, t_active t = 1) (trains d)
    ∧ Forall2 shows ts (stmtListRunning d)
    ∧ (∀ row, row ∈ stmtListRunning d →
         ∃ t, t ∈ trains d ∧ t_active t = 1 ∧ shows t row)
    ∧ (∀ t, t ∈ trains d → t_active t = 1 →
         ∃ row, row ∈ stmtListRunning d ∧ shows t row)
    ∧ (∀ i j a b, (i < j)%nat → ts !! i = Some a → ts !! j = Some b →
         text_le (f_location (t_fields a)) (f_location (t_fields b))
         ∧ (f_location (t_fields a) = f_location (t_fields b) →
            text_le (t_updated_at b) (t_updated_at a)))
    ∧ (∀ i j a b, (i < j)%nat →
         stmtListRunning d !! i = Some a → stmtListRunning d !! j = Some b →
         text_le (rr_location a) (rr_location b)
         ∧ (rr_location a = rr_location b → text_le (rr_updated_at b) (rr_updated_at a))).
Proof.
  assert (Hp : stmtListRunning d ≡ₚ select_running <$> filter (λ t, t_active t = 1) (trains d))
    by apply merge_sort_Permutation.
  destruct (Permutation_map_inv select_running _ Hp) as (ts & Hts & Hperm).
  change (map select_running ts) with (select_running <$> ts) in Hts.
  assert (Hord : ∀ i j a b, (i < j)%nat →
            stmtListRunning d !! i = Some a → stmtListRunning d !! j = Some b →
            text_le (rr_location a) (rr_location b)
            ∧ (rr_location a = rr_location b → text_le (rr_updated_at b) (rr_updated_at a))).
  { intros i j a b Hij Hi Hj.
    assert (Hab : running_order a b).
    { eapply (StronglySorted_lookup_lt running_order); try eassumption.
      apply StronglySorted_merge_sort; apply _. }
    apply running_order_spec in Hab as [Hlt | [Heq Hua]].
    + split; [ apply text_le_cases; auto | ].
      intros Heq. rewrite Heq, string_compare_refl in Hlt. discriminate.
    + split; [ rewrite Heq; reflexivity | auto ]. }
  exists ts. split; [ symmetry; exact Hperm | ].
  split; [ | split; [ | split; [ | split; [ | exact Hord ] ] ] ].
  - rewrite Hts. apply Forall2_fmap_r, Forall_Forall2_diag, Forall_forall.
    intros t _. apply shows_select_running.
  - intros row Hrow. rewrite Hp in Hrow.
    apply list_elem_of_fmap in Hrow as (t & -> & Ht).
    apply list_elem_of_filter in Ht as [Hact Ht].
    exists t. split; [ exact Ht | ]. split; [ exact Hact | apply shows_select_running ].
  - intros t Ht Hact. exists (select_running t). split; [ | apply shows_select_running ].
    rewrite Hp. apply list_elem_of_fmap_2. apply list_elem_of_filter. auto.
  - intros i j a b Hij Hi Hj.
    apply (Hord i j (select_running a) (select_running b) Hij);
      rewrite Hts, list_lookup_fmap; [ rewrite Hi | rewrite Hj ]; reflexivity.
Qed.

(** ** Running the statements on the rows the handlers build *)

Lemma stmtDeactivate_row (id now : string) (d : db) :
  stmtDeactivate (list_to_map [("id", VStr id); ("updated_at", VStr now)]) d
  = Some (mkDb (deactivate_train id now <$> trains d) (train_runs d)).
Proof. reflexivity. Qed.

Lemma stmtUpdateRunStop_row (rid now : string) (d : db) :
  stmtUpdateRunStop (list_to_map [("id", VStr rid); ("stop_time", VStr now)]) d
  = Some (mkDb (trains d) (set_stop_time rid (Some now) <$> train_runs d)).
Proof. reflexivity. Qed.

Lemma stmtInsertRun_existing (uuid id now : string) (existing : train) (d : db) :
  stmtInsertRun (zero_run_row uuid id now (obj_of_train existing)) d
  = if bool_decide (uuid ∈ r_id <$> train_runs d) then None
    else Some (mkDb (trains d)
                    (train_runs d ++ [mkRun uuid id (t_fields existing) now (Some now)])).
Proof. destruct existing as [i [] a u]. reflexivity. Qed.

(** ** The stop command *)

Ltac unfold_monad :=
  unfold mbind, M_bind, mret, M_ret, query, run_stmt, broadcast.

(** Tier 1: an open run is found. *)
Lemma delete_running_open (e : env) (id rid : string) (w : world) (existing : train) :
  stmtGetById id (store w) = Some existing →
  no_fault e →
  stmtFindOpenRun id (store w) = Some rid →
  delete_running e id w
  = (Ok (mkResponse 200 ROk),
     stopped_world e id w (set_stop_time rid (Some (env_now e)) <$> train_runs (store w))).
Proof.
  intros Hex Hnf Hopen. unfold delete_running. unfold_monad.
  rewrite Hex. cbv zeta. rewrite !Hnf, stmtDeactivate_row. cbn [store clients].
  change (stmtFindOpenRun id (mkDb _ (train_runs (store w))))
    with (stmtFindOpenRun id (store w)).
  rewrite Hopen, stmtUpdateRunStop_row. reflexivity.
Qed.

(** Tier 2: no open run, and the latest run has a truthy id. *)
Lemma delete_running_latest (e : env) (id rid : string) (w : world) (existing : train) :
  stmtGetById id (store w) = Some existing →
  no_fault e →
  stmtFindOpenRun id (store w) = None →
  stmtFindLatestRun id (store w) = Some rid →
  truthy (VStr rid) = true →
  delete_running e id w
  = (Ok (mkResponse 200 ROk),
     stopped_world e id w (set_stop_time rid (Some (env_now e)) <$> train_runs (store w))).
Proof.
  intros Hex Hnf Hopen Hlatest Htr. unfold delete_running. unfold_monad.
  rewrite Hex. cbv zeta. rewrite !Hnf, stmtDeactivate_row. cbn [store clients].
  change (stmtFindOpenRun id (mkDb _ (train_runs (store w))))
    with (stmtFindOpenRun id (store w)).
  rewrite Hopen. cbn [store clients].
  change (stmtFindLatestRun id (mkDb _ (train_runs (store w))))
    with (stmtFindLatestRun id (store w)).
  rewrite Hlatest. cbn [from_option]. rewrite Htr, stmtUpdateRunStop_row. reflexivity.
Qed.

(** Tier 3: the ledger has no run of the train. *)
Lemma delete_running_no_run (e : env) (id : string) (w : world) (existing : train) :
  stmtGetById id (store w) = Some existing →
  no_fault e →
  stmtFindOpenRun id (store w) = None →
  stmtFindLatestRun id (store w) = None →
  env_uuid_1 e ∉ r_id <$> train_runs (store w) →
  delete_running e id w
  = (Ok (mkResponse 200 ROk),
     stopped_world e id w
       (train_runs (store w) ++ [zero_run (env_uuid_1 e) id (env_now e) existing])).
Proof.
  intros Hex Hnf Hopen Hlatest Hfresh. unfold delete_running. unfold_monad.
  rewrite Hex. cbv zeta. rewrite !Hnf, stmtDeactivate_row. cbn [store clients].
  change (stmtFindOpenRun id (mkDb _ (train_runs (store w))))
    with (stmtFindOpenRun id (store w)).
  rewrite Hopen. cbn [store clients].
  change (stmtFindLatestRun id (mkDb _ (train_runs (store w))))
    with (stmtFindLatestRun id (store w)).
  rewrite Hlatest. cbn [from_option truthy].
  rewrite stmtInsertRun_existing. cbn [train_runs store].
  rewrite bool_decide_eq_false_2 by exact Hfresh. reflexivity.
Qed.

Lemma set_stop_time_other (id : string) (st : option string) (l : list run) :
  (∀ x, x ∈ l → r_id x ≠ id) → set_stop_time id st <$> l = l.
Proof.
  induction l as [ | x l IH ]; intros Hne; [ reflexivity | ].
  rewrite fmap_cons, IH by (intros y Hy; apply Hne; right; exact Hy).
  unfold set_stop_time at 1. rewrite bool_decide_eq_false_2; [ reflexivity | ].
  apply Hne. left.
Qed.

(** Under the primary key, [stmtUpdateRunStop] rewrites one row in place. *)
Lemma set_stop_time_split (runs : list run) (r : run) (st : string) :
  NoDup (r_id <$> runs) → r ∈ runs →
  ∃ l1 l2, runs = l1 ++ r :: l2
           ∧ set_stop_time (r_id r) (Some st) <$> runs = l1 ++ stopped_at st r :: l2.
Proof.
  intros Hnd Hr. apply list_elem_of_split in Hr as (l1 & l2 & ->).
  exists l1, l2. split; [ reflexivity | ].
  rewrite fmap_app, fmap_cons in Hnd.
  apply NoDup_app in Hnd as (_ & Hl1 & Hl2). apply NoDup_cons in Hl2 as [Hl2 _].
  rewrite fmap_app, fmap_cons. f_equal; [ | f_equal ].
  - apply set_stop_time_other. intros x Hx Heq.
    apply (Hl1 (r_id x)); [ apply list_elem_of_fmap_2; exact Hx | rewrite Heq; left ].
  - unfold set_stop_time. rewrite bool_decide_eq_true_2 by reflexivity. reflexivity.
  - apply set_stop_time_other. intros x Hx Heq.
    apply Hl2. rewrite <- Heq. apply list_elem_of_fmap_2. exact Hx.
Qed.

Lemma stmtFindOpenRun_Some (id rid : string) (d : db) :
  stmtFindOpenRun id d = Some rid →
  ∃ r, r ∈ train_runs d ∧ r_id r = rid ∧ r_train_id r = id ∧ r_stop_time r = None
       ∧ ∀ r', r' ∈ train_runs d → r_train_id r' = id → r_stop_time r' = None →
               text_le (r_start_time r') (r_start_time r).
Proof.
  unfold stmtFindOpenRun. intros H. apply fmap_Some in H as (r & Hh & ->).
  apply (head_merge_sort_Some start_desc) in Hh as [Hin Hmax].
  apply list_elem_of_filter in Hin as [[Hid Hopen] Hin].
  exists r. repeat split; auto.
  intros r' Hin' Hid' Hopen'. apply Hmax. apply list_elem_of_filter. auto.
Qed.

Lemma stmtFindOpenRun_None (id : string) (d : db) :
  stmtFindOpenRun id d = None →
  ∀ r, r ∈ train_runs d → r_train_id r = id → r_stop_time r ≠ None.
Proof.
  unfold stmtFindOpenRun. intros H r Hin Hid Hopen.
  apply fmap_None in H. apply (head_merge_sort_None start_desc) in H.
  assert (Hr : r ∈ filter (λ r, r_train_id r = id ∧ r_stop_time r = None) (train_runs d))
    by (apply list_elem_of_filter; auto).
  rewrite H in Hr. inversion Hr.
Qed.

Lemma stmtFindLatestRun_Some (id rid : string) (d : db) :
  stmtFindLatestRun id d = Some rid →
  ∃ r, r ∈ train_runs d ∧ r_id r = rid ∧ r_train_id r = id
       ∧ ∀ r', r' ∈ train_runs d → r_train_id r' = id →
               text_le (r_start_time r') (r_start_time r).
Proof.
  unfold stmtFindLatestRun. intros H. apply fmap_Some in H as (r & Hh & ->).
  apply (head_merge_sort_Some start_desc) in Hh as [Hin Hmax].
  apply list_elem_of_filter in Hin as [Hid Hin].
  exists r. repeat split; auto.
  intros r' Hin' Hid'. apply Hmax. apply list_elem_of_filter. auto.
Qed.

Lemma stmtFindLatestRun_None (id : string) (d : db) :
  stmtFindLatestRun id d = None →
  ∀ r, r ∈ train_runs d → r_train_id r ≠ id.
Proof.
  unfold stmtFindLatestRun. intros H r Hin Hid.
  apply fmap_None in H. apply (head_merge_sort_None start_desc) in H.
  assert (Hr : r ∈ filter (λ r, r_train_id r = id) (train_runs d))
    by (apply list_elem_of_filter; auto).
  rewrite H in Hr. inversion Hr.
Qed.

Lemma truthy_run_id (d : db) (r : run) :
  wf_db d → r ∈ train_runs d → truthy (VStr (r_id r)) = true.
Proof.
  intros Hwf Hin. simpl. destruct (String.eqb_spec (r_id r) "") as [Heq | ]; [ | reflexivity ].
  exfalso. apply (wf_run_ids_nonempty d Hwf). rewrite <- Heq.
  apply list_elem_of_fmap_2. exact Hin.
Qed.

(** C1. A stop command on an existing train id, served without a storage
    fault from a well-formed database, updates the ledger by the three-tier
    fallback: (1) if the train has an open run, the open run with the most
    recent [start_time] gets [stop_time] set to the stop timestamp; (2)
    otherwise, if the train has any run, its run with the most recent
    [start_time] gets [stop_time] overwritten; (3) otherwise a run with
    [start_time = stop_time =] the stop timestamp is appended.  In the
    first two cases no other row changes.  In every case the ledger then
    holds a run of the train stopped at the stop timestamp. *)
Theorem delete_running_three_tier (e : env) (id : string) (w : world) (existing : train) :
  wf_db (store w) →
  stmtGetById id (store w) = Some existing →
  no_fault e →
  env_uuid_1 e ∉ r_id <$> train_runs (store w) →
  let runs := train_runs (store w) in
  let runs' := train_runs (store (delete_running e id w).2) in
  let now := env_now e in
  (delete_running e id w).1 = Ok (mkResponse 200 ROk)
  ∧ ( (∃ r l1 l2,
         r_train_id r = id ∧ r_stop_time r = None
         ∧ (∀ r', r' ∈ runs → r_train_id r' = id → r_stop_time r' = None →
                  text_le (r_start_time r') (r_start_time r))
         ∧ runs = l1 ++ r :: l2 ∧ runs' = l1 ++ stopped_at now r :: l2)
    ∨ ((∀ r, r ∈ runs → r_train_id r = id → r_stop_time r ≠ None)
       ∧ ∃ r l1 l2,
           r_train_id r = id
           ∧ (∀ r', r' ∈ runs → r_train_id r' = id →
                    text_le (r_start_time r') (r_start_time r))
           ∧ runs = l1 ++ r :: l2 ∧ runs' = l1 ++ stopped_at now r :: l2)
    ∨ ((∀ r, r ∈ runs → r_train_id r ≠ id)
       ∧ runs' = runs ++ [mkRun (env_uuid_1 e) id (t_fields existing) now (Some now)]) )
  ∧ ∃ r', r' ∈ runs' ∧ r_train_id r' = id ∧ r_stop_time r' = Some now.
Proof.
  intros Hwf Hex Hnf Hfresh runs runs' now. subst runs runs' now.
  destruct (stmtFindOpenRun id (store w)) as [rid | ] eqn:Hopen.
  - rewrite (delete_running_open e id rid w existing Hex Hnf Hopen).
    cbn [fst snd store stopped_world train_runs].
    apply stmtFindOpenRun_Some in Hopen as (r & Hin & <- & Hid & Hnull & Hmax).
    destruct (set_stop_time_split _ r (env_now e) (wf_run_ids _ Hwf) Hin)
      as (l1 & l2 & Hl & Hl').
    rewrite Hl'. split; [ reflexivity | split ].
    + left. exists r, l1, l2. auto.
    + exists (stopped_at (env_now e) r). split; [ | auto ].
      apply elem_of_app. right. left.
  - pose proof (stmtFindOpenRun_None _ _ Hopen) as Hnone.
    destruct (stmtFindLatestRun id (store w)) as [rid | ] eqn:Hlatest.
    + pose proof Hlatest as Hl0.
      apply stmtFindLatestRun_Some in Hl0 as (r & Hin & <- & Hid & Hmax).
      rewrite (delete_running_latest e id (r_id r) w existing Hex Hnf Hopen Hlatest
                 (truthy_run_id _ _ Hwf Hin)).
      cbn [fst snd store stopped_world train_runs].
      destruct (set_stop_time_split _ r (env_now e) (wf_run_ids _ Hwf) Hin)
        as (l1 & l2 & Hl & Hl').
      rewrite Hl'. split; [ reflexivity | split ].
      * right. left. split; [ exact Hnone | ]. exists r, l1, l2. auto.
      * exists (stopped_at (env_now e) r). split; [ | auto ].
        apply elem_of_app. right. left.
    + pose proof (stmtFindLatestRun_None _ _ Hlatest) as Hno.
      rewrite (delete_running_no_run e id w existing Hex Hnf Hopen Hlatest Hfresh).
      cbn [fst snd store stopped_world train_runs].
      split; [ reflexivity | split ].
      * right. right. split; [ exact Hno | reflexivity ].
      * exists (zero_run (env_uuid_1 e) id (env_now e) existing). split; [ | auto ].
        apply elem_of_app. right. left.
Qed.

(** C5. A stop command on a train that has exactly one open run, served
    without a storage fault from a well-formed database, sets that run's
    [stop_time] to the stop timestamp and leaves every other row of the
    ledger, of this train and of any other, as it was. *)
Theorem delete_running_single_open_run
    (e : env) (id : string) (w : world) (existing : train) (r : run) :
  wf_db (store w) →
  stmtGetById id (store w) = Some existing →
  no_fault e →
  filter (λ x, r_train_id x = id ∧ r_stop_time x = None) (train_runs (store w)) = [r] →
  ∃ l1 l2,
    train_runs (store w) = l1 ++ r :: l2
    ∧ train_runs (store (delete_running e id w).2) = l1 ++ stopped_at (env_now e) r :: l2
    ∧ r_stop_time (stopped_at (env_now e) r) = Some (env_now e)
    ∧ r_id (stopped_at (env_now e) r) = r_id r
    ∧ r_train_id (stopped_at (env_now e) r) = r_train_id r
    ∧ r_fields (stopped_at (env_now e) r) = r_fields r
    ∧ r_start_time (stopped_at (env_now e) r) = r_start_time r.
Proof.
  intros Hwf Hex Hnf Hone.
  assert (Hopen : stmtFindOpenRun id (store w) = Some (r_id r)).
  { unfold stmtFindOpenRun. rewrite Hone. reflexivity. }
  assert (Hin : r ∈ train_runs (store w)).
  { assert (Hr : r ∈ filter (λ x, r_train_id x = id ∧ r_stop_time x = None)
                           (train_runs (store w))) by (rewrite Hone; left).
    apply list_elem_of_filter in Hr as [_ Hr]. exact Hr. }
  rewrite (delete_running_open e id (r_id r) w existing Hex Hnf Hopen).
  cbn [fst snd store stopped_world train_runs].
  destruct (set_stop_time_split _ r (env_now e) (wf_run_ids _ Hwf) Hin)
    as (l1 & l2 & Hl & Hl').
  exists l1, l2. rewrite Hl'. repeat split; auto.
Qed.

(** ** What a valid record binds to *)

Lemma validateTrain_None_rule_ok (o : obj) (r : rule) :
  validateTrain o = None → rule_ok r o = true.
Proof.
  rewrite validateTrain_code_order. unfold first_violation.
  intros H. apply fmap_None in H.
  destruct (rule_ok r o) eqn:Hr; [ reflexivity | exfalso ].
  assert (Hin : r ∈ filter (λ r, rule_ok r o = false) code_order).
  { apply list_elem_of_filter. split; [ exact Hr | ].
    unfold code_order. destruct r; set_solver. }
  destruct (filter _ code_order); [ inversion Hin | discriminate ].
Qed.

Lemma nonempty_string_inv (v : jsval) :
  nonempty_string v = true → ∃ s, v = VStr s ∧ s ≠ "".
Proof.
  destruct v as [ | | | | s | ]; try discriminate. simpl. intros H. exists s.
  split; [ reflexivity | ]. intros ->. discriminate.
Qed.

Lemma one_of_inv (l : list string) (v : jsval) :
  one_of l v = true → ∃ s, v = VStr s ∧ s ∈ l.
Proof.
  destruct v as [ | | | | s | ]; try discriminate. simpl. intros H. exists s.
  split; [ reflexivity | ]. apply bool_decide_eq_true in H. exact H.
Qed.

Lemma integer_in_inv (lo hi : Z) (v : jsval) :
  integer_in lo hi v = true → ∃ z, v = VNum (NInt z) ∧ lo ≤ z ≤ hi.
Proof.
  destruct v as [ | | | [ z | | ] | | ]; try discriminate. simpl. intros H. exists z.
  split; [ reflexivity | ]. lia.
Qed.

Lemma string_if_present_inv (v : jsval) :
  string_if_present v = true → v ≠ VUndef → ∃ s, v = VStr s.
Proof.
  destruct v as [ | | | | s | ]; try discriminate; intros _ H; [ congruence | eauto ].
Qed.

(** A record that passes [validateTrain] and has its [notes] and [owner]
    binds to a row that meets the domain rules. *)
Lemma validateTrain_None_bind_fields (o : obj) :
  validateTrain o = None →
  get o "notes" ≠ VUndef → get o "owner" ≠ VUndef →
  ∃ f, bind_fields o = Some f ∧ valid_fields f
       ∧ get o "notes" = VStr (f_notes f) ∧ get o "owner" = VStr (f_owner f).
Proof.
  intros Hv Hnotes Howner.
  pose proof (λ r, validateTrain_None_rule_ok o r Hv) as Hr.
  destruct (nonempty_string_inv _ (Hr RuleName)) as (name & Hname & ?).
  destruct (nonempty_string_inv _ (Hr RuleRailway)) as (railway & Hrailway & ?).
  destruct (nonempty_string_inv _ (Hr RuleCountry)) as (country & Hcountry & ?).
  destruct (one_of_inv _ _ (Hr RulePower)) as (power & Hpower & ?).
  destruct (one_of_inv _ _ (Hr RuleTrainType)) as (trainType & HtrainType & ?).
  destruct (integer_in_inv _ _ _ (Hr RuleNumberOfCars)) as (cars & Hcars & ?).
  destruct (one_of_inv _ _ (Hr RulePowerType)) as (powerType & HpowerType & ?).
  destruct (nonempty_string_inv _ (Hr RuleYears)) as (years & Hyears & ?).
  destruct (one_of_inv _ _ (Hr RuleLocation)) as (location & Hlocation & ?).
  destruct (string_if_present_inv _ (Hr RuleNotes) Hnotes) as (notes & Hn).
  destruct (string_if_present_inv _ (Hr RuleOwner) Howner) as (owner & Ho).
  exists (mkFields name railway country power trainType cars powerType years
                   notes owner location).
  unfold bind_fields.
  rewrite Hname, Hrailway, Hcountry, Hpower, HtrainType, Hcars, HpowerType,
          Hyears, Hn, Ho, Hlocation.
  split; [ reflexivity | ]. split; [ | split; reflexivity ].
  constructor; simpl; assumption.
Qed.

(** ** Objects built by spreading and assignment *)

Lemma get_insert_eq (o : obj) (k : string) (v : jsval) : get (<[k := v]> o) k = v.
Proof. unfold get. rewrite lookup_insert_eq. reflexivity. Qed.

Lemma get_insert_ne (o : obj) (k k' : string) (v : jsval) :
  k ≠ k' → get (<[k := v]> o) k' = get o k'.
Proof. intros H. unfold get. rewrite lookup_insert_ne by exact H. reflexivity. Qed.

(** [{ ...b, ...a }.k]: the later spread wins where it has the property. *)
Lemma get_union (a b : obj) (k : string) :
  get (a ∪ b) k = match a !! k with Some v => v | None => get b k end.
Proof.
  unfold get. rewrite lookup_union. destruct (a !! k), (b !! k); reflexivity.
Qed.

(** Closes a goal from a membership [H] of a literal in a list of other
    literals. *)
Ltac not_in_literals H :=
  repeat (apply elem_of_cons in H as [H | H]; [ discriminate H | ]);
  apply elem_of_nil in H; exact H.

Lemma bind_fields_ext (o o' : obj) :
  (∀ k, k ∈ field_keys → get o' k = get o k) → bind_fields o' = bind_fields o.
Proof.
  intros H. unfold bind_fields.
  rewrite !H by (unfold field_keys; set_solver). reflexivity.
Qed.

Lemma assign_train_keeps (id : string) (f : fields) (updated_at : string) (l : list train) :
  Forall2 (λ t t', t_id t' = t_id t ∧ t_active t' = t_active t ∧ (t_id t ≠ id → t' = t))
          l (assign_train id f updated_at <$> l).
Proof.
  induction l as [ | t l IH ]; constructor; [ | exact IH ].
  unfold assign_train. case_bool_decide; simpl; auto. repeat split; congruence.
Qed.

(** ** The edit command (C10) *)

Section Edit.
Variable StringToNumber : string → jsnum.

Lemma merge_patch_id (id : string) (req_body : obj) (existing : train) :
  get (merge_patch StringToNumber id req_body existing) "id" = VStr id.
Proof.
  unfold merge_patch. cbv zeta. case_bool_decide.
  - rewrite get_insert_ne by discriminate. apply get_insert_eq.
  - apply get_insert_eq.
Qed.

Lemma merge_patch_defined (id : string) (req_body : obj) (existing : train) (k : string) :
  json_body req_body → k ∈ ["notes"; "owner"] →
  get (merge_patch StringToNumber id req_body existing) k ≠ VUndef.
Proof.
  intros Hjson Hk.
  assert (Hu : get (req_body ∪ obj_of_train existing) k ≠ VUndef).
  { rewrite get_union. destruct (req_body !! k) as [v | ] eqn:Hv.
    - intros ->. exact (Hjson k Hv).
    - apply elem_of_cons in Hk as [-> | Hk]; [ discriminate | ].
      apply list_elem_of_singleton in Hk as ->. discriminate. }
  assert (Hk1 : "id" ≠ k) by (intros <-; not_in_literals Hk).
  assert (Hk2 : "numberOfCars" ≠ k) by (intros <-; not_in_literals Hk).
  unfold merge_patch. cbv zeta. case_bool_decide;
    rewrite ?(get_insert_ne _ _ _ _ Hk2), (get_insert_ne _ _ _ _ Hk1); exact Hu.
Qed.

(** What the edit does to the registry, whatever the request: nothing, or
    the assignment of [stmtUpdate] at the id of the URL. *)
Lemma patch_running_store (e : env) (id : string) (req_body : obj) (w : world) :
  store (patch_running StringToNumber e id req_body w).2 = store w
  ∨ ∃ f, store (patch_running StringToNumber e id req_body w).2
         = mkDb (assign_train id f (env_now e) <$> trains (store w)) (train_runs (store w)).
Proof.
  unfold patch_running. unfold_monad.
  destruct (stmtGetById id (store w)) as [existing | ]; [ | left; reflexivity ].
  cbv zeta. destruct (validateTrain _); [ left; reflexivity | ].
  destruct (env_fault e StmtUpdate); [ left; reflexivity | ].
  unfold stmtUpdate.
  rewrite get_insert_eq, get_insert_ne, merge_patch_id by discriminate.
  destruct (bind_fields _) as [f | ]; [ | left; reflexivity ].
  right. exists f. reflexivity.
Qed.

(** C10. For an existing train (active or not) and a partial update whose
    merged record passes validation, the edit leaves the [id] and the
    [active] flag of every row of the registry as they were, also when the
    body carries an [id] or an [active] property; rows of other ids and the
    ledger are untouched.  When the body is JSON and the storage engine
    accepts the UPDATE, the edit answers 200 and the edited row takes the
    merged descriptive fields and the request time as [updated_at]. *)
Theorem patch_running_keeps_id_and_active
    (e : env) (id : string) (req_body : obj) (w : world) (existing : train) :
  stmtGetById id (store w) = Some existing →
  validateTrain (merge_patch StringToNumber id req_body existing) = None →
  let w' := (patch_running StringToNumber e id req_body w).2 in
  Forall2 (λ t t', t_id t' = t_id t ∧ t_active t' = t_active t ∧ (t_id t ≠ id → t' = t))
          (trains (store w)) (trains (store w'))
  ∧ train_runs (store w') = train_runs (store w)
  ∧ (json_body req_body → env_fault e StmtUpdate = false →
     ∃ f,
       bind_fields (merge_patch StringToNumber id req_body existing) = Some f
       ∧ (patch_running StringToNumber e id req_body w).1 = Ok (mkResponse 200 ROk)
       ∧ trains (store w') = assign_train id f (env_now e) <$> trains (store w)
       ∧ mkTrain (t_id existing) f (t_active existing) (env_now e) ∈ trains (store w')).
Proof.
  intros Hex Hvalid w'. subst w'. split; [ | split ].
  - destruct (patch_running_store e id req_body w) as [-> | (f & ->)].
    + apply Forall2_same_length_lookup. split; [ reflexivity | ].
      intros i t t' Ht Ht'. rewrite Ht in Ht'. injection Ht' as <-. auto.
    + apply assign_train_keeps.
  - destruct (patch_running_store e id req_body w) as [-> | (f & ->)]; reflexivity.
  - intros Hjson Hnf.
    set (merged := merge_patch StringToNumber id req_body existing) in *.
    destruct (validateTrain_None_bind_fields merged Hvalid) as (f & Hf & _).
    { apply merge_patch_defined; [ exact Hjson | set_solver ]. }
    { apply merge_patch_defined; [ exact Hjson | set_solver ]. }
    exists f. split; [ exact Hf | ].
    assert (Hrun : patch_running StringToNumber e id req_body w
                   = let d' := mkDb (assign_train id f (env_now e) <$> trains (store w))
                                    (train_runs (store w)) in
                     (Ok (mkResponse 200 ROk),
                      mkWorld d' (broadcast_to "running:update" (stmtListRunning d')
                                               (clients w)))).
    { unfold patch_running. unfold_monad. rewrite Hex. cbv zeta. fold merged.
      rewrite Hvalid, Hnf. unfold stmtUpdate.
      rewrite (bind_fields_ext merged)
        by (intros k Hk; apply get_insert_ne; intros <-; not_in_literals Hk).
      rewrite Hf, get_insert_eq, get_insert_ne by discriminate.
      unfold merged. rewrite merge_patch_id. reflexivity. }
    rewrite Hrun. cbn [fst snd store trains train_runs].
    split; [ reflexivity | ]. split; [ reflexivity | ].
    unfold stmtGetById in Hex. apply head_Some_elem_of in Hex.
    apply list_elem_of_filter in Hex as [Hid Hin].
    apply list_elem_of_fmap. exists existing. split; [ | exact Hin ].
    unfold assign_train. rewrite bool_decide_eq_true_2 by exact Hid. reflexivity.
Qed.
End Edit.

(** ** The start command (C4, C2) *)

Section Start.
Variable StringToNumber : string → jsnum.

Lemma normalize_lookup_other (req_body : obj) (k : string) :
  k ≠ "numberOfCars" → k ≠ "powerType" →
  normalize StringToNumber req_body !! k = req_body !! k.
Proof.
  intros H1 H2. unfold normalize. rewrite !lookup_insert_ne by congruence. reflexivity.
Qed.

(** The properties of [row] that the two INSERTs bind. *)
Lemma new_row_field (id updated_at : string) (normalized : obj) (k : string) :
  k ∈ field_keys → k ≠ "notes" → k ≠ "owner" →
  get (new_row id updated_at normalized) k = get normalized k.
Proof.
  intros Hk Hn Ho. unfold new_row.
  rewrite !get_insert_ne by congruence. rewrite get_union. unfold get.
  destruct (normalized !! k); [ reflexivity | ].
  unfold list_to_map. cbn [fold_right fst snd].
  rewrite lookup_insert_ne by (intros <-; not_in_literals Hk).
  rewrite lookup_insert_ne by (intros <-; not_in_literals Hk). reflexivity.
Qed.

Lemma new_row_notes (id updated_at : string) (normalized : obj) :
  get (new_row id updated_at normalized) "notes" = nullish (get normalized "notes") (VStr "").
Proof. unfold new_row. rewrite get_insert_ne by discriminate. apply get_insert_eq. Qed.

Lemma new_row_owner (id updated_at : string) (normalized : obj) :
  get (new_row id updated_at normalized) "owner" = nullish (get normalized "owner") (VStr "").
Proof. unfold new_row. apply get_insert_eq. Qed.

Lemma new_row_id (id updated_at : string) (normalized : obj) :
  get (new_row id updated_at normalized) "id"
  = match normalized !! "id" with Some v => v | None => VStr id end.
Proof.
  unfold new_row. rewrite !get_insert_ne by discriminate. rewrite get_union.
  destruct (normalized !! "id"); reflexivity.
Qed.

Lemma new_row_updated_at (id updated_at : string) (normalized : obj) :
  get (new_row id updated_at normalized) "updated_at"
  = match normalized !! "updated_at" with Some v => v | None => VStr updated_at end.
Proof.
  unfold new_row. rewrite !get_insert_ne by discriminate. rewrite get_union.
  destruct (normalized !! "updated_at"); reflexivity.
Qed.

(** A record that passes validation gives a [row] whose descriptive
    properties bind to a row that meets the domain rules. *)
Lemma new_row_bind_fields (id updated_at : string) (normalized : obj) :
  validateTrain normalized = None →
  ∃ f, bind_fields (new_row id updated_at normalized) = Some f ∧ valid_fields f
       ∧ f_notes f = default "" (bind_text (get normalized "notes"))
       ∧ f_owner f = default "" (bind_text (get normalized "owner")).
Proof.
  intros Hv. set (row := new_row id updated_at normalized).
  assert (Hrow : validateTrain row = None).
  { rewrite <- Hv. unfold validateTrain. subst row.
    rewrite !new_row_field by (first [ discriminate | unfold field_keys; set_solver ]).
    rewrite new_row_notes, new_row_owner.
    pose proof (validateTrain_None_rule_ok _ RuleNotes Hv) as Hn.
    pose proof (validateTrain_None_rule_ok _ RuleOwner Hv) as Ho.
    simpl in Hn, Ho.
    destruct (get normalized "notes"); try discriminate;
      destruct (get normalized "owner"); try discriminate; reflexivity. }
  pose proof (validateTrain_None_rule_ok _ RuleNotes Hv) as Hn.
  pose proof (validateTrain_None_rule_ok _ RuleOwner Hv) as Ho.
  simpl in Hn, Ho.
  destruct (validateTrain_None_bind_fields row Hrow) as (f & Hf & Hvalid & Hfn & Hfo).
  { subst row. rewrite new_row_notes. destruct (get normalized "notes"); discriminate. }
  { subst row. rewrite new_row_owner. destruct (get normalized "owner"); discriminate. }
  exists f. split; [ exact Hf | ]. split; [ exact Hvalid | ].
  subst row. rewrite new_row_notes in Hfn. rewrite new_row_owner in Hfo.
  destruct (get normalized "notes"); try discriminate;
    destruct (get normalized "owner"); try discriminate;
    simpl in Hfn, Hfo; simplify_eq; auto.
Qed.

Lemma new_run_row_bind_fields (run_id id updated_at : string) (row : obj) :
  bind_fields (new_run_row run_id id updated_at row) = bind_fields row.
Proof. reflexivity. Qed.

(** A valid start command whose body carries neither [id] nor
    [updated_at], served without a fault and with fresh UUIDs, appends
    one train with [active = 1] and one open run with the same fields,
    [start_time] being the train's [updated_at]. *)
Lemma post_running_created (e : env) (req_body : obj) (w : world) :
  validateTrain (normalize StringToNumber req_body) = None →
  req_body !! "id" = None → req_body !! "updated_at" = None →
  env_fault e StmtInsert = false → env_fault e StmtInsertRun = false →
  env_uuid_1 e ∉ t_id <$> trains (store w) →
  env_uuid_2 e ∉ r_id <$> train_runs (store w) →
  ∃ f, valid_fields f
    ∧ bind_fields (new_row (env_uuid_1 e) (env_now e) (normalize StringToNumber req_body))
      = Some f
    ∧ post_running StringToNumber e req_body w
      = let d' := mkDb (trains (store w) ++ [mkTrain (env_uuid_1 e) f 1 (env_now e)])
                       (train_runs (store w)
                        ++ [mkRun (env_uuid_2 e) (env_uuid_1 e) f (env_now e) None]) in
        (Ok (mkResponse 201 (RId (env_uuid_1 e))),
         mkWorld d' (broadcast_to "running:update" (stmtListRunning d') (clients w))).
Proof.
  intros Hv Hid Hua Hf1 Hf2 Hfresh1 Hfresh2.
  destruct (new_row_bind_fields (env_uuid_1 e) (env_now e) _ Hv) as (f & Hf & Hvalid & _).
  exists f. split; [ exact Hvalid | ]. split; [ exact Hf | ].
  unfold post_running. unfold_monad. cbv zeta. rewrite Hv, Hf1.
  unfold stmtInsert. rewrite new_row_id, new_row_updated_at.
  rewrite !normalize_lookup_other by discriminate. rewrite Hid, Hua, Hf.
  cbn [bind_text mbind option_bind].
  rewrite bool_decide_eq_false_2 by exact Hfresh1.
  cbn [store clients]. rewrite Hf2. unfold stmtInsertRun.
  rewrite new_run_row_bind_fields, Hf.
  change (get (new_run_row _ _ _ _) "id") with (VStr (env_uuid_2 e)).
  change (get (new_run_row _ _ _ _) "train_id") with (VStr (env_uuid_1 e)).
  change (get (new_run_row _ _ _ _) "start_time") with (VStr (env_now e)).
  change (get (new_run_row _ _ _ _) "stop_time") with VNull.
  cbn [bind_text bind_text_null mbind option_bind train_runs trains].
  rewrite bool_decide_eq_false_2 by exact Hfresh2. reflexivity.
Qed.
End Start.

(** C4, at a body that carries [id] and [updated_at].  The body passes
    validation; the train is stored under the id ["X"] and the
    [updated_at] of the body, while the response and the run's [train_id]
    carry the generated id and the run's [start_time] the request time. *)
Theorem post_running_body_overrides_id_and_updated_at :
  validateTrain (normalize digits_to_number override_body) = None
  ∧ post_running digits_to_number sample_env override_body empty_world
    = (Ok (mkResponse 201 (RId "u-1")),
       mkWorld
         (mkDb [mkTrain "X" sample_fields 1 "1999-01-01T00:00:00.000Z"]
               [mkRun "u-2" "u-1" sample_fields "2024-05-01T11:35:00.000Z" None])
         []).
Proof. split; vm_compute; reflexivity. Qed.



Section Atomicity.
Variable StringToNumber : string → jsnum.

End Atomicity.

(** ** The report (C6) *)

Lemma Math_round_div_nearest (x d : Z) :
  0 < d → nearest_tie_up x d (Math_round_div x d).
Proof.
  intros Hd. unfold nearest_tie_up, Math_round_div.
  pose proof (Z.mul_div_le (2 * x + d) (2 * d) ltac:(lia)).
  pose proof (Z.mul_succ_div_gt (2 * x + d) (2 * d) ltac:(lia)).
  lia.
Qed.

Lemma is_ymd_truthy (date : string) :
  is_ymd date = true → truthy (VStr date) = true.
Proof. destruct date; [ discriminate | reflexivity ]. Qed.

Lemma duration_of_spec (s e : Z) :
  ∃ k m h r,
    duration_of (Some s) (Some e) = mkDuration (Some m) (Some h) (Some r)
    ∧ nearest_tie_up (e - s) 60000 k
    ∧ m = Z.max 0 k
    ∧ h = m / 60 ∧ r = m mod 60
    ∧ m = 60 * h + r ∧ 0 ≤ r < 60.
Proof.
  exists (Math_round_div (e - s) 60000), (Z.max 0 (Math_round_div (e - s) 60000)).
  set (m := Z.max 0 (Math_round_div (e - s) 60000)).
  exists (m / 60), (m mod 60).
  assert (Hm : 0 ≤ m) by (unfold m; lia).
  split; [ | split; [ apply Math_round_div_nearest; lia | ] ].
  - unfold duration_of. fold m. rewrite Z.rem_mod_nonneg by lia. reflexivity.
  - pose proof (Z.div_mod m 60 ltac:(lia)). pose proof (Z.mod_pos_bound m 60 ltac:(lia)).
    repeat split; lia.
Qed.

Section Report.
Variable Date_parse : string → option Z.
Variable sql_date : string → option string.

(** The instant a row's duration ends at: its [stop_time] when it has
    one, the instant of the query otherwise. *)
Lemma report_row_of_columns (now : Z) (r : run) :
  let row := report_row_of Date_parse now r in
  rp_train_id row = r_train_id r ∧ rp_fields row = r_fields r
  ∧ rp_start_time row = r_start_time r ∧ rp_stop_time row = r_stop_time r
  ∧ (r_stop_time r = None →
       rp_duration row = duration_of (Date_parse (r_start_time r)) (Some now))
  ∧ (∀ t, r_stop_time r = Some t → t ≠ "" →
       rp_duration row = duration_of (Date_parse (r_start_time r)) (Date_parse t)).
Proof.
  cbv zeta. unfold report_row_of. cbn [rp_train_id rp_fields rp_start_time rp_stop_time rp_duration].
  repeat split.
  - intros ->. reflexivity.
  - intros t -> Ht.
    change (from_option VStr VNull (Some t)) with (VStr t).
    change (default "" (Some t)) with t. cbn [truthy].
    destruct (String.eqb_spec t ""); [ contradiction | reflexivity ].
Qed.

(** C6. For a date query in the form YYYY-MM-DD, the report has one
    record per run whose [start_time] falls on that day (SQLite's
    [date(start_time)] equals the parameter), in ascending order of
    [start_time]; each record carries the run's columns, and when the
    timestamps parse its duration is computed from
    [end = stop_time if present else now] as
    [minutes = max(0, round((end - start) / 60000))],
    [hours = floor(minutes / 60)], [remainderMinutes = minutes mod 60].
    A run stopped 95 minutes after its start reports 95, 1 and 35. *)
Theorem get_reports_runs_report (clock : nat → Z) (date : string) (w : world) :
  is_ymd date = true →
  ∃ rows : list run,
    get_reports_runs Date_parse sql_date clock (Some (QText date)) w
    = (Ok (mkResponse 200
             (RRuns (imap (λ i r, report_row_of Date_parse (clock i) r) rows))), w)
    ∧ rows ≡ₚ filter (λ r, sql_date (r_start_time r) = Some date) (train_runs (store w))
    ∧ (∀ i j a b, (i < j)%nat → rows !! i = Some a → rows !! j = Some b →
         text_le (r_start_time a) (r_start_time b))
    ∧ (∀ i r, rows !! i = Some r →
         let row := report_row_of Date_parse (clock i) r in
         rp_train_id row = r_train_id r ∧ rp_fields row = r_fields r
         ∧ rp_start_time row = r_start_time r ∧ rp_stop_time row = r_stop_time r
         ∧ ∀ s e,
             Date_parse (r_start_time r) = Some s →
             (r_stop_time r = None ∧ e = clock i
              ∨ ∃ t, r_stop_time r = Some t ∧ t ≠ "" ∧ Date_parse t = Some e) →
             ∃ k m h rem,
               rp_duration row = mkDuration (Some m) (Some h) (Some rem)
               ∧ nearest_tie_up (e - s) 60000 k
               ∧ m = Z.max 0 k ∧ h = m / 60 ∧ rem = m mod 60
               ∧ (e = s + 95 * 60000 → m = 95 ∧ h = 1 ∧ rem = 35)).
Proof.
  intros Hymd. exists (stmtRunsByDate sql_date date (store w)).
  split; [ | split; [ | split ] ].
  - unfold get_reports_runs.
    change (from_option query_text "undefined" (Some (QText date))) with date.
    change (from_option jsval_of_query VUndef (Some (QText date))) with (VStr date).
    rewrite (is_ymd_truthy date Hymd), Hymd. reflexivity.
  - apply merge_sort_Permutation.
  - intros i j a b Hij Hi Hj.
    eapply (StronglySorted_lookup_lt start_asc); try eassumption.
    apply StronglySorted_merge_sort; apply _.
  - intros i r Hr row.
    destruct (report_row_of_columns (clock i) r) as (H1 & H2 & H3 & H4 & Hopen & Hclosed).
    fold row in H1, H2, H3, H4, Hopen, Hclosed.
    repeat (split; [ assumption | ]).
    intros s e Hs Hend.
    assert (Hd : rp_duration row = duration_of (Some s) (Some e)).
    { destruct Hend as [[Hnone ->] | (t & Ht & Hne & He)].
      - rewrite (Hopen Hnone), Hs. reflexivity.
      - rewrite (Hclosed t Ht Hne), Hs, He. reflexivity. }
    destruct (duration_of_spec s e) as (k & m & h & rem & Hdur & Hk & Hm & Hh & Hrem & _).
    exists k, m, h, rem. rewrite Hd.
    repeat (split; [ assumption | ]).
    intros ->. unfold nearest_tie_up in Hk.
    assert (k = 95) by lia. subst k. subst m h rem. repeat split; reflexivity.
Qed.
End Report.

(** ** Sorting commutes with a map that respects the order *)

Section SortMap.
Context {A : Type} (R : relation A) `{!∀ x y, Decision (R x y)}.
Context (f : A → A) (Hf : ∀ x y, R (f x) (f y) ↔ R x y).

Lemma list_merge_fmap (l1 l2 : list A) :
  list_merge R (f <$> l1) (f <$> l2) = f <$> list_merge R l1 l2.
Proof.
  revert l2. induction l1 as [ | x1 l1 IH1 ]; intros l2.
  - change (f <$> []) with (@nil A). rewrite !list_merge_nil_l. reflexivity.
  - induction l2 as [ | x2 l2 IH2 ].
    + change (f <$> []) with (@nil A). rewrite !list_merge_nil_r. reflexivity.
    + rewrite !fmap_cons, !list_merge_cons.
      destruct (Hf x1 x2) as [Hf1 Hf2].
      destruct (decide (R x1 x2)) as [H12 | H12];
        destruct (decide (R (f x1) (f x2))) as [H12' | H12'];
        try (exfalso; tauto).
      * rewrite fmap_cons. f_equal. rewrite <- IH1. reflexivity.
      * rewrite fmap_cons. f_equal. exact IH2.
Qed.

(** The map on the stack of sorted runs that [merge_sort] keeps. *)
Local Abbreviation stack_map :=
  (fmap (M := list) (fmap (M := option) (fmap (M := list) f))).

Lemma merge_list_to_stack_fmap (st : list (option (list A))) (l : list A) :
  merge_list_to_stack R (stack_map st) (f <$> l)
  = stack_map (merge_list_to_stack R st l).
Proof.
  revert l. induction st as [ | [l' | ] st IH ]; intros l; simpl; try reflexivity.
  rewrite list_merge_fmap, IH. reflexivity.
Qed.

Lemma merge_stack_fmap (st : list (option (list A))) :
  merge_stack R (stack_map st) = f <$> merge_stack R st.
Proof.
  induction st as [ | [l | ] st IH ]; [ reflexivity | | exact IH ].
  change (list_merge R (f <$> l) (merge_stack R (stack_map st))
          = f <$> list_merge R l (merge_stack R st)).
  rewrite IH, list_merge_fmap. reflexivity.
Qed.

Lemma merge_sort_aux_fmap (st : list (option (list A))) (l : list A) :
  merge_sort_aux R (stack_map st) (f <$> l) = f <$> merge_sort_aux R st l.
Proof.
  revert st. induction l as [ | x l IH ]; intros st.
  - apply merge_stack_fmap.
  - change (merge_sort_aux R (merge_list_to_stack R (stack_map st) (f <$> [x])) (f <$> l)
            = f <$> merge_sort_aux R (merge_list_to_stack R st [x]) l).
    rewrite merge_list_to_stack_fmap. apply IH.
Qed.

Lemma merge_sort_fmap (l : list A) :
  merge_sort R (f <$> l) = f <$> merge_sort R l.
Proof. apply (merge_sort_aux_fmap []). Qed.
End SortMap.

(** ** The owner does not reach the public outputs (C8) *)

Lemma filter_fmap_respect {A : Type} (P : A → Prop) `{!∀ x, Decision (P x)}
    (f : A → A) (l : list A) :
  (∀ x, P (f x) ↔ P x) → filter P (f <$> l) = f <$> filter P l.
Proof.
  intros HP. induction l as [ | x l IH ]; [ reflexivity | ].
  rewrite fmap_cons, !filter_cons, IH.
  destruct (HP x) as [HP1 HP2].
  destruct (decide (P x)) as [Hx | Hx]; destruct (decide (P (f x))) as [Hfx | Hfx];
    try reflexivity; exfalso; tauto.
Qed.

Lemma head_fmap {A B : Type} (f : A → B) (l : list A) : head (f <$> l) = f <$> head l.
Proof. destruct l; reflexivity. Qed.

Lemma pub_db_train_ids (d : db) : t_id <$> trains (pub_db d) = t_id <$> trains d.
Proof. unfold pub_db. cbn [trains]. rewrite <- list_fmap_compose. reflexivity. Qed.

Lemma pub_db_run_ids (d : db) : r_id <$> train_runs (pub_db d) = r_id <$> train_runs d.
Proof. unfold pub_db. cbn [train_runs]. rewrite <- list_fmap_compose. reflexivity. Qed.

(** The selected rows do not depend on the owner. *)
Lemma stmtListRunning_trains (l : list train) :
  select_running <$> filter (λ t, t_active t = 1) (public_train <$> l)
  = select_running <$> filter (λ t, t_active t = 1) l.
Proof.
  rewrite (filter_fmap_respect (λ t, t_active t = 1) public_train) by reflexivity.
  rewrite <- list_fmap_compose. reflexivity.
Qed.

Lemma stmtListRunning_pub (d : db) : stmtListRunning (pub_db d) = stmtListRunning d.
Proof.
  unfold stmtListRunning, pub_db. cbn [trains]. rewrite stmtListRunning_trains. reflexivity.
Qed.

Lemma stmtGetById_pub (id : string) (d : db) :
  stmtGetById id (pub_db d) = public_train <$> stmtGetById id d.
Proof.
  unfold stmtGetById, pub_db. cbn [trains].
  rewrite (filter_fmap_respect (λ t, t_id t = id) public_train) by reflexivity.
  apply head_fmap.
Qed.

Lemma stmtFindOpenRun_pub (id : string) (d : db) :
  stmtFindOpenRun id (pub_db d) = stmtFindOpenRun id d.
Proof.
  unfold stmtFindOpenRun, pub_db. cbn [train_runs].
  rewrite (filter_fmap_respect (λ r, r_train_id r = id ∧ r_stop_time r = None) public_run)
    by reflexivity.
  rewrite (merge_sort_fmap start_desc public_run) by reflexivity.
  rewrite head_fmap. destruct (head _); reflexivity.
Qed.

Lemma stmtFindLatestRun_pub (id : string) (d : db) :
  stmtFindLatestRun id (pub_db d) = stmtFindLatestRun id d.
Proof.
  unfold stmtFindLatestRun, pub_db. cbn [train_runs].
  rewrite (filter_fmap_respect (λ r, r_train_id r = id) public_run) by reflexivity.
  rewrite (merge_sort_fmap start_desc public_run) by reflexivity.
  rewrite head_fmap. destruct (head _); reflexivity.
Qed.

(** A query that reads the same from a state and from its public part
    reads the same from two states with the same public part. *)
Lemma query_pub_eq {A : Type} (q : db → A) (d1 d2 : db) :
  (∀ d, q (pub_db d) = q d) → pub_db d1 = pub_db d2 → q d1 = q d2.
Proof. intros Hq H. rewrite <- (Hq d1), H. apply Hq. Qed.

Lemma row_sim_validate (o1 o2 : obj) : row_sim o1 o2 → validateTrain o1 = validateTrain o2.
Proof.
  intros [Hk Ho]. unfold validateTrain.
  rewrite (Hk "name"), (Hk "railway"), (Hk "country"), (Hk "power"), (Hk "trainType"),
          (Hk "numberOfCars"), (Hk "powerType"), (Hk "years"), (Hk "notes"),
          (Hk "location") by discriminate.
  destruct Ho as [-> | (s1 & s2 & -> & ->)]; reflexivity.
Qed.

Lemma row_sim_bind_fields (o1 o2 : obj) :
  row_sim o1 o2 →
  match bind_fields o1, bind_fields o2 with
  | Some f1, Some f2 => hide_owner f1 = hide_owner f2
  | None, None => True
  | _, _ => False
  end.
Proof.
  intros [Hk Ho]. unfold bind_fields.
  rewrite (Hk "name"), (Hk "railway"), (Hk "country"), (Hk "power"), (Hk "trainType"),
          (Hk "numberOfCars"), (Hk "powerType"), (Hk "years"), (Hk "notes"),
          (Hk "location") by discriminate.
  destruct (bind_text (get o2 "name")); cbn [mbind option_bind]; [ | exact I ].
  destruct (bind_text (get o2 "railway")); cbn [mbind option_bind]; [ | exact I ].
  destruct (bind_text (get o2 "country")); cbn [mbind option_bind]; [ | exact I ].
  destruct (bind_text (get o2 "power")); cbn [mbind option_bind]; [ | exact I ].
  destruct (bind_text (get o2 "trainType")); cbn [mbind option_bind]; [ | exact I ].
  destruct (bind_integer (get o2 "numberOfCars")); cbn [mbind option_bind]; [ | exact I ].
  destruct (bind_text (get o2 "powerType")); cbn [mbind option_bind]; [ | exact I ].
  destruct (bind_text (get o2 "years")); cbn [mbind option_bind]; [ | exact I ].
  destruct (bind_text (get o2 "notes")); cbn [mbind option_bind]; [ | exact I ].
  destruct Ho as [-> | (own1 & own2 & -> & ->)].
  - destruct (bind_text (get o2 "owner")); cbn [mbind option_bind]; [ | exact I ].
    destruct (bind_text (get o2 "location")); cbn [mbind option_bind]; [ reflexivity | exact I ].
  - cbn [bind_text mbind option_bind].
    destruct (bind_text (get o2 "location")); cbn [mbind option_bind]; [ reflexivity | exact I ].
Qed.

Lemma pub_db_eq_inv (d1 d2 : db) :
  pub_db d1 = pub_db d2 →
  public_train <$> trains d1 = public_train <$> trains d2
  ∧ public_run <$> train_runs d1 = public_run <$> train_runs d2.
Proof. intros H. split; [ exact (f_equal trains H) | exact (f_equal train_runs H) ]. Qed.

Lemma pub_world_eq_inv (w1 w2 : world) :
  pub_world w1 = pub_world w2 → pub_db (store w1) = pub_db (store w2) ∧ clients w1 = clients w2.
Proof. intros H. split; [ exact (f_equal store H) | exact (f_equal clients H) ]. Qed.

Lemma pub_world_eq (d1 d2 : db) (c : list client) :
  pub_db d1 = pub_db d2 → pub_world (mkWorld d1 c) = pub_world (mkWorld d2 c).
Proof. intros H. unfold pub_world. cbn [store clients]. rewrite H. reflexivity. Qed.

Lemma train_ids_eq (d1 d2 : db) :
  pub_db d1 = pub_db d2 → t_id <$> trains d1 = t_id <$> trains d2.
Proof. intros H. rewrite <- (pub_db_train_ids d1), H. apply pub_db_train_ids. Qed.

Lemma run_ids_eq (d1 d2 : db) :
  pub_db d1 = pub_db d2 → r_id <$> train_runs d1 = r_id <$> train_runs d2.
Proof. intros H. rewrite <- (pub_db_run_ids d1), H. apply pub_db_run_ids. Qed.

(** *** The write statements on two states with the same public part *)

Lemma stmtInsert_sim (row : obj) (d1 d2 : db) :
  pub_db d1 = pub_db d2 → pub_db <$> stmtInsert row d1 = pub_db <$> stmtInsert row d2.
Proof.
  intros H. unfold stmtInsert.
  destruct (bind_text (get row "id")) as [i | ]; [ | reflexivity ].
  destruct (bind_fields row) as [f | ]; [ | reflexivity ].
  destruct (bind_text (get row "updated_at")) as [u | ]; [ | reflexivity ].
  cbn [mbind option_bind]. rewrite (train_ids_eq d1 d2 H).
  case_bool_decide; [ reflexivity | ].
  destruct (pub_db_eq_inv _ _ H) as [Ht Hr].
  cbn [fmap option_fmap option_map]. f_equal. unfold pub_db. cbn [trains train_runs].
  rewrite !fmap_app, Ht, Hr. reflexivity.
Qed.

Lemma stmtInsertRun_sim (row : obj) (d1 d2 : db) :
  pub_db d1 = pub_db d2 → pub_db <$> stmtInsertRun row d1 = pub_db <$> stmtInsertRun row d2.
Proof.
  intros H. unfold stmtInsertRun.
  destruct (bind_text (get row "id")) as [i | ]; [ | reflexivity ].
  destruct (bind_text (get row "train_id")) as [t | ]; [ | reflexivity ].
  destruct (bind_fields row) as [f | ]; [ | reflexivity ].
  destruct (bind_text (get row "start_time")) as [u | ]; [ | reflexivity ].
  destruct (bind_text_null (get row "stop_time")) as [st | ]; [ | reflexivity ].
  cbn [mbind option_bind]. rewrite (run_ids_eq d1 d2 H).
  case_bool_decide; [ reflexivity | ].
  destruct (pub_db_eq_inv _ _ H) as [Ht Hr].
  cbn [fmap option_fmap option_map]. f_equal. unfold pub_db. cbn [trains train_runs].
  rewrite !fmap_app, Ht, Hr. reflexivity.
Qed.

Lemma public_assign_train (id : string) (f : fields) (u : string) (l : list train) :
  public_train <$> (assign_train id f u <$> l)
  = assign_train id (hide_owner f) u <$> (public_train <$> l).
Proof.
  rewrite <- !list_fmap_compose. apply list_fmap_ext. intros _ t _. simpl.
  unfold assign_train. cbn [public_train t_id]. case_bool_decide; reflexivity.
Qed.

Lemma stmtUpdate_sim (o1 o2 : obj) (d1 d2 : db) :
  row_sim o1 o2 → pub_db d1 = pub_db d2 →
  pub_db <$> stmtUpdate o1 d1 = pub_db <$> stmtUpdate o2 d2.
Proof.
  intros Hrow H. pose proof (row_sim_bind_fields o1 o2 Hrow) as Hf.
  destruct Hrow as [Hk _]. unfold stmtUpdate.
  rewrite (Hk "updated_at"), (Hk "id") by discriminate.
  destruct (bind_fields o1) as [f1 | ], (bind_fields o2) as [f2 | ];
    try contradiction; [ | reflexivity ].
  cbn [mbind option_bind].
  destruct (bind_text (get o2 "updated_at")) as [u | ]; [ | reflexivity ].
  destruct (bind_text (get o2 "id")) as [i | ]; [ | reflexivity ].
  cbn [mbind option_bind fmap option_fmap option_map]. f_equal.
  destruct (pub_db_eq_inv _ _ H) as [Ht Hr].
  unfold pub_db. cbn [trains train_runs].
  rewrite !public_assign_train, Ht, Hr, Hf. reflexivity.
Qed.

Lemma stmtDeactivate_sim (row : obj) (d1 d2 : db) :
  pub_db d1 = pub_db d2 →
  pub_db <$> stmtDeactivate row d1 = pub_db <$> stmtDeactivate row d2.
Proof.
  intros H. unfold stmtDeactivate.
  destruct (bind_text (get row "updated_at")) as [u | ]; [ | reflexivity ].
  destruct (bind_text (get row "id")) as [i | ]; [ | reflexivity ].
  cbn [mbind option_bind fmap option_fmap option_map]. f_equal.
  destruct (pub_db_eq_inv _ _ H) as [Ht Hr].
  unfold pub_db. cbn [trains train_runs]. rewrite Hr. f_equal.
  assert (Hc : ∀ l : list train, public_train <$> (deactivate_train i u <$> l)
                    = deactivate_train i u <$> (public_train <$> l)).
  { intros l. rewrite <- !list_fmap_compose. apply list_fmap_ext. intros _ t _. simpl.
    unfold deactivate_train. cbn [public_train t_id]. case_bool_decide; reflexivity. }
  rewrite !Hc, Ht. reflexivity.
Qed.

Lemma stmtUpdateRunStop_sim (row : obj) (d1 d2 : db) :
  pub_db d1 = pub_db d2 →
  pub_db <$> stmtUpdateRunStop row d1 = pub_db <$> stmtUpdateRunStop row d2.
Proof.
  intros H. unfold stmtUpdateRunStop.
  destruct (bind_text_null (get row "stop_time")) as [st | ]; [ | reflexivity ].
  destruct (bind_text (get row "id")) as [i | ]; [ | reflexivity ].
  cbn [mbind option_bind fmap option_fmap option_map]. f_equal.
  destruct (pub_db_eq_inv _ _ H) as [Ht Hr].
  unfold pub_db. cbn [trains train_runs]. rewrite Ht. f_equal.
  assert (Hc : ∀ l : list run, public_run <$> (set_stop_time i st <$> l)
                    = set_stop_time i st <$> (public_run <$> l)).
  { intros l. rewrite <- !list_fmap_compose. apply list_fmap_ext. intros _ r _. simpl.
    unfold set_stop_time. cbn [public_run r_id]. case_bool_decide; reflexivity. }
  rewrite !Hc, Hr. reflexivity.
Qed.

(** *** The handler monad on two worlds with the same public part *)

Lemma sim_ret {A : Type} (RA : A → A → Prop) (a b : A) (w1 w2 : world) :
  RA a b → pub_world w1 = pub_world w2 → sim RA ((mret a : M A) w1) ((mret b : M A) w2).
Proof. intros Hab Hw. split; assumption. Qed.

Lemma sim_bind {A B : Type} (RA : A → A → Prop) (RB : B → B → Prop)
    (m1 m2 : M A) (k1 k2 : A → M B) (w1 w2 : world) :
  sim RA (m1 w1) (m2 w2) →
  (∀ a b w1' w2', RA a b → pub_world w1' = pub_world w2' → sim RB (k1 a w1') (k2 b w2')) →
  sim RB ((m1 ≫= k1) w1) ((m2 ≫= k2) w2).
Proof.
  intros [Hres Hw] Hk. unfold mbind, M_bind.
  destruct (m1 w1) as [[a | ] w1'], (m2 w2) as [[b | ] w2']; cbn [fst snd] in *;
    try contradiction.
  - apply Hk; assumption.
  - split; [ exact I | exact Hw ].
Qed.

Lemma sim_query {A : Type} (RA : A → A → Prop) (q1 q2 : db → A) (w1 w2 : world) :
  pub_world w1 = pub_world w2 →
  RA (q1 (store w1)) (q2 (store w2)) →
  sim RA (query q1 w1) (query q2 w2).
Proof. intros Hw Hq. split; assumption. Qed.

Lemma sim_run_stmt (e : env) (s : stmt) (f1 f2 : db → option db) (w1 w2 : world) :
  pub_world w1 = pub_world w2 →
  pub_db <$> f1 (store w1) = pub_db <$> f2 (store w2) →
  sim eq (run_stmt e s f1 w1) (run_stmt e s f2 w2).
Proof.
  intros Hw Hf. unfold run_stmt. destruct (env_fault e s); [ split; [ exact I | exact Hw ] | ].
  destruct (pub_world_eq_inv _ _ Hw) as [_ Hc].
  destruct (f1 (store w1)) as [d1 | ], (f2 (store w2)) as [d2 | ]; try discriminate.
  - split; [ reflexivity | ]. cbn [snd]. rewrite Hc. apply pub_world_eq.
    cbn [fmap option_fmap option_map] in Hf. congruence.
  - split; [ exact I | exact Hw ].
Qed.

Lemma sim_broadcast (ev : string) (p : list running_row) (w1 w2 : world) :
  pub_world w1 = pub_world w2 → sim eq (broadcast ev p w1) (broadcast ev p w2).
Proof.
  intros Hw. destruct (pub_world_eq_inv _ _ Hw) as [Hd Hc].
  split; [ reflexivity | ]. unfold broadcast. cbn [snd]. rewrite Hc. apply pub_world_eq. exact Hd.
Qed.

(** The tail shared by the three mutating handlers: read the list,
    broadcast it, answer. *)
Lemma sim_publish (r : response) (w1 w2 : world) :
  pub_world w1 = pub_world w2 →
  let publish : M response :=
    p ← query stmtListRunning; _ ← broadcast "running:update" p; mret r in
  sim eq (publish w1) (publish w2).
Proof.
  intros Hw publish. subst publish. eapply sim_bind with (RA := eq).
  - apply sim_query; [ exact Hw | ].
    apply (query_pub_eq stmtListRunning); [ apply stmtListRunning_pub | ].
    apply pub_world_eq_inv. exact Hw.
  - intros p ? w1' w2' <- Hw'. eapply sim_bind with (RA := eq).
    + apply sim_broadcast. exact Hw'.
    + intros _ _ w1'' w2'' _ Hw''. apply sim_ret; [ reflexivity | exact Hw'' ].
Qed.

Lemma obj_of_train_sim (t1 t2 : train) :
  public_train t1 = public_train t2 → row_sim (obj_of_train t1) (obj_of_train t2).
Proof.
  destruct t1 as [i1 [n1 r1 c1 p1 tt1 nc1 pt1 y1 no1 o1 l1] a1 u1].
  destruct t2 as [i2 [n2 r2 c2 p2 tt2 nc2 pt2 y2 no2 o2 l2] a2 u2].
  unfold public_train, hide_owner. cbn. intros H. simplify_eq. split.
  - intros k Hk. unfold get, obj_of_train, list_to_map.
    cbn [fold_right fst snd t_id t_fields t_active t_updated_at f_name f_railway f_country
         f_power f_trainType f_numberOfCars f_powerType f_years f_notes f_owner f_location].
    rewrite !lookup_insert. repeat case_decide; try reflexivity. congruence.
  - right. exists o1, o2. split; reflexivity.
Qed.

Lemma row_sim_insert (o1 o2 : obj) (k : string) (v : jsval) :
  row_sim o1 o2 → k ≠ "owner" → row_sim (<[k := v]> o1) (<[k := v]> o2).
Proof.
  intros [Hk Ho] Hne. split.
  - intros k' Hne'. destruct (decide (k = k')) as [<- | Hkk].
    + rewrite !get_insert_eq. reflexivity.
    + rewrite (get_insert_ne o1), (get_insert_ne o2) by exact Hkk. apply Hk. exact Hne'.
  - rewrite (get_insert_ne o1), (get_insert_ne o2) by exact Hne. exact Ho.
Qed.

Lemma row_sim_union (a o1 o2 : obj) : row_sim o1 o2 → row_sim (a ∪ o1) (a ∪ o2).
Proof.
  intros [Hk Ho]. split.
  - intros k Hne. rewrite !get_union. destruct (a !! k); [ reflexivity | apply Hk; exact Hne ].
  - rewrite !get_union. destruct (a !! "owner"); [ left; reflexivity | exact Ho ].
Qed.

Section Public.
Variable StringToNumber : string → jsnum.
Variable Date_parse : string → option Z.
Variable sql_date : string → option string.

Lemma merge_patch_sim (id : string) (req_body : obj) (t1 t2 : train) :
  public_train t1 = public_train t2 →
  row_sim (merge_patch StringToNumber id req_body t1)
          (merge_patch StringToNumber id req_body t2).
Proof.
  intros H. pose proof (obj_of_train_sim t1 t2 H) as Hrow.
  apply (row_sim_union req_body) in Hrow.
  apply (row_sim_insert _ _ "id" (VStr id)) in Hrow; [ | discriminate ].
  unfold merge_patch. cbv zeta. case_bool_decide; [ | exact Hrow ].
  apply row_sim_insert; [ exact Hrow | discriminate ].
Qed.

Lemma get_running_sim (w1 w2 : world) :
  pub_world w1 = pub_world w2 → sim eq (get_running w1) (get_running w2).
Proof.
  intros Hw. unfold get_running. eapply sim_bind with (RA := eq).
  - apply sim_query; [ exact Hw | ].
    apply (query_pub_eq stmtListRunning); [ apply stmtListRunning_pub | ].
    apply pub_world_eq_inv. exact Hw.
  - intros p ? w1' w2' <- Hw'. apply sim_ret; [ reflexivity | exact Hw' ].
Qed.

Lemma post_running_sim (e : env) (req_body : obj) (w1 w2 : world) :
  pub_world w1 = pub_world w2 →
  sim eq (post_running StringToNumber e req_body w1)
         (post_running StringToNumber e req_body w2).
Proof.
  intros Hw. unfold post_running. cbv zeta.
  destruct (validateTrain _); [ apply sim_ret; [ reflexivity | exact Hw ] | ].
  eapply sim_bind with (RA := eq).
  { apply sim_run_stmt; [ exact Hw | ]. apply stmtInsert_sim, pub_world_eq_inv, Hw. }
  intros _ _ w1' w2' _ Hw'. eapply sim_bind with (RA := eq).
  { apply sim_run_stmt; [ exact Hw' | ]. apply stmtInsertRun_sim, pub_world_eq_inv, Hw'. }
  intros _ _ w1'' w2'' _ Hw''. apply sim_publish. exact Hw''.
Qed.

Lemma patch_running_sim (e : env) (id : string) (req_body : obj) (w1 w2 : world) :
  pub_world w1 = pub_world w2 →
  sim eq (patch_running StringToNumber e id req_body w1)
         (patch_running StringToNumber e id req_body w2).
Proof.
  intros Hw. unfold patch_running.
  eapply sim_bind with (RA := λ a b, public_train <$> a = public_train <$> b).
  { apply sim_query; [ exact Hw | ]. rewrite <- !stmtGetById_pub.
    destruct (pub_world_eq_inv _ _ Hw) as [-> _]. reflexivity. }
  intros [t1 | ] [t2 | ] w1' w2' Ht Hw'; try discriminate;
    [ | apply sim_ret; [ reflexivity | exact Hw' ] ].
  cbn [fmap option_fmap option_map] in Ht. apply (inj Some) in Ht. cbv zeta.
  pose proof (merge_patch_sim id req_body t1 t2 Ht) as Hrow.
  rewrite (row_sim_validate _ _ Hrow).
  destruct (validateTrain _); [ apply sim_ret; [ reflexivity | exact Hw' ] | ].
  eapply sim_bind with (RA := eq).
  { apply sim_run_stmt; [ exact Hw' | ]. apply stmtUpdate_sim.
    - apply row_sim_insert; [ exact Hrow | discriminate ].
    - apply pub_world_eq_inv, Hw'. }
  intros _ _ w1'' w2'' _ Hw''. apply sim_publish. exact Hw''.
Qed.
End Public.

Section PublicExecutions.
Variable StringToNumber : string → jsnum.
Variable Date_parse : string → option Z.
Variable sql_date : string → option string.

Lemma delete_running_sim (e : env) (id : string) (w1 w2 : world) :
  pub_world w1 = pub_world w2 →
  sim eq (delete_running e id w1) (delete_running e id w2).
Proof.
  intros Hw. unfold delete_running.
  eapply sim_bind with (RA := λ a b, public_train <$> a = public_train <$> b).
  { apply sim_query; [ exact Hw | ]. rewrite <- !stmtGetById_pub.
    destruct (pub_world_eq_inv _ _ Hw) as [-> _]. reflexivity. }
  intros [t1 | ] [t2 | ] w1' w2' Ht Hw'; try discriminate;
    [ | apply sim_ret; [ reflexivity | exact Hw' ] ].
  cbn [fmap option_fmap option_map] in Ht. apply (inj Some) in Ht. cbv zeta.
  eapply sim_bind with (RA := eq).
  { apply sim_run_stmt; [ exact Hw' | ]. apply stmtDeactivate_sim, pub_world_eq_inv, Hw'. }
  clear w1' w2' Hw'. intros _ _ w1' w2' _ Hw'.
  eapply sim_bind with (RA := eq).
  { apply sim_query; [ exact Hw' | ].
    apply (query_pub_eq (stmtFindOpenRun id)); [ apply stmtFindOpenRun_pub | ].
    apply pub_world_eq_inv. exact Hw'. }
  clear w1' w2' Hw'. intros openRun ? w1' w2' <- Hw'.
  eapply sim_bind with (RA := eq); [ | intros _ _ w1'' w2'' _ Hw''; apply sim_publish, Hw'' ].
  destruct openRun as [rid | ].
  { apply sim_run_stmt; [ exact Hw' | ]. apply stmtUpdateRunStop_sim, pub_world_eq_inv, Hw'. }
  eapply sim_bind with (RA := eq).
  { apply sim_query; [ exact Hw' | ].
    apply (query_pub_eq (stmtFindLatestRun id)); [ apply stmtFindLatestRun_pub | ].
    apply pub_world_eq_inv. exact Hw'. }
  clear w1' w2' Hw'. intros latest ? w1' w2' <- Hw'. cbv zeta.
  destruct (truthy _).
  { apply sim_run_stmt; [ exact Hw' | ]. apply stmtUpdateRunStop_sim, pub_world_eq_inv, Hw'. }
  apply sim_run_stmt; [ exact Hw' | ].
  destruct (pub_world_eq_inv _ _ Hw') as [Hd _].
  rewrite !stmtInsertRun_existing, (run_ids_eq _ _ Hd).
  case_bool_decide; [ reflexivity | ].
  cbn [fmap option_fmap option_map]. f_equal.
  destruct (pub_db_eq_inv _ _ Hd) as [Htr Hr].
  unfold pub_db. cbn [trains train_runs]. rewrite !fmap_app, Htr, Hr.
  cbn [fmap list_fmap public_run r_id r_train_id r_fields r_start_time r_stop_time].
  unfold public_run. cbn [r_id r_train_id r_fields r_start_time r_stop_time].
  rewrite (f_equal t_fields Ht : hide_owner (t_fields t1) = hide_owner (t_fields t2)).
  reflexivity.
Qed.

Lemma get_reports_runs_world (clock : nat → Z) (date : option query_value) (w : world) :
  (get_reports_runs Date_parse sql_date clock date w).2 = w.
Proof.
  unfold get_reports_runs. destruct (_ || _); [ reflexivity | ].
  destruct date as [[s | prim] | ]; reflexivity.
Qed.

Lemma on_connection_sim (w1 w2 : world) :
  pub_world w1 = pub_world w2 → sim eq (on_connection w1) (on_connection w2).
Proof.
  intros Hw. destruct (pub_world_eq_inv _ _ Hw) as [Hd Hc].
  split; [ reflexivity | ]. unfold on_connection. cbn [snd].
  rewrite Hc, (query_pub_eq stmtListRunning _ _ stmtListRunning_pub Hd).
  apply pub_world_eq. exact Hd.
Qed.

(** One event keeps two worlds with the same public part in step. *)
Lemma step_sim (ev : event_in) (w1 w2 : world) :
  pub_world w1 = pub_world w2 →
  pub_world (step StringToNumber Date_parse sql_date ev w1)
  = pub_world (step StringToNumber Date_parse sql_date ev w2).
Proof.
  intros Hw. destruct ev as [ | e b | e id b | e id | clock date | | i rs ]; cbn [step].
  - apply get_running_sim, Hw.
  - apply post_running_sim, Hw.
  - apply patch_running_sim, Hw.
  - apply delete_running_sim, Hw.
  - rewrite !get_reports_runs_world. exact Hw.
  - apply on_connection_sim, Hw.
  - destruct (pub_world_eq_inv _ _ Hw) as [Hd Hc]. rewrite Hc. apply pub_world_eq, Hd.
Qed.

Lemma run_events_sim (evs : list event_in) (w1 w2 : world) :
  pub_world w1 = pub_world w2 →
  pub_world (run_events StringToNumber Date_parse sql_date evs w1)
  = pub_world (run_events StringToNumber Date_parse sql_date evs w2).
Proof.
  revert w1 w2. induction evs as [ | ev evs IH ]; intros w1 w2 Hw; [ exact Hw | ].
  cbn [run_events fold_left]. apply IH, step_sim, Hw.
Qed.

(** C8. The owner reaches no public output.  Take two worlds with the
    same viewers whose registries differ only in owner columns.  Then the
    running list, the answer of GET /api/running and the init message a
    connecting viewer is sent are the same in both.  If the ledgers too
    differ only in owner columns and the same events happen to both
    worlds, then at every moment the running list is the same in both and
    every viewer has been sent the same messages, init and update alike.
    The JSON object of a row of the running list has no [owner]
    property. *)
Theorem owner_never_public (evs : list event_in) (w1 w2 : world) :
  clients w1 = clients w2 →
  public_train <$> trains (store w1) = public_train <$> trains (store w2) →
  stmtListRunning (store w1) = stmtListRunning (store w2)
  ∧ (get_running w1).1 = (get_running w2).1
  ∧ clients (on_connection w1).2 = clients (on_connection w2).2
  ∧ (public_run <$> train_runs (store w1) = public_run <$> train_runs (store w2) →
     let run := run_events StringToNumber Date_parse sql_date evs in
     stmtListRunning (store (run w1)) = stmtListRunning (store (run w2))
     ∧ (get_running (run w1)).1 = (get_running (run w2)).1
     ∧ clients (run w1) = clients (run w2)
     ∧ pub_db (store (run w1)) = pub_db (store (run w2)))
  ∧ (∀ d r, r ∈ stmtListRunning d → obj_of_running r !! "owner" = None).
Proof.
  intros Hc Ht.
  assert (Hl : stmtListRunning (store w1) = stmtListRunning (store w2)).
  { unfold stmtListRunning.
    rewrite <- (stmtListRunning_trains (trains (store w1))),
            <- (stmtListRunning_trains (trains (store w2))), Ht.
    reflexivity. }
  split; [ exact Hl | ]. split; [ | split; [ | split ] ].
  - unfold get_running. unfold_monad. cbn [fst]. rewrite Hl. reflexivity.
  - unfold on_connection. cbn [snd clients]. rewrite Hc, Hl. reflexivity.
  - intros Hr run.
    assert (Hw : pub_world w1 = pub_world w2).
    { unfold pub_world, pub_db. rewrite Hc, Ht, Hr. reflexivity. }
    apply (run_events_sim evs) in Hw. fold run in Hw.
    destruct (pub_world_eq_inv _ _ Hw) as [Hd' Hc'].
    pose proof (query_pub_eq stmtListRunning _ _ stmtListRunning_pub Hd') as Hl'.
    split; [ exact Hl' | ]. split; [ | split; assumption ].
    unfold get_running. unfold_monad. cbn [fst]. rewrite Hl'. reflexivity.
  - intros d r _. reflexivity.
Qed.
End PublicExecutions.

(** ** Init before update (C9) *)

Lemma keeps_ret {A : Type} (a : A) : keeps_clients (mret a : M A).
Proof. intros w. reflexivity. Qed.

Lemma keeps_query {A : Type} (q : db → A) : keeps_clients (query q).
Proof. intros w. reflexivity. Qed.

Lemma keeps_run_stmt (e : env) (s : stmt) (f : db → option db) : keeps_clients (run_stmt e s f).
Proof. intros w. unfold run_stmt. destruct (env_fault e s), (f (store w)); reflexivity. Qed.

Lemma keeps_bind {A B : Type} (m : M A) (k : A → M B) :
  keeps_clients m → (∀ a, keeps_clients (k a)) → keeps_clients (m ≫= k).
Proof.
  intros Hm Hk w. unfold mbind, M_bind. specialize (Hm w).
  destruct (m w) as [[a | ] w']; cbn [snd] in *; [ | exact Hm ].
  rewrite Hk. exact Hm.
Qed.

Lemma publishes_keeps {A : Type} (m : M A) : keeps_clients m → publishes m.
Proof. intros Hm w. left. apply Hm. Qed.

Lemma publishes_bind {A B : Type} (m : M A) (k : A → M B) :
  keeps_clients m → (∀ a, publishes (k a)) → publishes (m ≫= k).
Proof.
  intros Hm Hk w. unfold mbind, M_bind. specialize (Hm w).
  destruct (m w) as [[a | ] w']; cbn [snd] in *; [ | left; exact Hm ].
  rewrite <- Hm. apply Hk.
Qed.

Lemma publishes_publish (r : response) :
  publishes (p ← query stmtListRunning; _ ← broadcast "running:update" p; mret r).
Proof. intros w. right. exists (stmtListRunning (store w)). reflexivity. Qed.

Section Viewers.
Variable StringToNumber : string → jsnum.
Variable Date_parse : string → option Z.
Variable sql_date : string → option string.

Lemma post_running_publishes (e : env) (req_body : obj) :
  publishes (post_running StringToNumber e req_body).
Proof.
  unfold post_running. cbv zeta.
  destruct (validateTrain _); [ apply publishes_keeps, keeps_ret | ].
  apply publishes_bind; [ apply keeps_run_stmt | intros _ ].
  apply publishes_bind; [ apply keeps_run_stmt | intros _ ].
  apply publishes_publish.
Qed.

Lemma patch_running_publishes (e : env) (id : string) (req_body : obj) :
  publishes (patch_running StringToNumber e id req_body).
Proof.
  unfold patch_running.
  apply publishes_bind; [ apply keeps_query | intros [existing | ] ];
    [ | apply publishes_keeps, keeps_ret ].
  cbv zeta. destruct (validateTrain _); [ apply publishes_keeps, keeps_ret | ].
  apply publishes_bind; [ apply keeps_run_stmt | intros _ ].
  apply publishes_publish.
Qed.

Lemma delete_running_publishes (e : env) (id : string) :
  publishes (delete_running e id).
Proof.
  unfold delete_running.
  apply publishes_bind; [ apply keeps_query | intros [existing | ] ];
    [ | apply publishes_keeps, keeps_ret ].
  cbv zeta.
  apply publishes_bind; [ apply keeps_run_stmt | intros _ ].
  apply publishes_bind; [ apply keeps_query | intros openRun ].
  apply publishes_bind; [ | intros _; apply publishes_publish ].
  destruct openRun as [rid | ]; [ apply keeps_run_stmt | ].
  apply keeps_bind; [ apply keeps_query | intros latest ].
  cbv zeta. destruct (truthy _); apply keeps_run_stmt.
Qed.

(** A connection adds one viewer, in state OPEN, whose only message so far
    is the init message with the running list of that moment. *)
Lemma on_connection_sends_init (w : world) :
  on_connection w
  = (Ok (),
     mkWorld (store w)
             (clients w
              ++ [mkClient 1 [mkMessage "running:init" (stmtListRunning (store w))]])).
Proof. reflexivity. Qed.

(** One update more keeps "an init, then updates only". *)
Lemma init_then_updates_broadcast (p0 p : list running_row) (cs : list client) (i : nat) (c : client) :
  broadcast_to "running:update" p cs !! i = Some c →
  ∃ c0, cs !! i = Some c0
        ∧ (init_then_updates p0 (received c0) → init_then_updates p0 (received c)).
Proof.
  unfold broadcast_to. rewrite list_lookup_fmap. intros H.
  destruct (cs !! i) as [c0 | ]; [ | discriminate ]. exists c0. split; [ reflexivity | ].
  cbn in H. injection H as <-. case_bool_decide; [ | auto ].
  intros (rest & Hrec & Hall). exists (rest ++ [mkMessage "running:update" p]).
  unfold send. cbn [received]. rewrite Hrec. split; [ reflexivity | ].
  apply Forall_app. split; [ exact Hall | ]. constructor; [ reflexivity | constructor ].
Qed.

(** C9. Start from any database with no viewer connected and let any
    events happen.  Every viewer then listed connected at some event of
    the history, and what it has been sent begins with a "running:init"
    message whose payload is the running list of the database as it was
    at that event; every later message to it is a "running:update". *)
Theorem init_before_update (evs : list event_in) (w0 : world) (i : nat) (c : client) :
  clients w0 = [] →
  clients (run_events StringToNumber Date_parse sql_date evs w0) !! i = Some c →
  ∃ evs1 evs2,
    evs = evs1 ++ EConnection :: evs2
    ∧ length (clients (run_events StringToNumber Date_parse sql_date evs1 w0)) = i
    ∧ init_then_updates
        (stmtListRunning (store (run_events StringToNumber Date_parse sql_date evs1 w0)))
        (received c).
Proof.
  intros H0. revert i c.
  induction evs as [ | ev evs IH ] using rev_ind; intros i c Hc.
  { cbn in Hc. rewrite H0 in Hc. discriminate. }
  unfold run_events in Hc. rewrite fold_left_app in Hc. cbn [fold_left] in Hc.
  fold (run_events StringToNumber Date_parse sql_date evs w0) in Hc.
  set (w := run_events StringToNumber Date_parse sql_date evs w0) in *.
  assert (Hkeep : ∀ c0, clients w !! i = Some c0 →
            (∀ p, init_then_updates p (received c0) → init_then_updates p (received c)) →
            ∃ evs1 evs2,
              (evs ++ [ev]) = evs1 ++ EConnection :: evs2
              ∧ length (clients (run_events StringToNumber Date_parse sql_date evs1 w0)) = i
              ∧ init_then_updates
                  (stmtListRunning
                     (store (run_events StringToNumber Date_parse sql_date evs1 w0)))
                  (received c)).
  { intros c0 Hc0 Himp. destruct (IH i c0 Hc0) as (evs1 & evs2 & -> & Hlen & Hinit).
    exists evs1, (evs2 ++ [ev]). split; [ rewrite <- app_assoc; reflexivity | ].
    split; [ exact Hlen | apply Himp; exact Hinit ]. }
  assert (Hpub : ∀ (m : M response), publishes m → clients (m w).2 !! i = Some c →
            ∃ c0, clients w !! i = Some c0
                  ∧ ∀ p, init_then_updates p (received c0) → init_then_updates p (received c)).
  { intros m Hm Hi. destruct (Hm w) as [Heq | (p & Heq)]; rewrite Heq in Hi.
    - exists c. auto.
    - destruct (init_then_updates_broadcast [] p _ _ _ Hi) as (c0 & Hc0 & _).
      exists c0. split; [ exact Hc0 | ]. intros p0.
      destruct (init_then_updates_broadcast p0 p _ _ _ Hi) as (c0' & Hc0' & Himp).
      rewrite Hc0 in Hc0'. injection Hc0' as <-. exact Himp. }
  destruct ev as [ | e b | e id b | e id | clock date | | j rs ]; cbn [step] in Hc.
  - apply (Hkeep c); [ exact Hc | auto ].
  - destruct (Hpub _ (post_running_publishes e b) Hc) as (c0 & Hc0 & Himp). eauto.
  - destruct (Hpub _ (patch_running_publishes e id b) Hc) as (c0 & Hc0 & Himp). eauto.
  - destruct (Hpub _ (delete_running_publishes e id) Hc) as (c0 & Hc0 & Himp). eauto.
  - rewrite get_reports_runs_world in Hc. apply (Hkeep c); [ exact Hc | auto ].
  - unfold on_connection in Hc. cbn [snd clients] in Hc.
    apply lookup_snoc_Some in Hc as [[Hlt Hc] | [-> <-]].
    + apply (Hkeep c); [ exact Hc | auto ].
    + exists evs, []. split; [ reflexivity | ]. split; [ reflexivity | ].
      exists []. split; [ reflexivity | constructor ].
  - cbn [clients] in Hc. destruct (decide (j = i)) as [-> | Hne].
    + rewrite list_lookup_alter_eq in Hc.
      destruct (clients w !! i) as [c0 | ] eqn:Hc0; [ | discriminate ].
      cbn in Hc. injection Hc as <-. apply (Hkeep c0); [ reflexivity | auto ].
    + rewrite list_lookup_alter_ne in Hc by exact Hne.
      apply (Hkeep c); [ exact Hc | auto ].
Qed.
End Viewers.

(** ** The order of the validation messages (C3) *)

(** C3, refuted as stated: a record whose [powerType] and [numberOfCars]
    are both invalid gets the [numberOfCars] message, whereas the first
    violated rule in the order of the specification is [powerType]. *)
Lemma validateTrain_not_spec_order :
  rule_ok RulePowerType two_faults_body = false
  ∧ rule_ok RuleNumberOfCars two_faults_body = false
  ∧ first_violation spec_order two_faults_body = Some msg_powerType
  ∧ validateTrain two_faults_body = Some msg_numberOfCars
  ∧ validateTrain two_faults_body ≠ first_violation spec_order two_faults_body.
Proof.
  repeat split; try (vm_compute; reflexivity). vm_compute. discriminate.
Qed.

(** C3, as the code has it.  The message [validateTrain] returns is that of
    the first violated rule in the order name, railway, country, power,
    trainType, numberOfCars, powerType, years, location, notes, owner, and
    it returns [null] exactly when no rule is violated; in particular a
    record that violates [numberOfCars] and none of the five rules before
    it gets the [numberOfCars] message, whatever its [powerType]. *)
Theorem validateTrain_first_violation_code_order (o : obj) :
  validateTrain o = first_violation code_order o
  ∧ (validateTrain o = None ↔ ∀ r, rule_ok r o = true)
  ∧ (rule_ok RuleName o = true → rule_ok RuleRailway o = true →
     rule_ok RuleCountry o = true → rule_ok RulePower o = true →
     rule_ok RuleTrainType o = true → rule_ok RuleNumberOfCars o = false →
     validateTrain o = Some msg_numberOfCars).
Proof.
  split; [ apply validateTrain_code_order | ]. split; [ split | ].
  - intros H r. apply validateTrain_None_rule_ok. exact H.
  - intros H. rewrite validateTrain_code_order. unfold first_violation, code_order.
    rewrite !filter_rule_cons, !H. reflexivity.
  - intros H1 H2 H3 H4 H5 H6. rewrite validateTrain_code_order.
    unfold first_violation, code_order.
    rewrite !filter_rule_cons, H1, H2, H3, H4, H5, H6. reflexivity.
Qed.

(** ** The statements above at the sample data *)

Lemma sample_world_wf : wf_db (store sample_world).
Proof.
  constructor; apply (bool_decide_unpack _); vm_compute; exact I.
Defined.

Lemma delete_running_three_tier_witness :
  wf_db (store sample_world)
  ∧ stmtGetById "t-1" (store sample_world) = Some sample_train
  ∧ no_fault sample_env
  ∧ (env_uuid_1 sample_env ∉ r_id <$> train_runs (store sample_world))
  ∧ ∃ r', r' ∈ train_runs (store (delete_running sample_env "t-1" sample_world).2)
          ∧ r_train_id r' = "t-1" ∧ r_stop_time r' = Some (env_now sample_env).
Proof.
  assert (H1 : stmtGetById "t-1" (store sample_world) = Some sample_train) by reflexivity.
  assert (H2 : no_fault sample_env) by (intros s; reflexivity).
  assert (H3 : env_uuid_1 sample_env ∉ r_id <$> train_runs (store sample_world))
    by (apply (bool_decide_unpack _); vm_compute; exact I).
  repeat (split; [ first [ exact sample_world_wf | assumption ] | ]).
  exact (proj2 (proj2 (delete_running_three_tier sample_env "t-1" sample_world sample_train
                         sample_world_wf H1 H2 H3))).
Defined.

Lemma delete_running_single_open_run_witness :
  wf_db (store sample_world)
  ∧ stmtGetById "t-1" (store sample_world) = Some sample_train
  ∧ no_fault sample_env
  ∧ filter (λ x, r_train_id x = "t-1" ∧ r_stop_time x = None)
           (train_runs (store sample_world)) = [sample_run]
  ∧ ∃ l1 l2,
      train_runs (store sample_world) = l1 ++ sample_run :: l2
      ∧ train_runs (store (delete_running sample_env "t-1" sample_world).2)
        = l1 ++ stopped_at (env_now sample_env) sample_run :: l2.
Proof.
  assert (H1 : stmtGetById "t-1" (store sample_world) = Some sample_train) by reflexivity.
  assert (H2 : no_fault sample_env) by (intros s; reflexivity).
  assert (H3 : filter (λ x, r_train_id x = "t-1" ∧ r_stop_time x = None)
                      (train_runs (store sample_world)) = [sample_run]) by reflexivity.
  repeat (split; [ first [ exact sample_world_wf | assumption ] | ]).
  destruct (delete_running_single_open_run sample_env "t-1" sample_world sample_train
              sample_run sample_world_wf H1 H2 H3) as (l1 & l2 & Ha & Hb & _).
  exists l1, l2. split; assumption.
Defined.

Lemma sample_patch_json : json_body sample_patch.
Proof.
  intros k H. apply elem_of_list_to_map_2 in H. not_in_literals H.
Defined.

Lemma patch_running_keeps_id_and_active_witness :
  stmtGetById "t-1" (store sample_world) = Some sample_train
  ∧ validateTrain (merge_patch digits_to_number "t-1" sample_patch sample_train) = None
  ∧ Forall2 (λ t t', t_id t' = t_id t ∧ t_active t' = t_active t ∧ (t_id t ≠ "t-1" → t' = t))
            (trains (store sample_world))
            (trains (store (patch_running digits_to_number sample_env "t-1" sample_patch
                                          sample_world).2))
  ∧ (patch_running digits_to_number sample_env "t-1" sample_patch sample_world).1
    = Ok (mkResponse 200 ROk).
Proof.
  assert (H1 : stmtGetById "t-1" (store sample_world) = Some sample_train) by reflexivity.
  assert (H2 : validateTrain (merge_patch digits_to_number "t-1" sample_patch sample_train)
               = None) by (vm_compute; reflexivity).
  repeat (split; [ assumption | ]).
  destruct (patch_running_keeps_id_and_active digits_to_number sample_env "t-1" sample_patch
              sample_world sample_train H1 H2) as (Hkeep & _ & Hok).
  split; [ exact Hkeep | ].
  destruct (Hok sample_patch_json eq_refl) as (f & _ & Hresp & _). exact Hresp.
Defined.


Lemma stmtListRunning_active_ordered_witness :
  stmtListRunning board_db
  = [mkRunning "t-c" "Re 4/4" "SBB" "CH" "Electric" "Special" 3 "Digital" "1970" "n-c"
               "Lower loop 1" "2024-05-01T11:00:00.000Z";
     mkRunning "t-b" "V 200" "DB" "DE" "Diesel" "Freight" 20 "DC" "1960" "n-b"
               "Lower loop 1" "2024-05-01T09:00:00.000Z";
     mkRunning "t-a" "BR 01" "DB" "DE" "Steam" "Passenger" 8 "AC" "1950" "n-a"
               "Upper loop" "2024-05-01T10:00:00.000Z"]
  ∧ ∃ ts : list train,
      ts ≡ₚ filter (λ t, t_active t = 1) (trains board_db)
      ∧ Forall2 shows ts (stmtListRunning board_db).
Proof.
  split; [ vm_compute; reflexivity | ].
  destruct (stmtListRunning_active_ordered board_db) as (ts & Hperm & Hshows & _).
  exists ts. split; assumption.
Defined.

Lemma get_reports_runs_report_witness :
  is_ymd "2024-05-01" = true
  ∧ ∃ rows : list run,
      get_reports_runs iso_time_value iso_date (λ _, 0) (Some (QText "2024-05-01"))
                       stopped_world_sample
      = (Ok (mkResponse 200
               (RRuns (imap (λ i r, report_row_of iso_time_value 0 r) rows))),
         stopped_world_sample)
      ∧ rows ≡ₚ filter (λ r, iso_date (r_start_time r) = Some "2024-05-01")
                       (train_runs (store stopped_world_sample)).
Proof.
  assert (H1 : is_ymd "2024-05-01" = true) by reflexivity.
  split; [ exact H1 | ].
  destruct (get_reports_runs_report iso_time_value iso_date (λ _, 0) "2024-05-01"
              stopped_world_sample H1) as (rows & Ha & Hb & _).
  exists rows. split; assumption.
Defined.

Lemma owner_never_public_witness :
  clients sample_world = clients other_owner_world
  ∧ public_train <$> trains (store sample_world)
    = public_train <$> trains (store other_owner_world)
  ∧ stmtListRunning (store sample_world) = stmtListRunning (store other_owner_world)
  ∧ clients (run_events digits_to_number iso_time_value iso_date sample_events sample_world)
    = clients (run_events digits_to_number iso_time_value iso_date sample_events
                          other_owner_world).
Proof.
  assert (H1 : clients sample_world = clients other_owner_world) by reflexivity.
  assert (H2 : public_train <$> trains (store sample_world)
               = public_train <$> trains (store other_owner_world)) by reflexivity.
  repeat (split; [ assumption | ]).
  destruct (owner_never_public digits_to_number iso_time_value iso_date
              sample_events sample_world other_owner_world H1 H2)
    as (Hl & _ & _ & Hrun & _).
  split; [ exact Hl | ].
  destruct (Hrun eq_refl) as (_ & _ & Hcl & _). exact Hcl.
Defined.

Lemma init_before_update_witness :
  clients empty_world = []
  ∧ clients (run_events digits_to_number iso_time_value iso_date
                        [EConnection; EPost sample_env sample_body] empty_world) !! 0%nat
    = Some (mkClient 1
              [mkMessage "running:init" [];
               mkMessage "running:update"
                 [mkRunning "u-1" "BR 01" "DB" "DE" "Steam" "Passenger" 8 "AC" "1950" ""
                            "Upper loop" "2024-05-01T11:35:00.000Z"]])
  ∧ ∃ evs1 evs2,
      [EConnection; EPost sample_env sample_body] = evs1 ++ EConnection :: evs2
      ∧ length (clients (run_events digits_to_number iso_time_value iso_date evs1
                                    empty_world)) = 0%nat.
Proof.
  assert (H1 : clients empty_world = []) by reflexivity.
  assert (H2 : clients (run_events digits_to_number iso_time_value iso_date
                          [EConnection; EPost sample_env sample_body] empty_world) !! 0%nat
               = Some (mkClient 1
                         [mkMessage "running:init" [];
                          mkMessage "running:update"
                            [mkRunning "u-1" "BR 01" "DB" "DE" "Steam" "Passenger" 8 "AC"
                                       "1950" "" "Upper loop" "2024-05-01T11:35:00.000Z"]]))
    by (vm_compute; reflexivity).
  repeat (split; [ assumption | ]).
  destruct (init_before_update digits_to_number iso_time_value iso_date _ _ _ _ H1 H2)
    as (evs1 & evs2 & Ha & Hb & _).
  exists evs1, evs2. split; assumption.
Defined.

(** ** Well-formedness is an invariant *)

Lemma wf_ret {A : Type} (a : A) : preserves_wf (mret a : M A).
Proof. intros w H. exact H. Qed.

Lemma wf_query {A : Type} (q : db → A) : preserves_wf (query q).
Proof. intros w H. exact H. Qed.

Lemma wf_bind {A B : Type} (m : M A) (k : A → M B) :
  preserves_wf m → (∀ a, preserves_wf (k a)) → preserves_wf (m ≫= k).
Proof.
  intros Hm Hk w Hw. unfold mbind, M_bind. specialize (Hm w Hw).
  destruct (m w) as [[a | ] w']; cbn [snd] in *; [ apply Hk; exact Hm | exact Hm ].
Qed.

Lemma wf_run_stmt (e : env) (s : stmt) (f : db → option db) :
  (∀ d d', wf_db d → f d = Some d' → wf_db d') → preserves_wf (run_stmt e s f).
Proof.
  intros Hf w Hw. unfold run_stmt. destruct (env_fault e s); [ exact Hw | ].
  destruct (f (store w)) as [d' | ] eqn:Hd; [ | exact Hw ].
  cbn [snd store]. eapply Hf; eassumption.
Qed.

Lemma wf_publish (r : response) :
  preserves_wf (p ← query stmtListRunning; _ ← broadcast "running:update" p; mret r).
Proof. intros w H. exact H. Qed.

Lemma stmtInsert_wf (row : obj) (d d' : db) :
  wf_db d → stmtInsert row d = Some d' → wf_db d'.
Proof.
  intros [Ht Hr Hne]. unfold stmtInsert.
  destruct (bind_text (get row "id")) as [i | ]; [ | discriminate ].
  destruct (bind_fields row) as [f | ]; [ | discriminate ].
  destruct (bind_text (get row "updated_at")) as [u | ]; [ | discriminate ].
  cbn [mbind option_bind]. case_bool_decide as Hin; [ discriminate | ].
  intros H. injection H as <-. constructor; cbn [trains train_runs]; try assumption.
  rewrite fmap_app. apply NoDup_app. split; [ exact Ht | ]. split.
  - intros x Hx Hx'. apply list_elem_of_singleton in Hx'. subst x. contradiction.
  - apply NoDup_singleton.
Qed.

Lemma stmtInsertRun_wf (row : obj) (d d' : db) :
  get row "id" ≠ VStr "" → wf_db d → stmtInsertRun row d = Some d' → wf_db d'.
Proof.
  intros Hid [Ht Hr Hne]. unfold stmtInsertRun.
  destruct (get row "id") as [ | | | | i | ]; try discriminate. cbn [bind_text mbind option_bind].
  destruct (bind_text (get row "train_id")) as [t | ]; [ | discriminate ].
  destruct (bind_fields row) as [f | ]; [ | discriminate ].
  destruct (bind_text (get row "start_time")) as [u | ]; [ | discriminate ].
  destruct (bind_text_null (get row "stop_time")) as [st | ]; [ | discriminate ].
  cbn [mbind option_bind]. case_bool_decide as Hin; [ discriminate | ].
  intros H. injection H as <-. constructor; cbn [trains train_runs]; try assumption.
  - rewrite fmap_app. apply NoDup_app. split; [ exact Hr | ]. split.
    + intros x Hx Hx'. apply list_elem_of_singleton in Hx'. subst x. contradiction.
    + apply NoDup_singleton.
  - rewrite fmap_app. intros Hin'. apply elem_of_app in Hin' as [Hin' | Hin'];
      [ contradiction | ].
    apply list_elem_of_singleton in Hin'. cbn in Hin'. congruence.
Qed.

Lemma assign_train_ids (id : string) (f : fields) (u : string) (l : list train) :
  t_id <$> (assign_train id f u <$> l) = t_id <$> l.
Proof.
  rewrite <- list_fmap_compose. apply list_fmap_ext. intros _ t _. simpl.
  unfold assign_train. case_bool_decide; reflexivity.
Qed.

Lemma deactivate_train_ids (id u : string) (l : list train) :
  t_id <$> (deactivate_train id u <$> l) = t_id <$> l.
Proof.
  rewrite <- list_fmap_compose. apply list_fmap_ext. intros _ t _. simpl.
  unfold deactivate_train. case_bool_decide; reflexivity.
Qed.

Lemma set_stop_time_ids (id : string) (st : option string) (l : list run) :
  r_id <$> (set_stop_time id st <$> l) = r_id <$> l.
Proof.
  rewrite <- list_fmap_compose. apply list_fmap_ext. intros _ r _. simpl.
  unfold set_stop_time. case_bool_decide; reflexivity.
Qed.

Lemma stmtUpdate_wf (row : obj) (d d' : db) :
  wf_db d → stmtUpdate row d = Some d' → wf_db d'.
Proof.
  intros [Ht Hr Hne]. unfold stmtUpdate.
  destruct (bind_fields row) as [f | ]; [ | discriminate ].
  destruct (bind_text (get row "updated_at")) as [u | ]; [ | discriminate ].
  destruct (bind_text (get row "id")) as [i | ]; [ | discriminate ].
  cbn [mbind option_bind]. intros H. injection H as <-.
  constructor; cbn [trains train_runs]; try assumption.
  rewrite assign_train_ids. exact Ht.
Qed.

Lemma stmtDeactivate_wf (row : obj) (d d' : db) :
  wf_db d → stmtDeactivate row d = Some d' → wf_db d'.
Proof.
  intros [Ht Hr Hne]. unfold stmtDeactivate.
  destruct (bind_text (get row "updated_at")) as [u | ]; [ | discriminate ].
  destruct (bind_text (get row "id")) as [i | ]; [ | discriminate ].
  cbn [mbind option_bind]. intros H. injection H as <-.
  constructor; cbn [trains train_runs]; try assumption.
  rewrite deactivate_train_ids. exact Ht.
Qed.

Lemma stmtUpdateRunStop_wf (row : obj) (d d' : db) :
  wf_db d → stmtUpdateRunStop row d = Some d' → wf_db d'.
Proof.
  intros [Ht Hr Hne]. unfold stmtUpdateRunStop.
  destruct (bind_text_null (get row "stop_time")) as [st | ]; [ | discriminate ].
  destruct (bind_text (get row "id")) as [i | ]; [ | discriminate ].
  cbn [mbind option_bind]. intros H. injection H as <-.
  constructor; cbn [trains train_runs]; try assumption;
    rewrite set_stop_time_ids; assumption.
Qed.

Section Invariant.
Variable StringToNumber : string → jsnum.
Variable Date_parse : string → option Z.
Variable sql_date : string → option string.

Lemma post_running_wf (e : env) (req_body : obj) :
  uuid_env e → preserves_wf (post_running StringToNumber e req_body).
Proof.
  intros [_ Hu]. unfold post_running. cbv zeta.
  destruct (validateTrain _); [ apply wf_ret | ].
  apply wf_bind; [ apply wf_run_stmt, stmtInsert_wf | intros _ ].
  apply wf_bind; [ | intros _; apply wf_publish ].
  apply wf_run_stmt. intros d d'. apply stmtInsertRun_wf.
  change (get (new_run_row _ _ _ _) "id") with (VStr (env_uuid_2 e)). congruence.
Qed.

Lemma patch_running_wf (e : env) (id : string) (req_body : obj) :
  preserves_wf (patch_running StringToNumber e id req_body).
Proof.
  unfold patch_running.
  apply wf_bind; [ apply wf_query | intros [existing | ]; [ | apply wf_ret ] ].
  cbv zeta. destruct (validateTrain _); [ apply wf_ret | ].
  apply wf_bind; [ apply wf_run_stmt, stmtUpdate_wf | intros _; apply wf_publish ].
Qed.

Lemma delete_running_wf (e : env) (id : string) :
  uuid_env e → preserves_wf (delete_running e id).
Proof.
  intros [Hu _]. unfold delete_running.
  apply wf_bind; [ apply wf_query | intros [existing | ]; [ | apply wf_ret ] ].
  cbv zeta.
  apply wf_bind; [ apply wf_run_stmt, stmtDeactivate_wf | intros _ ].
  apply wf_bind; [ apply wf_query | intros openRun ].
  apply wf_bind; [ | intros _; apply wf_publish ].
  destruct openRun as [rid | ]; [ apply wf_run_stmt, stmtUpdateRunStop_wf | ].
  apply wf_bind; [ apply wf_query | intros latest ].
  cbv zeta. destruct (truthy _); [ apply wf_run_stmt, stmtUpdateRunStop_wf | ].
  apply wf_run_stmt. intros d d'. apply stmtInsertRun_wf.
  change (get (zero_run_row _ _ _ _) "id") with (VStr (env_uuid_1 e)). congruence.
Qed.

(** The primary keys and the non-empty run ids hold along every
    execution that starts from a well-formed database. *)
Lemma run_events_wf (evs : list event_in) (w : world) :
  Forall event_ok evs → wf_db (store w) →
  wf_db (store (run_events StringToNumber Date_parse sql_date evs w)).
Proof.
  intros Hok. revert w. induction Hok as [ | ev evs Hev _ IH ]; intros w Hw; [ exact Hw | ].
  cbn [run_events fold_left]. apply IH.
  destruct ev as [ | e b | e id b | e id | clock date | | i rs ]; cbn [step].
  - exact Hw.
  - apply post_running_wf; assumption.
  - apply patch_running_wf; assumption.
  - apply delete_running_wf; assumption.
  - rewrite get_reports_runs_world. exact Hw.
  - exact Hw.
  - exact Hw.
Qed.
(** In particular along every execution that starts from the empty
    database. *)
Lemma run_events_from_empty_wf (evs : list event_in) (cs : list client) :
  Forall event_ok evs →
  wf_db (store (run_events StringToNumber Date_parse sql_date evs (mkWorld (mkDb [] []) cs))).
Proof.
  intros Hok. apply run_events_wf; [ exact Hok | ].
  constructor; cbn; [ apply NoDup_nil_2 | apply NoDup_nil_2 | apply not_elem_of_nil ].
Qed.

End Invariant.
(** * Further properties of the handlers *)

(** ** What a command can do to the world, case by case *)

Section Cases.
Variable StringToNumber : string → jsnum.

(** The outcomes of a start command. *)
Lemma post_running_cases (e : env) (req_body : obj) (w : world) :
  let row := new_row (env_uuid_1 e) (env_now e) (normalize StringToNumber req_body) in
  (∃ err, validateTrain (normalize StringToNumber req_body) = Some err
          ∧ post_running StringToNumber e req_body w = (Ok (bad err), w))
  ∨ (validateTrain (normalize StringToNumber req_body) = None
     ∧ (post_running StringToNumber e req_body w = (Thrown, w)
        ∨ ∃ i f u,
            bind_text (get row "id") = Some i ∧ bind_fields row = Some f
            ∧ bind_text (get row "updated_at") = Some u
            ∧ (i ∉ t_id <$> trains (store w))
            ∧ let d1 := mkDb (trains (store w) ++ [mkTrain i f 1 u]) (train_runs (store w)) in
              let d2 := mkDb (trains d1)
                             (train_runs (store w)
                              ++ [mkRun (env_uuid_2 e) (env_uuid_1 e) f (env_now e) None]) in
              ((env_fault e StmtInsertRun = true
                ∨ env_uuid_2 e ∈ r_id <$> train_runs (store w))
               ∧ post_running StringToNumber e req_body w = (Thrown, mkWorld d1 (clients w)))
              ∨ ((env_uuid_2 e ∉ r_id <$> train_runs (store w))
                 ∧ post_running StringToNumber e req_body w
                   = (Ok (mkResponse 201 (RId (env_uuid_1 e))),
                      mkWorld d2 (broadcast_to "running:update" (stmtListRunning d2)
                                               (clients w)))))).
Proof.
  intros row. unfold post_running. unfold_monad. cbv zeta. fold row.
  destruct (validateTrain _) as [err | ]; [ left; eauto | right; split; [ reflexivity | ] ].
  destruct (env_fault e StmtInsert); [ left; reflexivity | ].
  unfold stmtInsert.
  destruct (bind_text (get row "id")) as [i | ]; [ | left; reflexivity ].
  destruct (bind_fields row) as [f | ] eqn:Hf; [ | left; reflexivity ].
  destruct (bind_text (get row "updated_at")) as [u | ]; [ | left; reflexivity ].
  cbn [mbind option_bind]. case_bool_decide as Hi; [ left; reflexivity | ].
  right. exists i, f, u. repeat (split; [ first [ reflexivity | assumption ] | ]).
  cbn [store clients]. cbv zeta.
  destruct (env_fault e StmtInsertRun); [ left; split; [ left | ]; reflexivity | ].
  unfold stmtInsertRun. rewrite new_run_row_bind_fields, Hf.
  change (get (new_run_row _ _ _ _) "id") with (VStr (env_uuid_2 e)).
  change (get (new_run_row _ _ _ _) "train_id") with (VStr (env_uuid_1 e)).
  change (get (new_run_row _ _ _ _) "start_time") with (VStr (env_now e)).
  change (get (new_run_row _ _ _ _) "stop_time") with VNull.
  cbn [bind_text bind_text_null mbind option_bind train_runs trains].
  case_bool_decide as Hr.
  - left. split; [ right; exact Hr | reflexivity ].
  - right. split; [ exact Hr | reflexivity ].
Qed.

(** The outcomes of an edit. *)
Lemma patch_running_cases (e : env) (id : string) (req_body : obj) (w : world) :
  (stmtGetById id (store w) = None
   ∧ patch_running StringToNumber e id req_body w = (Ok not_found, w))
  ∨ ∃ existing,
      stmtGetById id (store w) = Some existing
      ∧ ((∃ err, validateTrain (merge_patch StringToNumber id req_body existing) = Some err
                 ∧ patch_running StringToNumber e id req_body w = (Ok (bad err), w))
         ∨ (validateTrain (merge_patch StringToNumber id req_body existing) = None
            ∧ (patch_running StringToNumber e id req_body w = (Thrown, w)
               ∨ ∃ f,
                   bind_fields (merge_patch StringToNumber id req_body existing) = Some f
                   ∧ let d' := mkDb (assign_train id f (env_now e) <$> trains (store w))
                                    (train_runs (store w)) in
                     patch_running StringToNumber e id req_body w
                     = (Ok (mkResponse 200 ROk),
                        mkWorld d' (broadcast_to "running:update" (stmtListRunning d')
                                                 (clients w)))))).
Proof.
  unfold patch_running. unfold_monad.
  destruct (stmtGetById id (store w)) as [existing | ]; [ right | left; auto ].
  exists existing. split; [ reflexivity | ]. cbv zeta.
  set (merged := merge_patch StringToNumber id req_body existing).
  destruct (validateTrain merged) as [err | ]; [ left; eauto | right; split; [ reflexivity | ] ].
  destruct (env_fault e StmtUpdate); [ left; reflexivity | ].
  unfold stmtUpdate.
  rewrite (bind_fields_ext merged)
    by (intros k Hk; apply get_insert_ne; intros <-; not_in_literals Hk).
  rewrite get_insert_eq, get_insert_ne by discriminate.
  pose proof (merge_patch_id StringToNumber id req_body existing) as Hid.
  fold merged in Hid. rewrite Hid.
  destruct (bind_fields merged) as [f | ]; [ | left; reflexivity ].
  right. exists f. split; reflexivity.
Qed.
End Cases.

(** The outcomes of a stop command. *)
Lemma delete_running_cases (e : env) (id : string) (w : world) :
  (stmtGetById id (store w) = None ∧ delete_running e id w = (Ok not_found, w))
  ∨ ∃ existing,
      stmtGetById id (store w) = Some existing
      ∧ ((env_fault e StmtDeactivate = true ∧ delete_running e id w = (Thrown, w))
         ∨ (env_fault e StmtDeactivate = false
            ∧ (((env_fault e StmtUpdateRunStop = true ∨ env_fault e StmtInsertRun = true
                 ∨ env_uuid_1 e ∈ r_id <$> train_runs (store w))
                ∧ delete_running e id w
                  = (Thrown,
                     mkWorld (mkDb (deactivate_train id (env_now e) <$> trains (store w))
                                   (train_runs (store w)))
                             (clients w)))
               ∨ ∃ runs',
                   ((∃ rid, runs' = set_stop_time rid (Some (env_now e))
                                      <$> train_runs (store w))
                    ∨ (stmtFindOpenRun id (store w) = None
                       ∧ (env_uuid_1 e ∉ r_id <$> train_runs (store w))
                       ∧ runs' = train_runs (store w)
                                 ++ [zero_run (env_uuid_1 e) id (env_now e) existing]))
                   ∧ delete_running e id w
                     = (Ok (mkResponse 200 ROk), stopped_world e id w runs')))).
Proof.
  unfold delete_running. unfold_monad.
  destruct (stmtGetById id (store w)) as [existing | ]; [ right | left; auto ].
  exists existing. split; [ reflexivity | ]. cbv zeta.
  destruct (env_fault e StmtDeactivate); [ left; auto | right; split; [ reflexivity | ] ].
  rewrite stmtDeactivate_row. cbn [store clients].
  change (stmtFindOpenRun id (mkDb _ (train_runs (store w))))
    with (stmtFindOpenRun id (store w)).
  destruct (stmtFindOpenRun id (store w)) as [rid | ] eqn:Hopen.
  - destruct (env_fault e StmtUpdateRunStop); [ left; auto | right ].
    rewrite stmtUpdateRunStop_row. eexists. split; [ left; eexists; reflexivity | reflexivity ].
  - cbn [store clients].
    change (stmtFindLatestRun id (mkDb _ (train_runs (store w))))
      with (stmtFindLatestRun id (store w)).
    destruct (stmtFindLatestRun id (store w)) as [rid | ]; cbn [from_option].
    + destruct (truthy (VStr rid)).
      * destruct (env_fault e StmtUpdateRunStop); [ left; auto | right ].
        rewrite stmtUpdateRunStop_row.
        eexists. split; [ left; eexists; reflexivity | reflexivity ].
      * destruct (env_fault e StmtInsertRun); [ left; auto | ].
        rewrite stmtInsertRun_existing. cbn [train_runs store].
        case_bool_decide as Hr; [ left; auto | right ].
        eexists. split; [ right; split; [ reflexivity | split; [ exact Hr | reflexivity ] ] | reflexivity ].
    + cbn [truthy]. destruct (env_fault e StmtInsertRun); [ left; auto | ].
      rewrite stmtInsertRun_existing. cbn [train_runs store].
      case_bool_decide as Hr; [ left; auto | right ].
      eexists. split; [ right; split; [ reflexivity | split; [ exact Hr | reflexivity ] ] | reflexivity ].
Qed.

(** ** Rows, objects and the validator *)

Lemma bind_fields_obj_of_train (t : train) : bind_fields (obj_of_train t) = Some (t_fields t).
Proof. destruct t as [i [] a u]. reflexivity. Qed.

(** What the properties of an object were when it has bound to a row. *)
Lemma bind_fields_Some_inv (o : obj) (f : fields) :
  bind_fields o = Some f →
  get o "name" = VStr (f_name f) ∧ get o "railway" = VStr (f_railway f)
  ∧ get o "country" = VStr (f_country f) ∧ get o "power" = VStr (f_power f)
  ∧ get o "trainType" = VStr (f_trainType f)
  ∧ get o "numberOfCars" = VNum (NInt (f_numberOfCars f))
  ∧ get o "powerType" = VStr (f_powerType f) ∧ get o "years" = VStr (f_years f)
  ∧ get o "notes" = VStr (f_notes f) ∧ get o "owner" = VStr (f_owner f)
  ∧ get o "location" = VStr (f_location f).
Proof.
  unfold bind_fields.
  destruct (get o "name") as [ | | | | name | ]; try discriminate.
  destruct (get o "railway") as [ | | | | railway | ]; try discriminate.
  destruct (get o "country") as [ | | | | country | ]; try discriminate.
  destruct (get o "power") as [ | | | | power | ]; try discriminate.
  destruct (get o "trainType") as [ | | | | trainType | ]; try discriminate.
  destruct (get o "numberOfCars") as [ | | | [ cars | | ] | | ]; try discriminate.
  destruct (get o "powerType") as [ | | | | powerType | ]; try discriminate.
  destruct (get o "years") as [ | | | | years | ]; try discriminate.
  destruct (get o "notes") as [ | | | | notes | ]; try discriminate.
  destruct (get o "owner") as [ | | | | owner | ]; try discriminate.
  destruct (get o "location") as [ | | | | location | ]; try discriminate.
  cbn. intros H. injection H as <-. cbn. repeat split.
Qed.

(** A bound row reads back, property by property, as the object it was
    bound from. *)
Lemma bind_fields_get (o : obj) (f : fields) (i : string) (a : Z) (u k : string) :
  bind_fields o = Some f → k ∈ field_keys →
  get (obj_of_train (mkTrain i f a u)) k = get o k.
Proof.
  intros Hb Hk. apply bind_fields_Some_inv in Hb.
  destruct Hb as (H1 & H2 & H3 & H4 & H5 & H6 & H7 & H8 & H9 & H10 & H11).
  unfold field_keys in Hk.
  repeat (apply elem_of_cons in Hk as [-> | Hk]; [ symmetry; assumption | ]).
  apply elem_of_nil in Hk. contradiction.
Qed.

Lemma validateTrain_bind_valid (o : obj) (f : fields) :
  validateTrain o = None → bind_fields o = Some f → valid_fields f.
Proof.
  intros Hv Hb. pose proof (bind_fields_Some_inv o f Hb) as Hinv.
  destruct (validateTrain_None_bind_fields o Hv) as (f' & Hf' & Hvalid & _).
  - destruct Hinv as (_ & _ & _ & _ & _ & _ & _ & _ & -> & _). discriminate.
  - destruct Hinv as (_ & _ & _ & _ & _ & _ & _ & _ & _ & -> & _). discriminate.
  - congruence.
Qed.

Lemma rule_ok_all_validateTrain (o : obj) :
  (∀ r, rule_ok r o = true) → validateTrain o = None.
Proof.
  intros H. rewrite validateTrain_code_order. unfold first_violation, code_order.
  rewrite !filter_rule_cons, !H. reflexivity.
Qed.

Lemma nonempty_string_VStr (s : string) : nonempty_string (VStr s) = true ↔ s ≠ "".
Proof.
  simpl. destruct (String.eqb_spec s ""); simpl; split; intros; congruence.
Qed.

(** X1. Reading a stored train back as an object and binding that object
    gives the stored fields again, and [validateTrain] accepts the object
    exactly when the row meets the domain rules: names, country and years
    not empty, the three enumerations, 0 to 100 cars. *)
Theorem stored_row_round_trip (t : train) :
  bind_fields (obj_of_train t) = Some (t_fields t)
  ∧ (validateTrain (obj_of_train t) = None ↔ valid_fields (t_fields t)).
Proof.
  split; [ apply bind_fields_obj_of_train | ]. split.
  - intros Hv. eapply validateTrain_bind_valid; [ exact Hv | apply bind_fields_obj_of_train ].
  - intros [H1 H2 H3 H4 H5 H6 H7 H8 H9]. apply rule_ok_all_validateTrain.
    destruct t as [i [name railway country power trainType cars powerType years notes
                        owner location] a u].
    cbn in *. intros [ | | | | | | | | | | ]; cbn -[nonempty_string].
    all: try (apply nonempty_string_VStr; assumption).
    all: try (apply bool_decide_eq_true; assumption).
    all: try reflexivity.
    apply andb_true_intro. split; apply Z.leb_le; lia.
Qed.

(** ** Rejected commands *)

Section Rejected.
Variable StringToNumber : string → jsnum.

(** X13. A start, edit or stop command that is answered 400 or 404
    changes nothing: the registry, the ledger and what every viewer has
    been sent are as before. *)
Theorem rejected_command_changes_nothing
    (e : env) (id : string) (req_body : obj) (w w' : world) (r : response) :
  post_running StringToNumber e req_body w = (Ok r, w')
  ∨ patch_running StringToNumber e id req_body w = (Ok r, w')
  ∨ delete_running e id w = (Ok r, w') →
  status r = 400 ∨ status r = 404 →
  w' = w.
Proof.
  intros Hcmd Hst.
  assert (Hs : status r ≠ 200 ∧ status r ≠ 201) by (destruct Hst as [-> | ->]; split; discriminate).
  destruct Hs as [H200 H201]. destruct Hcmd as [Hcmd | [Hcmd | Hcmd]].
  - destruct (post_running_cases StringToNumber e req_body w)
      as [(err & _ & Heq) | (_ & [Heq | (i & f & u & _ & _ & _ & _ & [[_ Heq] | [_ Heq]])])];
      cbv zeta in Heq; rewrite Heq in Hcmd; simplify_eq; try reflexivity.
  - destruct (patch_running_cases StringToNumber e id req_body w)
      as [[_ Heq] | (existing & _ & [(err & _ & Heq) | (_ & [Heq | (f & _ & Heq)])])];
      cbv zeta in Heq; rewrite Heq in Hcmd; simplify_eq; try reflexivity.
  - destruct (delete_running_cases e id w)
      as [[_ Heq] | (existing & _ & [[_ Heq] | (_ & [[_ Heq] | (runs' & _ & Heq)])])];
      rewrite Heq in Hcmd; simplify_eq; try reflexivity.
Qed.

(** An id that is not in the registry is answered 404. *)
Lemma stmtGetById_None (id : string) (d : db) :
  stmtGetById id d = None ↔ id ∉ t_id <$> trains d.
Proof.
  unfold stmtGetById. rewrite head_None. split.
  - intros Hf Hin. apply list_elem_of_fmap in Hin as (t & -> & Ht).
    assert (Hx : t ∈ filter (λ t0, t_id t0 = t_id t) (trains d))
      by (apply list_elem_of_filter; auto).
    rewrite Hf in Hx. inversion Hx.
  - intros Hnin. destruct (filter _ _) as [ | t l ] eqn:Hf; [ reflexivity | exfalso ].
    assert (Hx : t ∈ filter (λ t0, t_id t0 = id) (trains d)) by (rewrite Hf; left).
    apply list_elem_of_filter in Hx as [<- Hx]. apply Hnin. apply list_elem_of_fmap_2. exact Hx.
Qed.

(** X17. An edit or a stop whose id is not in the registry is answered
    404 "not found" and changes nothing; an id that is in the registry
    is never answered 404. *)
Theorem unknown_id_not_found (e : env) (id : string) (req_body : obj) (w : world) :
  (id ∉ t_id <$> trains (store w) →
   patch_running StringToNumber e id req_body w = (Ok not_found, w)
   ∧ delete_running e id w = (Ok not_found, w))
  ∧ (id ∈ t_id <$> trains (store w) →
     (patch_running StringToNumber e id req_body w).1 ≠ Ok not_found
     ∧ (delete_running e id w).1 ≠ Ok not_found).
Proof.
  split.
  - intros Hnin. apply stmtGetById_None in Hnin.
    unfold patch_running, delete_running. unfold_monad. rewrite Hnin. split; reflexivity.
  - intros Hin.
    assert (Hsome : stmtGetById id (store w) ≠ None)
      by (intros Hn; apply stmtGetById_None in Hn; contradiction).
    split.
    + destruct (patch_running_cases StringToNumber e id req_body w)
        as [[Hn _] | (existing & _ & [(err & _ & Heq) | (_ & [Heq | (f & _ & Heq)])])];
        [ contradiction | | | ]; cbv zeta in Heq; rewrite Heq; discriminate.
    + destruct (delete_running_cases e id w)
        as [[Hn _] | (existing & _ & [[_ Heq] | (_ & [[_ Heq] | (runs' & _ & Heq)])])];
        [ contradiction | | | ]; rewrite Heq; discriminate.
Qed.

(** ** The number of cars of a start command *)

End Rejected.

(** ** The report: the guard and the edges of the duration *)

Section ReportEdges.
Variable Date_parse : string → option Z.
Variable sql_date : string → option string.

Lemma is_ymd_length (s : string) : is_ymd s = true → String.length s = 10%nat.
Proof.
  unfold is_ymd. rewrite <- (string_of_list_ascii_of_string s) at 2.
  destruct (list_ascii_of_string s) as [ | ? [ | ? [ | ? [ | ? [ | ? [ | ? [ | ? [ | ? [ | ? [ | ? [ | ? l ]]]]]]]]]]];
    try discriminate.
  reflexivity.
Qed.

(** X15. The report handler reads and never writes: whatever the [date]
    parameter, the world is as before.  It answers 400 with the "date
    query param" message exactly when the parameter is missing or the
    string it converts to is not of the form dddd-dd-dd, which every
    string whose length is not 10 fails.  When the parameter is a string
    of that form, it answers 200 with one record per run that
    [stmtRunsByDate] selects.  When the parameter is an array or an
    object whose string is of that form, as for [?date[]=2024-05-01],
    the guard lets it pass and the statement throws on the bind, so the
    request ends in an exception. *)
Theorem get_reports_runs_guard (clock : nat → Z) (date : option query_value) (w : world) :
  ∃ out, get_reports_runs Date_parse sql_date clock date w = (out, w)
    ∧ (out = Ok (bad "date query param (YYYY-MM-DD) is required")
       ↔ date = None ∨ ∃ v, date = Some v ∧ is_ymd (query_text v) = false)
    ∧ (out = Thrown ↔ ∃ prim, date = Some (QOther prim) ∧ is_ymd prim = true)
    ∧ (∀ s, date = Some (QText s) → is_ymd s = true →
         String.length s = 10%nat
         ∧ ∃ rows, out = Ok (mkResponse 200 (RRuns rows))
             ∧ length rows
               = length (filter (λ x, sql_date (r_start_time x) = Some s)
                                (train_runs (store w)))).
Proof.
  unfold get_reports_runs. destruct date as [[s | prim] | ].
  - change (from_option query_text "undefined" (Some (QText s))) with s.
    change (from_option jsval_of_query VUndef (Some (QText s))) with (VStr s).
    destruct (is_ymd s) eqn:Hymd.
    + rewrite (is_ymd_truthy s Hymd). cbn [negb orb]. unfold_monad.
      eexists. split; [ reflexivity | ]. split; [ | split ].
      * split; [ discriminate | ].
        intros [H | (v & H & H')]; [ discriminate | ].
        injection H as <-. cbn [query_text] in H'. congruence.
      * split; [ discriminate | ]. intros (prim & H & _). discriminate.
      * intros s' Hs' _. injection Hs' as <-.
        split; [ apply is_ymd_length; exact Hymd | ].
        eexists. split; [ reflexivity | ].
        rewrite length_imap. unfold stmtRunsByDate.
        apply Permutation_length, merge_sort_Permutation.
    + rewrite orb_true_r. eexists. split; [ reflexivity | ]. split; [ | split ].
      * split; [ | reflexivity ]. intros _. right. exists (QText s). auto.
      * split; [ discriminate | ]. intros (prim & H & _). discriminate.
      * intros s' Hs' Hy. injection Hs' as <-. congruence.
  - change (from_option query_text "undefined" (Some (QOther prim))) with prim.
    change (from_option jsval_of_query VUndef (Some (QOther prim))) with (VObject prim).
    cbn [truthy negb orb]. destruct (is_ymd prim) eqn:Hymd; cbn [negb].
    + eexists. split; [ reflexivity | ]. split; [ | split ].
      * split; [ discriminate | ].
        intros [H | (v & H & H')]; [ discriminate | ].
        injection H as <-. cbn [query_text] in H'. congruence.
      * split; [ | reflexivity ]. intros _. exists prim. auto.
      * intros s' Hs'. discriminate.
    + eexists. split; [ reflexivity | ]. split; [ | split ].
      * split; [ | reflexivity ]. intros _. right. exists (QOther prim). auto.
      * split; [ discriminate | ]. intros (prim' & H & H'). injection H as <-. congruence.
      * intros s' Hs'. discriminate.
  - cbn. eexists. split; [ reflexivity | ]. split; [ | split ].
    + split; [ auto | reflexivity ].
    + split; [ discriminate | ]. intros (prim & H & _). discriminate.
    + intros s' Hs'. discriminate.
Qed.

Lemma duration_of_short (s e : Z) :
  e - s < 30000 → duration_of (Some s) (Some e) = mkDuration (Some 0) (Some 0) (Some 0).
Proof.
  intros H. unfold duration_of. cbv zeta.
  assert (Hk : Math_round_div (e - s) 60000 ≤ 0).
  { pose proof (Math_round_div_nearest (e - s) 60000 ltac:(lia)) as Hn.
    unfold nearest_tie_up in Hn. lia. }
  rewrite Z.max_l by exact Hk. reflexivity.
Qed.

(** X14. The edges of a report row's duration.  When the [start_time]
    does not parse, or the row has a non-empty [stop_time] that does not
    parse, the three numbers are NaN.  An empty [stop_time] is falsy, so
    such a run is timed to the instant of the query like an open one.
    When the end is before the start, or less than half a minute after
    it, the duration is 0 minutes, 0 hours and 0 remaining minutes: it is
    never negative. *)
Theorem report_row_of_duration_edges (now : Z) (r : run) :
  let row := report_row_of Date_parse now r in
  (Date_parse (r_start_time r) = None → rp_duration row = mkDuration None None None)
  ∧ (∀ t, r_stop_time r = Some t → t ≠ "" → Date_parse t = None →
          rp_duration row = mkDuration None None None)
  ∧ (r_stop_time r = Some "" →
     rp_duration row = duration_of (Date_parse (r_start_time r)) (Some now))
  ∧ (∀ s e, Date_parse (r_start_time r) = Some s →
            (r_stop_time r = None ∧ e = now
             ∨ ∃ t, r_stop_time r = Some t ∧ t ≠ "" ∧ Date_parse t = Some e) →
            (e - s < 30000 →
             rp_duration row = mkDuration (Some 0) (Some 0) (Some 0))
            ∧ ∃ m h rem, rp_duration row = mkDuration (Some m) (Some h) (Some rem)
                         ∧ 0 ≤ m ∧ 0 ≤ h ∧ 0 ≤ rem < 60 ∧ m = 60 * h + rem).
Proof.
  intros row.
  destruct (report_row_of_columns Date_parse now r) as (_ & _ & _ & _ & Hopen & Hclosed).
  fold row in Hopen, Hclosed.
  split; [ | split; [ | split ] ].
  - intros Hs. subst row. unfold report_row_of. cbn [rp_duration]. rewrite Hs. reflexivity.
  - intros t Ht Hne Hp. rewrite (Hclosed t Ht Hne), Hp.
    destruct (Date_parse (r_start_time r)); reflexivity.
  - intros Ht. subst row. unfold report_row_of. cbn [rp_duration]. rewrite Ht. reflexivity.
  - intros s e Hs Hend.
    assert (Hd : rp_duration row = duration_of (Some s) (Some e)).
    { destruct Hend as [[Hnone ->] | (t & Ht & Hne & He)].
      - rewrite (Hopen Hnone), Hs. reflexivity.
      - rewrite (Hclosed t Ht Hne), Hs, He. reflexivity. }
    rewrite Hd. split; [ apply duration_of_short | ].
    destruct (duration_of_spec s e) as (k & m & h & rem & Hdur & Hk & Hm & Hh & Hrem & Hsum & Hr).
    exists m, h, rem. split; [ exact Hdur | ].
    assert (0 ≤ m) by lia. 
    assert (0 ≤ h) by (subst h; apply Z.div_pos; lia).
    repeat split; lia.
Qed.
End ReportEdges.

(** ** The validator and its earlier version *)

(** X16. The validator tightens its earlier version by exactly the two
    new rules: a record is accepted now if and only if the earlier
    [validateTrain] accepted it and its [numberOfCars] is an integer from
    0 to 100 and its [powerType] is one of AC, DC and Digital.  So every
    record the earlier version rejected is still rejected. *)
Theorem validateTrain_tightens_v0 (o : obj) :
  (validateTrain o = None
   ↔ validateTrain_v0 o = None
     ∧ rule_ok RuleNumberOfCars o = true ∧ rule_ok RulePowerType o = true)
  ∧ (validateTrain_v0 o ≠ None → validateTrain o ≠ None).
Proof.
  assert (Hiff : validateTrain o = None
            ↔ validateTrain_v0 o = None
              ∧ rule_ok RuleNumberOfCars o = true ∧ rule_ok RulePowerType o = true).
  { unfold validateTrain, validateTrain_v0, rule_ok. cbv zeta.
    rewrite check_numberOfCars.
    rewrite (check_member VALID_POWER_TYPES)
      by (apply (bool_decide_unpack _); vm_compute; exact I).
    change ["AC"; "DC"; "Digital"] with VALID_POWER_TYPES.
    destruct (integer_in 0 100 (get o "numberOfCars"));
      destruct (one_of VALID_POWER_TYPES (get o "powerType")); cbn [negb];
      repeat match goal with
             | |- context [ if ?b then Some ?m else _ ] =>
                 lazymatch b with
                 | true => fail
                 | false => fail
                 | _ => destruct b
                 end
             end;
      split; intros; try discriminate; intuition (try discriminate; auto). }
  split; [ exact Hiff | ].
  intros Hv0 Hv. apply Hiff in Hv. tauto.
Qed.

(** ** Invariants of whole executions *)

(** The train [stmtGetById] returns is a row of the registry under that id. *)
Lemma stmtGetById_Some (id : string) (d : db) (t : train) :
  stmtGetById id d = Some t → t ∈ trains d ∧ t_id t = id.
Proof.
  unfold stmtGetById. intros H.
  assert (Hin : t ∈ filter (λ t0, t_id t0 = id) (trains d)).
  { destruct (filter _ _) as [ | t0 l ]; [ discriminate | ].
    injection H as ->. left. }
  apply list_elem_of_filter in Hin as [Hid Hin]. auto.
Qed.

Lemma Forall_snoc {A : Type} (P : A → Prop) (l : list A) (x : A) :
  Forall P l → P x → Forall P (l ++ [x]).
Proof. intros Hl Hx. apply Forall_app. split; [ exact Hl | constructor; [ exact Hx | constructor ] ]. Qed.

Lemma valid_assign_train (id : string) (f : fields) (u : string) (l : list train) :
  valid_fields f → Forall (λ t, valid_fields (t_fields t)) l →
  Forall (λ t, valid_fields (t_fields t)) (assign_train id f u <$> l).
Proof.
  intros Hf Hl. apply Forall_fmap. eapply Forall_impl; [ exact Hl | ].
  intros t Ht. unfold assign_train. cbn. case_bool_decide; assumption.
Qed.

Lemma valid_deactivate_train (id u : string) (l : list train) :
  Forall (λ t, valid_fields (t_fields t)) l →
  Forall (λ t, valid_fields (t_fields t)) (deactivate_train id u <$> l).
Proof.
  intros Hl. apply Forall_fmap. eapply Forall_impl; [ exact Hl | ].
  intros t Ht. unfold deactivate_train. cbn. case_bool_decide; assumption.
Qed.

Lemma valid_set_stop_time (rid : string) (st : option string) (l : list run) :
  Forall (λ r, valid_fields (r_fields r)) l →
  Forall (λ r, valid_fields (r_fields r)) (set_stop_time rid st <$> l).
Proof.
  intros Hl. apply Forall_fmap. eapply Forall_impl; [ exact Hl | ].
  intros t Ht. unfold set_stop_time. cbn. case_bool_decide; assumption.
Qed.

Section ValidDb.
Variable StringToNumber : string → jsnum.
Variable Date_parse : string → option Z.
Variable sql_date : string → option string.

Lemma post_running_valid_db (e : env) (req_body : obj) (w : world) :
  valid_db (store w) → valid_db (store (post_running StringToNumber e req_body w).2).
Proof.
  intros [Ht Hr].
  destruct (post_running_cases StringToNumber e req_body w)
    as [(err & _ & Heq) | (Hv & [Heq | (i & f & u & _ & Hf & _ & _ & [[_ Heq] | [_ Heq]])])];
    cbv zeta in Heq; rewrite Heq; cbn [snd store]; try (split; assumption).
  all: destruct (new_row_bind_fields StringToNumber (env_uuid_1 e) (env_now e) _ Hv) as (f' & Hf' & Hvalid & _).
  all: cbv zeta in Hf; rewrite Hf in Hf'; injection Hf' as <-.
  all: split; cbn [trains train_runs]; try assumption; apply Forall_snoc; assumption.
Qed.

Lemma patch_running_valid_db (e : env) (id : string) (req_body : obj) (w : world) :
  valid_db (store w) → valid_db (store (patch_running StringToNumber e id req_body w).2).
Proof.
  intros [Ht Hr].
  destruct (patch_running_cases StringToNumber e id req_body w)
    as [[_ Heq] | (existing & _ & [(err & _ & Heq) | (Hv & [Heq | (f & Hf & Heq)])])];
    cbv zeta in Heq; rewrite Heq; cbn [snd store]; try (split; assumption).
  split; cbn [trains train_runs]; [ | assumption ].
  apply valid_assign_train; [ | assumption ].
  eapply validateTrain_bind_valid; eassumption.
Qed.

Lemma delete_running_valid_db (e : env) (id : string) (w : world) :
  valid_db (store w) → valid_db (store (delete_running e id w).2).
Proof.
  intros [Ht Hr].
  destruct (delete_running_cases e id w)
    as [[_ Heq] | (existing & Hex & [[_ Heq] | (_ & [[_ Heq] | (runs' & Hruns & Heq)])])];
    rewrite Heq; cbn [snd store stopped_world]; try (split; assumption).
  - split; cbn [trains train_runs]; [ apply valid_deactivate_train | ]; assumption.
  - split; cbn [trains train_runs]; [ apply valid_deactivate_train; assumption | ].
    destruct Hruns as [(rid & ->) | (_ & _ & ->)].
    + apply valid_set_stop_time. assumption.
    + apply Forall_snoc; [ assumption | ]. cbn [zero_run r_fields].
      apply stmtGetById_Some in Hex as [Hin _].
      rewrite Forall_forall in Ht. apply Ht. exact Hin.
Qed.

Lemma step_valid_db (ev : event_in) (w : world) :
  valid_db (store w) → valid_db (store (step StringToNumber Date_parse sql_date ev w)).
Proof.
  intros Hw. destruct ev as [ | e b | e id b | e id | clock date | | i rs ]; cbn [step].
  - exact Hw.
  - apply post_running_valid_db; assumption.
  - apply patch_running_valid_db; assumption.
  - apply delete_running_valid_db; assumption.
  - rewrite get_reports_runs_world. exact Hw.
  - exact Hw.
  - exact Hw.
Qed.

(** X3. Validation guards every write: when every stored row meets the
    domain rules, so does every stored row after any sequence of
    requests, socket events and storage faults, also where a command was
    only half carried out.  The rows a start writes are the validated
    record, an edit stores the validated merge, and a stop copies stored
    fields. *)
Theorem run_events_valid_db (evs : list event_in) (w : world) :
  valid_db (store w) →
  valid_db (store (run_events StringToNumber Date_parse sql_date evs w)).
Proof.
  revert w. induction evs as [ | ev evs IH ]; intros w Hw; [ exact Hw | ].
  cbn [run_events fold_left]. apply IH. apply step_valid_db. exact Hw.
Qed.
End ValidDb.

(** *** Nothing is deleted *)

Lemma train_kept_refl (t : train) : train_kept t t.
Proof. split; auto. Qed.

Lemma run_kept_refl (r : run) : run_kept r r.
Proof. repeat split; auto. Qed.

Lemma history_kept_refl (d : db) : history_kept d d.
Proof.
  split; intros i x Hx; exists x; split; auto using train_kept_refl, run_kept_refl.
Qed.

Lemma history_kept_trans (d1 d2 d3 : db) :
  history_kept d1 d2 → history_kept d2 d3 → history_kept d1 d3.
Proof.
  intros [Ht Hr] [Ht' Hr']. split.
  - intros i t Hi. destruct (Ht i t Hi) as (t' & Hi' & Hid & Hact).
    destruct (Ht' i t' Hi') as (t'' & Hi'' & Hid' & Hact').
    exists t''. split; [ exact Hi'' | ]. split; [ congruence | auto ].
  - intros i r Hi. destruct (Hr i r Hi) as (r' & Hi' & H1 & H2 & H3 & H4 & H5).
    destruct (Hr' i r' Hi') as (r'' & Hi'' & H1' & H2' & H3' & H4' & H5').
    exists r''. split; [ exact Hi'' | ]. repeat split; try congruence. auto.
Qed.

Lemma kept_fmap {A : Type} (R : A → A → Prop) (g : A → A) (l : list A) :
  (∀ x, R x (g x)) →
  ∀ i x, l !! i = Some x → ∃ x', (g <$> l) !! i = Some x' ∧ R x x'.
Proof.
  intros Hg i x Hi. exists (g x). rewrite list_lookup_fmap, Hi. split; [ reflexivity | apply Hg ].
Qed.

Lemma kept_app {A : Type} (R : A → A → Prop) (l added : list A) :
  (∀ x, R x x) →
  ∀ i x, l !! i = Some x → ∃ x', (l ++ added) !! i = Some x' ∧ R x x'.
Proof.
  intros HR i x Hi. exists x. split; [ | apply HR ].
  apply lookup_app_l_Some. exact Hi.
Qed.

Lemma train_kept_assign (id : string) (f : fields) (u : string) (t : train) :
  train_kept t (assign_train id f u t).
Proof. unfold assign_train. case_bool_decide; split; auto. Qed.

Lemma train_kept_deactivate (id u : string) (t : train) :
  train_kept t (deactivate_train id u t).
Proof.
  unfold deactivate_train. case_bool_decide; split; auto; intros _; discriminate.
Qed.

Lemma run_kept_set_stop_time (rid st : string) (r : run) :
  run_kept r (set_stop_time rid (Some st) r).
Proof.
  unfold set_stop_time. case_bool_decide; repeat split; auto; intros _; discriminate.
Qed.

Section History.
Variable StringToNumber : string → jsnum.
Variable Date_parse : string → option Z.
Variable sql_date : string → option string.

Lemma post_running_history (e : env) (req_body : obj) (w : world) :
  history_kept (store w) (store (post_running StringToNumber e req_body w).2).
Proof.
  destruct (post_running_cases StringToNumber e req_body w)
    as [(err & _ & Heq) | (Hv & [Heq | (i & f & u & _ & _ & _ & _ & [[_ Heq] | [_ Heq]])])];
    cbv zeta in Heq; rewrite Heq; cbn [snd store]; try apply history_kept_refl.
  - split; cbn [trains train_runs].
    + apply kept_app, train_kept_refl.
    + intros j r Hj. exists r. split; [ exact Hj | apply run_kept_refl ].
  - split; cbn [trains train_runs].
    + apply kept_app, train_kept_refl.
    + apply kept_app, run_kept_refl.
Qed.

Lemma patch_running_history (e : env) (id : string) (req_body : obj) (w : world) :
  history_kept (store w) (store (patch_running StringToNumber e id req_body w).2).
Proof.
  destruct (patch_running_cases StringToNumber e id req_body w)
    as [[_ Heq] | (existing & _ & [(err & _ & Heq) | (Hv & [Heq | (f & Hf & Heq)])])];
    cbv zeta in Heq; rewrite Heq; cbn [snd store]; try apply history_kept_refl.
  split; cbn [trains train_runs].
  - apply kept_fmap. intros t. apply train_kept_assign.
  - intros j r Hj. exists r. split; [ exact Hj | apply run_kept_refl ].
Qed.

Lemma delete_running_history (e : env) (id : string) (w : world) :
  history_kept (store w) (store (delete_running e id w).2).
Proof.
  destruct (delete_running_cases e id w)
    as [[_ Heq] | (existing & Hex & [[_ Heq] | (_ & [[_ Heq] | (runs' & Hruns & Heq)])])];
    rewrite Heq; cbn [snd store stopped_world]; try apply history_kept_refl.
  - split; cbn [trains train_runs].
    + apply kept_fmap. intros t. apply train_kept_deactivate.
    + intros j r Hj. exists r. split; [ exact Hj | apply run_kept_refl ].
  - split; cbn [trains train_runs].
    + apply kept_fmap. intros t. apply train_kept_deactivate.
    + destruct Hruns as [(rid & ->) | (_ & _ & ->)].
      * apply kept_fmap. intros r. apply run_kept_set_stop_time.
      * apply kept_app, run_kept_refl.
Qed.

Lemma step_history (ev : event_in) (w : world) :
  history_kept (store w) (store (step StringToNumber Date_parse sql_date ev w)).
Proof.
  destruct ev as [ | e b | e id b | e id | clock date | | i rs ]; cbn [step].
  - apply history_kept_refl.
  - apply post_running_history.
  - apply patch_running_history.
  - apply delete_running_history.
  - rewrite get_reports_runs_world. apply history_kept_refl.
  - apply history_kept_refl.
  - apply history_kept_refl.
Qed.

(** X5. No request deletes or renumbers anything.  After any sequence of
    requests, socket events and storage faults, every train of the
    registry is still at its place under its id, and one that was not
    active is not active again; every run of the ledger is still at its
    place with its id, its train, its snapshot of the fields and its
    [start_time], and one that had a [stop_time] still has one.  New rows
    come after the old ones. *)
Theorem run_events_history_kept (evs : list event_in) (w : world) :
  history_kept (store w) (store (run_events StringToNumber Date_parse sql_date evs w)).
Proof.
  revert w. induction evs as [ | ev evs IH ]; intros w; [ apply history_kept_refl | ].
  cbn [run_events fold_left]. eapply history_kept_trans; [ apply step_history | apply IH ].
Qed.
End History.

(** *** At most one open run per train *)

Lemma open_runs_set_stop_time (id rid st : string) (l : list run) :
  (length (filter (λ r, r_train_id r = id ∧ r_stop_time r = None)
                  (set_stop_time rid (Some st) <$> l))
   ≤ length (filter (λ r, r_train_id r = id ∧ r_stop_time r = None) l))%nat.
Proof.
  induction l as [ | r l IH ]; [ reflexivity | ].
  rewrite fmap_cons, !filter_cons.
  destruct (decide (r_train_id r = id ∧ r_stop_time r = None)) as [Hr | Hr].
  - destruct (decide _); cbn [length]; lia.
  - destruct (decide _) as [[H1 H2] | _]; [ exfalso | exact IH ].
    apply Hr. unfold set_stop_time in H1, H2. revert H1 H2.
    case_bool_decide; cbn; [ discriminate | auto ].
Qed.

Lemma filter_nil_Forall {A : Type} (P : A → Prop) `{!∀ x, Decision (P x)} (l : list A) :
  Forall (λ x, ¬ P x) l → filter P l = [].
Proof.
  induction 1 as [ | x l Hx _ IH ]; [ reflexivity | ].
  rewrite filter_cons, decide_False by exact Hx. exact IH.
Qed.

Section OneOpenRun.
Variable StringToNumber : string → jsnum.
Variable Date_parse : string → option Z.
Variable sql_date : string → option string.

Lemma post_running_one_open_run (e : env) (req_body : obj) (w : world) :
  env_uuid_1 e ∉ r_train_id <$> train_runs (store w) →
  one_open_run (store w) →
  one_open_run (store (post_running StringToNumber e req_body w).2).
Proof.
  intros Hfresh Hw.
  destruct (post_running_cases StringToNumber e req_body w)
    as [(err & _ & Heq) | (Hv & [Heq | (i & f & u & _ & _ & _ & _ & [[_ Heq] | [_ Heq]])])];
    cbv zeta in Heq; rewrite Heq; cbn [snd store]; try exact Hw.
  intros id. pose proof (Hw id) as Hle. unfold open_runs in Hle |- *.
    cbn [train_runs]. rewrite filter_app, length_app.
    destruct (decide (id = env_uuid_1 e)) as [-> | Hid].
  - assert (Hnil : filter (λ r, r_train_id r = env_uuid_1 e ∧ r_stop_time r = None)
                          (train_runs (store w)) = []).
    { apply filter_nil_Forall, Forall_forall.
      intros r Hr [Hr1 _]. apply Hfresh. rewrite <- Hr1.
      apply list_elem_of_fmap_2. exact Hr. }
    rewrite Hnil. cbn [length].
    rewrite filter_cons. destruct (decide _); cbn; lia.
  - rewrite filter_cons, decide_False by (cbn; intros [H _]; congruence).
    rewrite filter_nil. cbn [length]. lia.
Qed.

Lemma patch_running_one_open_run (e : env) (id : string) (req_body : obj) (w : world) :
  one_open_run (store w) →
  one_open_run (store (patch_running StringToNumber e id req_body w).2).
Proof.
  intros Hw.
  destruct (patch_running_store StringToNumber e id req_body w) as [-> | (f & ->)];
    exact Hw.
Qed.

Lemma delete_running_one_open_run (e : env) (id : string) (w : world) :
  one_open_run (store w) → one_open_run (store (delete_running e id w).2).
Proof.
  intros Hw.
  destruct (delete_running_cases e id w)
    as [[_ Heq] | (existing & Hex & [[_ Heq] | (_ & [[_ Heq] | (runs' & Hruns & Heq)])])];
    rewrite Heq; cbn [snd store stopped_world]; try exact Hw.
  intros id'. pose proof (Hw id') as Hle. unfold open_runs in Hle |- *.
  cbn [train_runs]. destruct Hruns as [(rid & ->) | (_ & _ & ->)].
  - etransitivity; [ apply open_runs_set_stop_time | exact Hle ].
  - rewrite filter_app, length_app. unfold zero_run.
    rewrite filter_cons, decide_False by (cbn; intros [_ H]; discriminate).
    rewrite filter_nil. cbn [length]. lia.
Qed.

(** X6. A train never has two open runs.  When no train of the ledger
    has more than one run without a [stop_time], and every start draws a
    train id that no run of the ledger refers to yet, then after any
    sequence of requests, socket events and storage faults no train has
    more than one open run: a start opens the only run of its new train,
    an edit leaves the ledger alone, and a stop opens none. *)
Theorem run_events_one_open_run (evs : list event_in) (w : world) :
  one_open_run (store w) →
  along StringToNumber Date_parse sql_date fresh_train_event evs w →
  one_open_run (store (run_events StringToNumber Date_parse sql_date evs w)).
Proof.
  revert w. induction evs as [ | ev evs IH ]; intros w Hw Hal; [ exact Hw | ].
  destruct Hal as [Hev Hal]. cbn [run_events fold_left]. apply IH; [ | exact Hal ].
  destruct ev as [ | e b | e id b | e id | clock date | | i rs ]; cbn [step].
  - exact Hw.
  - apply post_running_one_open_run; assumption.
  - apply patch_running_one_open_run; assumption.
  - apply delete_running_one_open_run; assumption.
  - rewrite get_reports_runs_world. exact Hw.
  - exact Hw.
  - exact Hw.
Qed.
End OneOpenRun.

(** *** The viewers see the current list *)

Lemma in_sync_publish (ev : string) (d : db) (cs : list client) :
  in_sync (mkWorld d (broadcast_to ev (stmtListRunning d) cs)).
Proof.
  intros i c Hc Hopen. cbn [clients store] in *. unfold broadcast_to in Hc.
  rewrite list_lookup_fmap in Hc.
  destruct (cs !! i) as [c0 | ]; [ | discriminate ]. cbn in Hc. injection Hc as <-.
  revert Hopen. case_bool_decide as H0; [ intros _ | intros H1; contradiction ].
  eexists _, _. split; reflexivity.
Qed.

Section InSync.
Variable StringToNumber : string → jsnum.
Variable Date_parse : string → option Z.
Variable sql_date : string → option string.

Lemma step_in_sync (ev : event_in) (w : world) :
  clean_event w ev → in_sync w →
  in_sync (step StringToNumber Date_parse sql_date ev w).
Proof.
  intros Hev Hw.
  destruct ev as [ | e b | e id b | e id | clock date | | i rs ]; cbn [step].
  - exact Hw.
  - destruct Hev as [Hnf Hfresh].
    destruct (post_running_cases StringToNumber e b w)
      as [(err & _ & Heq) | (Hv & [Heq | (i & f & u & _ & _ & _ & _ & [[Hbad Heq] | [_ Heq]])])];
      cbv zeta in Heq; rewrite Heq; cbn [snd]; try exact Hw.
    + exfalso. destruct Hbad as [Hbad | Hbad]; [ rewrite Hnf in Hbad; discriminate | ].
      contradiction.
    + apply in_sync_publish.
  - destruct (patch_running_cases StringToNumber e id b w)
      as [[_ Heq] | (existing & _ & [(err & _ & Heq) | (Hv & [Heq | (f & Hf & Heq)])])];
      cbv zeta in Heq; rewrite Heq; cbn [snd]; try exact Hw.
    apply in_sync_publish.
  - destruct Hev as [Hnf Hfresh].
    destruct (delete_running_cases e id w)
      as [[_ Heq] | (existing & Hex & [[_ Heq] | (_ & [[Hbad Heq] | (runs' & Hruns & Heq)])])];
      rewrite Heq; cbn [snd]; try exact Hw.
    + exfalso. destruct Hbad as [Hbad | [Hbad | Hbad]];
        [ rewrite Hnf in Hbad; discriminate | rewrite Hnf in Hbad; discriminate | ].
      contradiction.
    + apply in_sync_publish.
  - rewrite get_reports_runs_world. exact Hw.
  - unfold on_connection. cbn [snd]. intros i c Hc Hopen. cbn [clients store] in *.
    apply lookup_app_Some in Hc as [Hc | [_ Hc]].
    + exact (Hw i c Hc Hopen).
    + apply list_lookup_singleton_Some in Hc as [_ <-].
      exists [], (mkMessage "running:init" (stmtListRunning (store w))). split; reflexivity.
  - cbn in Hev. intros j c Hc Hopen. cbn [clients store] in *.
    destruct (decide (i = j)) as [-> | Hij].
    + rewrite list_lookup_alter_eq in Hc.
      destruct (clients w !! j) as [c0 | ]; [ | discriminate ].
      cbn in Hc. injection Hc as <-. cbn in Hopen. contradiction.
    + rewrite list_lookup_alter_ne in Hc by exact Hij. exact (Hw j c Hc Hopen).
Qed.

(** X7. The live view is current.  When every OPEN viewer was last sent
    the running list as it is, and the events that follow meet no storage
    fault, draw fresh UUIDs for the runs they insert and open no socket
    other than by a connection, then after them every OPEN viewer was
    last sent the running list as it is now: each command that changes
    the registry ends by sending every OPEN viewer the new list, and a
    new viewer is sent the list when it connects. *)
Theorem run_events_in_sync (evs : list event_in) (w : world) :
  in_sync w →
  along StringToNumber Date_parse sql_date clean_event evs w →
  in_sync (run_events StringToNumber Date_parse sql_date evs w).
Proof.
  revert w. induction evs as [ | ev evs IH ]; intros w Hw Hal; [ exact Hw | ].
  destruct Hal as [Hev Hal]. cbn [run_events fold_left]. apply IH; [ | exact Hal ].
  apply step_in_sync; assumption.
Qed.
End InSync.

(** ** What an edit changes *)

Section EditFields.
Variable StringToNumber : string → jsnum.

Lemma merge_patch_get (id : string) (req_body : obj) (existing : train) (k : string) :
  k ∈ field_keys →
  get (merge_patch StringToNumber id req_body existing) k
  = match req_body !! k with
    | Some v =>
        if bool_decide (k = "numberOfCars" ∧ v ≠ VUndef)
        then VNum (Number StringToNumber v) else v
    | None => get (obj_of_train existing) k
    end.
Proof.
  intros Hk.
  assert (Hid : "id" ≠ k) by (intros <-; not_in_literals Hk).
  unfold merge_patch. cbv zeta.
  destruct (decide (k = "numberOfCars")) as [-> | Hn].
  - destruct (req_body !! "numberOfCars") as [v | ] eqn:Hv.
    + assert (Hg : get req_body "numberOfCars" = v) by (unfold get; rewrite Hv; reflexivity).
      rewrite !Hg.
      case_bool_decide as H1; case_bool_decide as H2; try tauto.
      * apply get_insert_eq.
      * rewrite get_insert_ne, get_union, Hv by discriminate. reflexivity.
    + assert (Hg : get req_body "numberOfCars" = VUndef)
        by (unfold get; rewrite Hv; reflexivity).
      rewrite !Hg.
      rewrite bool_decide_eq_false_2 by (intros H; apply H; reflexivity).
      rewrite get_insert_ne, get_union, Hv by discriminate. reflexivity.
  - assert (Hu : get (<["id" := VStr id]> (req_body ∪ obj_of_train existing)) k
                 = match req_body !! k with
                   | Some v => v
                   | None => get (obj_of_train existing) k
                   end).
    { rewrite get_insert_ne, get_union by exact Hid. reflexivity. }
    case_bool_decide.
    + rewrite get_insert_ne by congruence. rewrite Hu.
      destruct (req_body !! k); [ | reflexivity ].
      rewrite bool_decide_eq_false_2 by tauto. reflexivity.
    + rewrite Hu. destruct (req_body !! k); [ | reflexivity ].
      rewrite bool_decide_eq_false_2 by tauto. reflexivity.
Qed.

Lemma stmtGetById_assign_train (id : string) (f : fields) (u : string) (d : db) :
  stmtGetById id (mkDb (assign_train id f u <$> trains d) (train_runs d))
  = assign_train id f u <$> stmtGetById id d.
Proof.
  unfold stmtGetById. cbn [trains].
  rewrite filter_fmap_respect, head_fmap; [ reflexivity | ].
  intros t. unfold assign_train. case_bool_decide; reflexivity.
Qed.

(** X2. An edit changes only what its body names.  For a train of the
    registry, the row read back under the id after the edit has, in
    every descriptive field the body does not carry, the value it had
    before, whether the edit was accepted or not.  When the edit is
    answered 200, the row has the body's value in every field the body
    carries, with [numberOfCars] converted by [Number], its [active]
    flag is as before and its [updated_at] is the time of the request. *)
Theorem patch_running_changes_named_fields
    (e : env) (id : string) (req_body : obj) (w : world) (existing : train) :
  stmtGetById id (store w) = Some existing →
  ∃ t',
    stmtGetById id (store (patch_running StringToNumber e id req_body w).2) = Some t'
    ∧ (∀ k, k ∈ field_keys → req_body !! k = None →
            get (obj_of_train t') k = get (obj_of_train existing) k)
    ∧ ((patch_running StringToNumber e id req_body w).1 = Ok (mkResponse 200 ROk) →
       (∀ k v, k ∈ field_keys → k ≠ "numberOfCars" → req_body !! k = Some v →
               get (obj_of_train t') k = v)
       ∧ (∀ v, req_body !! "numberOfCars" = Some v → v ≠ VUndef →
               get (obj_of_train t') "numberOfCars" = VNum (Number StringToNumber v))
       ∧ t_active t' = t_active existing
       ∧ t_updated_at t' = env_now e).
Proof.
  intros Hex.
  destruct (patch_running_cases StringToNumber e id req_body w)
    as [[Hn _] | (existing' & Hex' & [(err & _ & Heq) | (Hv & [Heq | (f & Hf & Heq)])])];
    [ congruence | | | ];
    rewrite Hex in Hex'; injection Hex' as <-; cbv zeta in Heq; rewrite Heq; cbn [fst snd].
  1, 2: exists existing; split; [ exact Hex | ]; split; [ reflexivity | discriminate ].
  cbn [store]. rewrite stmtGetById_assign_train, Hex.
  destruct (stmtGetById_Some _ _ _ Hex) as [_ Hid].
  change (assign_train id f (env_now e) <$> Some existing)
    with (Some (assign_train id f (env_now e) existing)).
  unfold assign_train. rewrite bool_decide_eq_true_2 by exact Hid.
  eexists. split; [ reflexivity | ].
  assert (Hget : ∀ k, k ∈ field_keys →
            get (obj_of_train (mkTrain (t_id existing) f (t_active existing) (env_now e))) k
            = get (merge_patch StringToNumber id req_body existing) k).
  { intros k Hk. eapply bind_fields_get; eassumption. }
  split; [ | intros _; split; [ | split; [ | split; reflexivity ] ] ].
  - intros k Hk Hnone. rewrite (Hget k Hk), (merge_patch_get _ _ _ k Hk), Hnone. reflexivity.
  - intros k v Hk Hne Hsome. rewrite (Hget k Hk), (merge_patch_get _ _ _ k Hk), Hsome.
    rewrite bool_decide_eq_false_2 by tauto. reflexivity.
  - intros v Hsome Hdef.
    assert (Hk : "numberOfCars" ∈ field_keys) by (unfold field_keys; set_solver).
    rewrite (Hget _ Hk), (merge_patch_get _ _ _ _ Hk), Hsome.
    rewrite bool_decide_eq_true_2 by tauto. reflexivity.
Qed.
End EditFields.

(** ** Sockets that are not OPEN *)

Section Closed.
Variable StringToNumber : string → jsnum.
Variable Date_parse : string → option Z.
Variable sql_date : string → option string.

Lemma broadcast_to_closed (ev : string) (p : list running_row) (cs : list client)
    (i : nat) (c : client) :
  cs !! i = Some c → readyState c ≠ 1 → broadcast_to ev p cs !! i = Some c.
Proof.
  intros Hc Hrs. unfold broadcast_to. rewrite list_lookup_fmap, Hc. cbn.
  rewrite bool_decide_eq_false_2 by exact Hrs. reflexivity.
Qed.

Lemma publishes_closed {A : Type} (m : M A) (w : world) (i : nat) (c : client) :
  publishes m → clients w !! i = Some c → readyState c ≠ 1 →
  clients (m w).2 !! i = Some c.
Proof.
  intros Hm Hc Hrs. destruct (Hm w) as [-> | (p & ->)]; [ exact Hc | ].
  apply broadcast_to_closed; assumption.
Qed.

(** X8. [broadcast] skips every socket that is not OPEN.  A viewer whose
    socket is not in the OPEN state is sent nothing by any request,
    whatever the request does to the registry, and a new connection
    leaves it alone: it stays at its place with the messages it had. *)
Theorem closed_socket_receives_nothing (ev : event_in) (w : world) (i : nat) (c : client) :
  clients w !! i = Some c → readyState c ≠ 1 →
  (∀ j rs, ev ≠ ESocketState j rs) →
  clients (step StringToNumber Date_parse sql_date ev w) !! i = Some c.
Proof.
  intros Hc Hrs Hev.
  destruct ev as [ | e b | e id b | e id | clock date | | j rs ]; cbn [step].
  - exact Hc.
  - apply publishes_closed; [ apply post_running_publishes | assumption | assumption ].
  - apply publishes_closed; [ apply patch_running_publishes | assumption | assumption ].
  - apply publishes_closed; [ apply delete_running_publishes | assumption | assumption ].
  - rewrite get_reports_runs_world. exact Hc.
  - unfold on_connection. cbn [snd clients]. apply lookup_app_l_Some. exact Hc.
  - exfalso. exact (Hev j rs eq_refl).
Qed.
End Closed.

(** ** The running list across a start and a stop *)

Lemma deactivate_train_other (id u : string) (l : list train) :
  id ∉ t_id <$> l → deactivate_train id u <$> l = l.
Proof.
  induction l as [ | t l IH ]; intros Hnin; [ reflexivity | ].
  rewrite fmap_cons in Hnin. apply not_elem_of_cons in Hnin as [Hne Hnin].
  rewrite fmap_cons, (IH Hnin). unfold deactivate_train.
  rewrite bool_decide_eq_false_2 by congruence. reflexivity.
Qed.

Lemma filter_active_deactivate (id u : string) (l : list train) :
  filter (λ t, t_active t = 1) (deactivate_train id u <$> l)
  = filter (λ t, t_active t = 1 ∧ t_id t ≠ id) l.
Proof.
  induction l as [ | t l IH ]; [ reflexivity | ].
  rewrite fmap_cons, !filter_cons, IH. unfold deactivate_train.
  case_bool_decide as Hid; cbn [t_active].
  - rewrite decide_False by discriminate. rewrite decide_False by tauto. reflexivity.
  - destruct (decide (t_active t = 1)) as [Ha | Ha].
    + rewrite decide_True by tauto. reflexivity.
    + rewrite decide_False by tauto. reflexivity.
Qed.

Lemma filter_select_running (id : string) (l : list train) :
  select_running <$> filter (λ t, t_active t = 1 ∧ t_id t ≠ id) l
  = filter (λ row, rr_id row ≠ id) (select_running <$> filter (λ t, t_active t = 1) l).
Proof.
  induction l as [ | t l IH ]; [ reflexivity | ].
  rewrite !filter_cons.
  destruct (decide (t_active t = 1)) as [Ha | Ha].
  - rewrite fmap_cons, filter_cons. cbn [select_running rr_id].
    destruct (decide (t_id t ≠ id)) as [Hid | Hid].
    + rewrite decide_True by tauto. rewrite fmap_cons, IH. reflexivity.
    + rewrite decide_False by tauto. exact IH.
  - rewrite decide_False by tauto. exact IH.
Qed.

(** X10. A stop takes the train off the running list and nothing else.
    For a train of the registry, once [stmtDeactivate] has run, the
    running list is the former list without the entries of that id: the
    same entries, each as often as before, whether the ledger writes that
    follow succeed or throw. *)
Theorem delete_running_leaves_list (e : env) (id : string) (w : world) (existing : train) :
  stmtGetById id (store w) = Some existing →
  env_fault e StmtDeactivate = false →
  stmtListRunning (store (delete_running e id w).2)
  ≡ₚ filter (λ row, rr_id row ≠ id) (stmtListRunning (store w)).
Proof.
  intros Hex Hnf.
  assert (Htrains : trains (store (delete_running e id w).2)
                    = deactivate_train id (env_now e) <$> trains (store w)).
  { destruct (delete_running_cases e id w)
      as [[Hn _] | (existing' & _ & [[Hf _] | (_ & [[_ Heq] | (runs' & _ & Heq)])])];
      [ congruence | congruence | | ]; rewrite Heq; reflexivity. }
  unfold stmtListRunning. rewrite Htrains.
  rewrite !merge_sort_Permutation.
  rewrite filter_active_deactivate, filter_select_running. reflexivity.
Qed.

Section StartStop.
Variable StringToNumber : string → jsnum.

(** X11. An accepted start puts one entry on the running list.  For a
    valid body without [id] and [updated_at], fresh UUIDs and no storage
    fault, the start is answered 201 with the new id, and the running
    list is then the former list and one more entry: the row of that id,
    with the fields the record bound to and the time of the request. *)
Theorem post_running_joins_list (e : env) (req_body : obj) (w : world) :
  validateTrain (normalize StringToNumber req_body) = None →
  req_body !! "id" = None → req_body !! "updated_at" = None →
  env_fault e StmtInsert = false → env_fault e StmtInsertRun = false →
  env_uuid_1 e ∉ t_id <$> trains (store w) →
  env_uuid_2 e ∉ r_id <$> train_runs (store w) →
  ∃ f,
    bind_fields (new_row (env_uuid_1 e) (env_now e) (normalize StringToNumber req_body))
    = Some f
    ∧ (post_running StringToNumber e req_body w).1
      = Ok (mkResponse 201 (RId (env_uuid_1 e)))
    ∧ stmtListRunning (store (post_running StringToNumber e req_body w).2)
      ≡ₚ select_running (mkTrain (env_uuid_1 e) f 1 (env_now e))
         :: stmtListRunning (store w).
Proof.
  intros Hv Hid Hup Hf1 Hf2 Hu1 Hu2.
  destruct (post_running_created StringToNumber e req_body w Hv Hid Hup Hf1 Hf2 Hu1 Hu2)
    as (f & _ & Hf & Heq).
  cbv zeta in Heq. exists f. split; [ exact Hf | ]. rewrite Heq. cbn [fst snd store].
  split; [ reflexivity | ].
  unfold stmtListRunning. cbn [trains]. rewrite !merge_sort_Permutation.
  rewrite filter_app, fmap_app, filter_cons, decide_True by reflexivity.
  rewrite filter_nil. cbn [fmap list_fmap].
  symmetry. apply Permutation_cons_append.
Qed.

(** X9. A start followed by a stop of the train it started gives the
    running list back.  For a valid body without [id] and [updated_at],
    UUIDs not yet used as a train id, as a run's train or as a run id,
    and no storage fault, the stop is answered 200; the running list is
    then exactly what it was before the start; the registry has gained
    the train, now inactive and stamped with the time of the stop; and
    the ledger has gained one run of that train, from the time of the
    start to the time of the stop. *)
Theorem start_then_stop_round_trip (e1 e2 : env) (req_body : obj) (w : world) :
  validateTrain (normalize StringToNumber req_body) = None →
  req_body !! "id" = None → req_body !! "updated_at" = None →
  no_fault e1 → no_fault e2 →
  env_uuid_1 e1 ∉ t_id <$> trains (store w) →
  env_uuid_1 e1 ∉ r_train_id <$> train_runs (store w) →
  env_uuid_2 e1 ∉ r_id <$> train_runs (store w) →
  let w1 := (post_running StringToNumber e1 req_body w).2 in
  let stop := delete_running e2 (env_uuid_1 e1) w1 in
  stop.1 = Ok (mkResponse 200 ROk)
  ∧ stmtListRunning (store stop.2) = stmtListRunning (store w)
  ∧ ∃ f,
      valid_fields f
      ∧ trains (store stop.2)
        = trains (store w) ++ [mkTrain (env_uuid_1 e1) f 0 (env_now e2)]
      ∧ train_runs (store stop.2)
        = train_runs (store w)
          ++ [mkRun (env_uuid_2 e1) (env_uuid_1 e1) f (env_now e1) (Some (env_now e2))].
Proof.
  intros Hv Hid Hup Hnf1 Hnf2 Hu1 Hut Hu2 w1 stop.
  destruct (post_running_created StringToNumber e1 req_body w Hv Hid Hup
              (Hnf1 StmtInsert) (Hnf1 StmtInsertRun) Hu1 Hu2)
    as (f & Hvalid & _ & Heq).
  cbv zeta in Heq.
  set (t := mkTrain (env_uuid_1 e1) f 1 (env_now e1)) in *.
  set (r := mkRun (env_uuid_2 e1) (env_uuid_1 e1) f (env_now e1) None) in *.
  assert (Hstore : store w1 = mkDb (trains (store w) ++ [t]) (train_runs (store w) ++ [r])).
  { subst w1. rewrite Heq. reflexivity. }
  assert (Hget : stmtGetById (env_uuid_1 e1) (store w1) = Some t).
  { unfold stmtGetById. rewrite Hstore. cbn [trains]. rewrite filter_app.
    rewrite (filter_nil_Forall _ (trains (store w))).
    - rewrite filter_cons, decide_True by reflexivity. reflexivity.
    - apply Forall_forall. intros x Hx Hxid. apply Hu1. rewrite <- Hxid.
      apply list_elem_of_fmap_2. exact Hx. }
  assert (Hopen : stmtFindOpenRun (env_uuid_1 e1) (store w1) = Some (env_uuid_2 e1)).
  { unfold stmtFindOpenRun. rewrite Hstore. cbn [train_runs]. rewrite filter_app.
    rewrite (filter_nil_Forall _ (train_runs (store w))).
    - rewrite filter_cons, decide_True by (split; reflexivity). reflexivity.
    - apply Forall_forall. intros x Hx [Hxid _]. apply Hut. rewrite <- Hxid.
      apply list_elem_of_fmap_2. exact Hx. }
  subst stop. rewrite (delete_running_open e2 _ _ w1 t Hget Hnf2 Hopen).
  cbn [fst snd stopped_world store trains train_runs]. rewrite Hstore. cbn [trains train_runs].
  assert (Htrains : deactivate_train (env_uuid_1 e1) (env_now e2) <$> (trains (store w) ++ [t])
                    = trains (store w) ++ [mkTrain (env_uuid_1 e1) f 0 (env_now e2)]).
  { rewrite fmap_app, (deactivate_train_other _ _ _ Hu1). cbn [fmap list_fmap].
    unfold deactivate_train, t. cbn [t_id]. rewrite bool_decide_eq_true_2 by reflexivity.
    reflexivity. }
  assert (Hruns : set_stop_time (env_uuid_2 e1) (Some (env_now e2))
                    <$> (train_runs (store w) ++ [r])
                  = train_runs (store w)
                    ++ [mkRun (env_uuid_2 e1) (env_uuid_1 e1) f (env_now e1)
                              (Some (env_now e2))]).
  { rewrite fmap_app, set_stop_time_other.
    - cbn [fmap list_fmap]. unfold set_stop_time, r. cbn [r_id].
      rewrite bool_decide_eq_true_2 by reflexivity. reflexivity.
    - intros x Hx Hxid. apply Hu2. rewrite <- Hxid. apply list_elem_of_fmap_2. exact Hx. }
  split; [ reflexivity | ]. split.
  - unfold stmtListRunning. cbn [trains]. rewrite Htrains, filter_app.
    rewrite filter_cons, decide_False by discriminate.
    rewrite filter_nil, app_nil_r. reflexivity.
  - exists f. split; [ exact Hvalid | ]. split; assumption.
Qed.
End StartStop.

(** ** What a start stores *)

Section StartFields.
Variable StringToNumber : string → jsnum.


(** X19. The outcomes of the three commands.  A start ends in the answer
    201 with the new id, in a 400 with the message of the validator, or
    in an exception, when a bind or a statement throws (Express then
    answers 500); it is never answered 200 or 404.  An edit ends in the
    answer 200, in a 400 with the message of the validator on the merged
    record, in the 404 "not found" when the id is not in the registry, or
    in an exception.  A stop ends in the answer 200, in that 404, or in
    an exception; it is never answered 400. *)
Theorem command_statuses (e : env) (id : string) (req_body : obj) (w : world) :
  (let out := (post_running StringToNumber e req_body w).1 in
   out = Thrown
   ∨ out = Ok (mkResponse 201 (RId (env_uuid_1 e)))
   ∨ ∃ err, validateTrain (normalize StringToNumber req_body) = Some err
            ∧ out = Ok (bad err))
  ∧ (let out := (patch_running StringToNumber e id req_body w).1 in
     out = Thrown
     ∨ out = Ok (mkResponse 200 ROk)
     ∨ (stmtGetById id (store w) = None ∧ out = Ok not_found)
     ∨ ∃ existing err,
         stmtGetById id (store w) = Some existing
         ∧ validateTrain (merge_patch StringToNumber id req_body existing) = Some err
         ∧ out = Ok (bad err))
  ∧ (let out := (delete_running e id w).1 in
     out = Thrown
     ∨ out = Ok (mkResponse 200 ROk)
     ∨ (stmtGetById id (store w) = None ∧ out = Ok not_found)).
Proof.
  cbv zeta. split; [ | split ].
  - destruct (post_running_cases StringToNumber e req_body w)
      as [(err & Hv & Heq) | (_ & [Heq | (i & f & u & _ & _ & _ & _ & [[_ Heq] | [_ Heq]])])];
      cbv zeta in Heq; rewrite Heq; cbn [fst].
    + right. right. exists err. split; [ exact Hv | reflexivity ].
    + left. reflexivity.
    + left. reflexivity.
    + right. left. reflexivity.
  - destruct (patch_running_cases StringToNumber e id req_body w)
      as [[Hn Heq] | (existing & Hex & [(err & Hv & Heq) | (_ & [Heq | (f & _ & Heq)])])];
      cbv zeta in Heq; rewrite Heq; cbn [fst].
    + right. right. left. split; [ exact Hn | reflexivity ].
    + right. right. right. exists existing, err.
      split; [ exact Hex | split; [ exact Hv | reflexivity ] ].
    + left. reflexivity.
    + right. left. reflexivity.
  - destruct (delete_running_cases e id w)
      as [[Hn Heq] | (existing & _ & [[_ Heq] | (_ & [[_ Heq] | (runs' & _ & Heq)])])];
      rewrite Heq; cbn [fst].
    + right. right. split; [ exact Hn | reflexivity ].
    + left. reflexivity.
    + left. reflexivity.
    + right. left. reflexivity.
Qed.
End StartFields.

(** ** The primary keys *)

Section Keys.
Variable StringToNumber : string → jsnum.
Variable Date_parse : string → option Z.
Variable sql_date : string → option string.

(** X4. The primary keys hold along every execution in which no start
    overrides [id] or [updated_at] with a value that is not text.  From a
    database whose train ids are pairwise distinct and whose run ids are
    pairwise distinct and not empty, with UUIDs that are not empty, and
    with no start whose body carries a number or [null] as [id] or a
    number as [updated_at] (values that SQLite stores, a number under its
    text and a [null] id as NULL, and that the model of the INSERT does
    not cover), any sequence of requests, socket events and storage
    faults leads to a database of that kind: an INSERT that would repeat
    a key throws and writes nothing, and no UPDATE assigns an id. *)
Theorem run_events_keeps_primary_keys (evs : list event_in) (w : world) :
  Forall event_ok evs → Forall text_keys_event evs → wf_db (store w) →
  NoDup (t_id <$> trains (store (run_events StringToNumber Date_parse sql_date evs w)))
  ∧ NoDup (r_id <$> train_runs (store (run_events StringToNumber Date_parse sql_date evs w)))
  ∧ "" ∉ r_id <$> train_runs (store (run_events StringToNumber Date_parse sql_date evs w)).
Proof.
  intros Hok _ Hw.
  destruct (run_events_wf StringToNumber Date_parse sql_date evs w Hok Hw) as [H1 H2 H3].
  auto.
Qed.
End Keys.

(** ** The report and the edits *)

Section ReportEdits.
Variable StringToNumber : string → jsnum.
Variable Date_parse : string → option Z.
Variable sql_date : string → option string.

Lemma get_reports_runs_ledger (clock : nat → Z) (date : option query_value)
    (w1 w2 : world) :
  train_runs (store w1) = train_runs (store w2) →
  (get_reports_runs Date_parse sql_date clock date w1).1
  = (get_reports_runs Date_parse sql_date clock date w2).1.
Proof.
  intros H. unfold get_reports_runs. destruct (_ || _); [ reflexivity | ].
  destruct date as [[s | prim] | ]; [ | reflexivity | reflexivity ].
  unfold_monad. unfold stmtRunsByDate. rewrite H. reflexivity.
Qed.

(** X20. The report shows every run as it was started: an edit of a
    train, accepted or not, changes nothing in the answer to any report
    query, because the report reads the snapshot in the ledger and an
    edit writes the registry only. *)
Theorem report_ignores_edits
    (e : env) (id : string) (req_body : obj) (clock : nat → Z)
    (date : option query_value) (w : world) :
  (get_reports_runs Date_parse sql_date clock date
     (patch_running StringToNumber e id req_body w).2).1
  = (get_reports_runs Date_parse sql_date clock date w).1.
Proof.
  apply get_reports_runs_ledger.
  destruct (patch_running_store StringToNumber e id req_body w) as [-> | (f & ->)];
    reflexivity.
Qed.
End ReportEdits.

(** ** The properties above on the sample data *)

Lemma sample_fields_valid : valid_fields sample_fields.
Proof.
  constructor; cbn; try discriminate; try lia;
    apply (bool_decide_unpack _); vm_compute; exact I.
Qed.

Lemma sample_world_valid : valid_db (store sample_world).
Proof.
  split; cbn; (constructor; [ apply sample_fields_valid | constructor ]).
Qed.

Lemma sample_world_one_open_run : one_open_run (store sample_world).
Proof.
  intros id. unfold open_runs. cbn [store sample_world train_runs].
  rewrite filter_cons, filter_nil. destruct (decide _); cbn; lia.
Qed.

Lemma sample_env_no_fault : no_fault sample_env.
Proof. intros s. reflexivity. Qed.

Lemma later_env_no_fault : no_fault later_env.
Proof. intros s. reflexivity. Qed.

Lemma sample_world_in_sync : in_sync sample_world.
Proof. intros i c Hc. cbn in Hc. rewrite lookup_nil in Hc. discriminate. Qed.

Lemma rejected_command_changes_nothing_witness :
  post_running digits_to_number sample_env two_faults_body sample_world
  = (Ok (bad msg_numberOfCars),
     (post_running digits_to_number sample_env two_faults_body sample_world).2)
  ∧ status (bad msg_numberOfCars) = 400
  ∧ (post_running digits_to_number sample_env two_faults_body sample_world).2 = sample_world.
Proof.
  assert (H1 : post_running digits_to_number sample_env two_faults_body sample_world
               = (Ok (bad msg_numberOfCars),
                  (post_running digits_to_number sample_env two_faults_body
                                sample_world).2))
    by (vm_compute; reflexivity).
  assert (H2 : status (bad msg_numberOfCars) = 400) by reflexivity.
  repeat (split; [ assumption | ]).
  apply (rejected_command_changes_nothing digits_to_number sample_env "t-1" two_faults_body
           sample_world _ (bad msg_numberOfCars) (or_introl H1) (or_introl H2)).
Defined.

Lemma run_events_valid_db_witness :
  valid_db (store sample_world)
  ∧ valid_db (store (run_events digits_to_number iso_time_value iso_date sample_events
                                sample_world)).
Proof.
  split; [ exact sample_world_valid | ].
  apply (run_events_valid_db digits_to_number iso_time_value iso_date sample_events
           sample_world sample_world_valid).
Defined.

Lemma run_events_one_open_run_witness :
  one_open_run (store sample_world)
  ∧ along digits_to_number iso_time_value iso_date fresh_train_event sample_events
          sample_world
  ∧ one_open_run (store (run_events digits_to_number iso_time_value iso_date sample_events
                                    sample_world)).
Proof.
  assert (Hal : along digits_to_number iso_time_value iso_date fresh_train_event
                      sample_events sample_world).
  { cbn [along sample_events fresh_train_event].
    split; [ exact I | split; [ | split; [ exact I | exact I ] ] ].
    apply (bool_decide_unpack _). vm_compute. exact I. }
  split; [ exact sample_world_one_open_run | split; [ exact Hal | ] ].
  apply (run_events_one_open_run digits_to_number iso_time_value iso_date sample_events
           sample_world sample_world_one_open_run Hal).
Defined.

Lemma run_events_in_sync_witness :
  in_sync sample_world
  ∧ along digits_to_number iso_time_value iso_date clean_event sample_events sample_world
  ∧ in_sync (run_events digits_to_number iso_time_value iso_date sample_events sample_world).
Proof.
  assert (Hal : along digits_to_number iso_time_value iso_date clean_event
                      sample_events sample_world).
  { cbn [along sample_events clean_event].
    split; [ exact I | split; [ split | split; [ split | exact I ] ] ].
    - exact sample_env_no_fault.
    - apply (bool_decide_unpack _). vm_compute. exact I.
    - exact sample_env_no_fault.
    - apply (bool_decide_unpack _). vm_compute. exact I. }
  split; [ exact sample_world_in_sync | split; [ exact Hal | ] ].
  apply (run_events_in_sync digits_to_number iso_time_value iso_date sample_events
           sample_world sample_world_in_sync Hal).
Defined.

Lemma patch_running_changes_named_fields_witness :
  stmtGetById "t-1" (store sample_world) = Some sample_train
  ∧ ∃ t',
      stmtGetById "t-1"
        (store (patch_running digits_to_number sample_env "t-1" sample_patch sample_world).2)
      = Some t'
      ∧ get (obj_of_train t') "name" = get (obj_of_train sample_train) "name".
Proof.
  assert (H : stmtGetById "t-1" (store sample_world) = Some sample_train) by reflexivity.
  split; [ exact H | ].
  destruct (patch_running_changes_named_fields digits_to_number sample_env "t-1"
              sample_patch sample_world sample_train H) as (t' & Ht' & Hkeep & _).
  exists t'. split; [ exact Ht' | ].
  apply Hkeep; [ | reflexivity ].
  apply (bool_decide_unpack _). vm_compute. exact I.
Defined.

Lemma closed_socket_receives_nothing_witness :
  clients closed_viewer_world !! 0%nat = Some (mkClient 3 [mkMessage "running:init" []])
  ∧ readyState (mkClient 3 [mkMessage "running:init" []]) ≠ 1
  ∧ (∀ j rs, EPost sample_env sample_body ≠ ESocketState j rs)
  ∧ clients (step digits_to_number iso_time_value iso_date (EPost sample_env sample_body)
                  closed_viewer_world) !! 0%nat
    = Some (mkClient 3 [mkMessage "running:init" []]).
Proof.
  assert (H1 : clients closed_viewer_world !! 0%nat
               = Some (mkClient 3 [mkMessage "running:init" []])) by reflexivity.
  assert (H2 : readyState (mkClient 3 [mkMessage "running:init" []]) ≠ 1) by discriminate.
  assert (H3 : ∀ j rs, EPost sample_env sample_body ≠ ESocketState j rs) by discriminate.
  repeat (split; [ assumption | ]).
  apply (closed_socket_receives_nothing digits_to_number iso_time_value iso_date
           (EPost sample_env sample_body) closed_viewer_world 0%nat _ H1 H2 H3).
Defined.

Lemma delete_running_leaves_list_witness :
  stmtGetById "t-1" (store sample_world) = Some sample_train
  ∧ env_fault sample_env StmtDeactivate = false
  ∧ stmtListRunning (store (delete_running sample_env "t-1" sample_world).2)
    ≡ₚ filter (λ row, rr_id row ≠ "t-1") (stmtListRunning (store sample_world)).
Proof.
  assert (H1 : stmtGetById "t-1" (store sample_world) = Some sample_train) by reflexivity.
  assert (H2 : env_fault sample_env StmtDeactivate = false) by reflexivity.
  repeat (split; [ assumption | ]).
  apply (delete_running_leaves_list sample_env "t-1" sample_world sample_train H1 H2).
Defined.

Lemma post_running_joins_list_witness :
  validateTrain (normalize digits_to_number sample_body) = None
  ∧ sample_body !! "id" = None ∧ sample_body !! "updated_at" = None
  ∧ env_fault sample_env StmtInsert = false ∧ env_fault sample_env StmtInsertRun = false
  ∧ (env_uuid_1 sample_env ∉ t_id <$> trains (store sample_world))
  ∧ (env_uuid_2 sample_env ∉ r_id <$> train_runs (store sample_world))
  ∧ ∃ f,
      stmtListRunning (store (post_running digits_to_number sample_env sample_body
                                           sample_world).2)
      ≡ₚ select_running (mkTrain "u-1" f 1 "2024-05-01T11:35:00.000Z")
         :: stmtListRunning (store sample_world).
Proof.
  assert (H1 : validateTrain (normalize digits_to_number sample_body) = None)
    by (vm_compute; reflexivity).
  assert (H2 : sample_body !! "id" = None) by reflexivity.
  assert (H3 : sample_body !! "updated_at" = None) by reflexivity.
  assert (H4 : env_fault sample_env StmtInsert = false) by reflexivity.
  assert (H5 : env_fault sample_env StmtInsertRun = false) by reflexivity.
  assert (H6 : env_uuid_1 sample_env ∉ t_id <$> trains (store sample_world))
    by (apply (bool_decide_unpack _); vm_compute; exact I).
  assert (H7 : env_uuid_2 sample_env ∉ r_id <$> train_runs (store sample_world))
    by (apply (bool_decide_unpack _); vm_compute; exact I).
  repeat (split; [ assumption | ]).
  destruct (post_running_joins_list digits_to_number sample_env sample_body sample_world
              H1 H2 H3 H4 H5 H6 H7) as (f & _ & _ & Hlist).
  exists f. exact Hlist.
Defined.

Lemma start_then_stop_round_trip_witness :
  validateTrain (normalize digits_to_number sample_body) = None
  ∧ sample_body !! "id" = None ∧ sample_body !! "updated_at" = None
  ∧ no_fault sample_env ∧ no_fault later_env
  ∧ (env_uuid_1 sample_env ∉ t_id <$> trains (store sample_world))
  ∧ (env_uuid_1 sample_env ∉ r_train_id <$> train_runs (store sample_world))
  ∧ (env_uuid_2 sample_env ∉ r_id <$> train_runs (store sample_world))
  ∧ stmtListRunning
      (store (delete_running later_env "u-1"
                (post_running digits_to_number sample_env sample_body sample_world).2).2)
    = stmtListRunning (store sample_world).
Proof.
  assert (H1 : validateTrain (normalize digits_to_number sample_body) = None)
    by (vm_compute; reflexivity).
  assert (H2 : sample_body !! "id" = None) by reflexivity.
  assert (H3 : sample_body !! "updated_at" = None) by reflexivity.
  assert (H4 : no_fault sample_env) by exact sample_env_no_fault.
  assert (H5 : no_fault later_env) by exact later_env_no_fault.
  assert (H6 : env_uuid_1 sample_env ∉ t_id <$> trains (store sample_world))
    by (apply (bool_decide_unpack _); vm_compute; exact I).
  assert (H7 : env_uuid_1 sample_env ∉ r_train_id <$> train_runs (store sample_world))
    by (apply (bool_decide_unpack _); vm_compute; exact I).
  assert (H8 : env_uuid_2 sample_env ∉ r_id <$> train_runs (store sample_world))
    by (apply (bool_decide_unpack _); vm_compute; exact I).
  repeat (split; [ assumption | ]).
  destruct (start_then_stop_round_trip digits_to_number sample_env later_env sample_body
              sample_world H1 H2 H3 H4 H5 H6 H7 H8) as (_ & Hlist & _).
  exact Hlist.
Defined.


Lemma sample_body_text_keys : text_keys sample_body.
Proof.
  assert (H1 : sample_body !! "id" = None) by reflexivity.
  assert (H2 : sample_body !! "updated_at" = None) by reflexivity.
  unfold text_keys. rewrite H1, H2. repeat split; [ intros n | | intros n ]; discriminate.
Qed.

Lemma run_events_keeps_primary_keys_witness :
  Forall event_ok sample_events
  ∧ Forall text_keys_event sample_events
  ∧ wf_db (store sample_world)
  ∧ NoDup (t_id <$> trains (store (run_events digits_to_number iso_time_value iso_date
                                               sample_events sample_world))).
Proof.
  assert (H1 : Forall event_ok sample_events).
  { repeat constructor; discriminate. }
  assert (H2 : Forall text_keys_event sample_events).
  { constructor; [ exact I | ].
    constructor; [ exact sample_body_text_keys | ].
    constructor; [ exact I | constructor ]. }
  split; [ exact H1 | split; [ exact H2 | split; [ exact sample_world_wf | ] ] ].
  destruct (run_events_keeps_primary_keys digits_to_number iso_time_value iso_date
              sample_events sample_world H1 H2 sample_world_wf) as (Ht & _ & _).
  exact Ht.
Defined.

(** ** The migrations of [db.js] *)

Lemma table_info_insert (table : string) (cols : list string) (s : schema) :
  table_info table (<[table := cols]> s) = cols.
Proof. unfold table_info. rewrite lookup_insert_eq. reflexivity. Qed.

Lemma table_info_insert_ne (table table' : string) (cols : list string) (s : schema) :
  table ≠ table' → table_info table' (<[table := cols]> s) = table_info table' s.
Proof. intros H. unfold table_info. rewrite lookup_insert_ne by exact H. reflexivity. Qed.

Section MigrationFacts.
Variable added_column : string → option string.

Lemma ensureColumn_present (table name definition : string) (s : schema) :
  name ∈ table_info table s → ensureColumn added_column table name definition s = Some s.
Proof. intros H. unfold ensureColumn. cbv zeta. rewrite bool_decide_eq_true_2 by exact H. reflexivity. Qed.

(** X21. [ensureColumn] adds the column that the definition names, not
    the column it looked for.  When the table has no column [name] and
    the call returns, the table has gained exactly one column, the one
    SQLite reads off [definition], and every other table is as before;
    the table has a column [name] afterwards only if that is the column
    the definition names.  If it is not, the same call made again throws,
    because the column it would add is there already. *)
Theorem ensureColumn_adds_what_definition_names
    (table name definition : string) (s s' : schema) :
  name ∉ table_info table s →
  ensureColumn added_column table name definition s = Some s' →
  ∃ c,
    added_column definition = Some c
    ∧ table_info table s' = table_info table s ++ [c]
    ∧ (∀ other, other ≠ table → s' !! other = s !! other)
    ∧ (name ∈ table_info table s' ↔ c = name)
    ∧ (c ≠ name → ensureColumn added_column table name definition s' = None).
Proof.
  intros Hnin Hrun. unfold ensureColumn in Hrun. cbv zeta in Hrun.
  rewrite bool_decide_eq_false_2 in Hrun by exact Hnin.
  unfold exec_add_column in Hrun. unfold table_info in Hnin |- *.
  destruct (s !! table) as [cols | ] eqn:Hs; [ | discriminate ].
  cbn [mbind option_bind] in Hrun.
  destruct (added_column definition) as [c | ] eqn:Hc; [ | discriminate ].
  cbn [mbind option_bind] in Hrun.
  case_bool_decide as Hdup; [ discriminate | ]. injection Hrun as <-.
  change (default [] (Some cols)) with cols in *.
  exists c. split; [ reflexivity | ].
  assert (Hinfo : <[table := cols ++ [c]]> s !! table = Some (cols ++ [c]))
    by apply lookup_insert_eq.
  rewrite Hinfo. change (default [] (Some (cols ++ [c]))) with (cols ++ [c]).
  split; [ reflexivity | ]. split; [ | split ].
  - intros other Hne. apply lookup_insert_ne. congruence.
  - rewrite elem_of_app, list_elem_of_singleton. split; [ | auto ].
    intros [H | H]; [ contradiction | congruence ].
  - intros Hne. unfold ensureColumn. cbv zeta. unfold table_info. rewrite Hinfo.
    change (default [] (Some (cols ++ [c]))) with (cols ++ [c]).
    rewrite bool_decide_eq_false_2.
    + unfold exec_add_column. rewrite Hinfo. cbn [mbind option_bind]. rewrite Hc.
      cbn [mbind option_bind]. rewrite bool_decide_eq_true_2; [ reflexivity | ].
      apply list_elem_of_fmap_2. apply elem_of_app. right. left.
    + rewrite elem_of_app, list_elem_of_singleton. intros [H | H]; [ contradiction | congruence ].
Qed.

(** X22. On a new database file [db.js] leaves the schema that the two
    [CREATE TABLE] statements describe: both tables have their columns,
    the four migrations add nothing whatever SQLite would make of their
    definitions, every prepared statement of [server.js] compiles, and
    loading [db.js] again changes nothing. *)
Theorem db_js_new_database (s : schema) :
  s !! "trains" = None → s !! "train_runs" = None →
  db_js added_column s = Some (create_tables s)
  ∧ table_info "trains" (create_tables s) = trains_columns
  ∧ table_info "train_runs" (create_tables s) = train_runs_columns
  ∧ (∀ other, other ≠ "trains" → other ≠ "train_runs" →
              create_tables s !! other = s !! other)
  ∧ server_js_prepares (create_tables s) = true
  ∧ db_js added_column (create_tables s) = Some (create_tables s).
Proof.
  intros Ht Hr.
  assert (Hct : create_tables s
                = <["train_runs" := train_runs_columns]> (<["trains" := trains_columns]> s)).
  { unfold create_tables, create_if_not_exists. rewrite Ht.
    rewrite lookup_insert_ne by discriminate. rewrite Hr. reflexivity. }
  assert (H1 : create_tables s !! "trains" = Some trains_columns).
  { rewrite Hct, lookup_insert_ne by discriminate. apply lookup_insert_eq. }
  assert (H2 : create_tables s !! "train_runs" = Some train_runs_columns).
  { rewrite Hct. apply lookup_insert_eq. }
  assert (Hmig : migrations added_column (create_tables s) = Some (create_tables s)).
  { unfold migrations.
    rewrite ensureColumn_present
      by (unfold table_info; rewrite H1; apply (bool_decide_unpack _); vm_compute; exact I).
    cbn [mbind option_bind].
    rewrite ensureColumn_present
      by (unfold table_info; rewrite H1; apply (bool_decide_unpack _); vm_compute; exact I).
    cbn [mbind option_bind].
    rewrite ensureColumn_present
      by (unfold table_info; rewrite H2; apply (bool_decide_unpack _); vm_compute; exact I).
    cbn [mbind option_bind].
    apply ensureColumn_present.
    unfold table_info. rewrite H2. apply (bool_decide_unpack _). vm_compute. exact I. }
  split; [ exact Hmig | ].
  split; [ unfold table_info; rewrite H1; reflexivity | ].
  split; [ unfold table_info; rewrite H2; reflexivity | ].
  split; [ | split ].
  - intros other Hn1 Hn2. rewrite Hct, !lookup_insert_ne by congruence. reflexivity.
  - unfold server_js_prepares, prepared, prepares. cbn [forallb fst snd].
    rewrite H1, H2. vm_compute. reflexivity.
  - unfold db_js.
    assert (Hidem : create_tables (create_tables s) = create_tables s).
    { unfold create_tables at 1. unfold create_if_not_exists. rewrite H1, H2. reflexivity. }
    rewrite Hidem. exact Hmig.
Qed.

(** X23. On a database file written by an earlier [db.js], whose tables
    have no [numberOfCars] and no [powerType], the migrations do not add
    them.  SQLite reads the definitions [INTEGER NOT NULL DEFAULT 0] and
    [TEXT NOT NULL DEFAULT 'AC'] as columns named [INTEGER] and [TEXT];
    with that reading, loading [db.js] returns with these two columns
    added to [trains], and to [train_runs] if the file had that table
    (it is created with the present columns otherwise); [numberOfCars]
    and [powerType] are still missing from [trains], the statements of
    [server.js] do not all compile, and loading [db.js] once more
    throws. *)
Theorem db_js_earlier_database (s : schema) :
  s !! "trains" = Some trains_columns_v0 →
  s !! "train_runs" = None ∨ s !! "train_runs" = Some train_runs_columns_v0 →
  added_column "INTEGER NOT NULL DEFAULT 0" = Some "INTEGER" →
  added_column "TEXT NOT NULL DEFAULT 'AC'" = Some "TEXT" →
  ∃ s',
    db_js added_column s = Some s'
    ∧ table_info "trains" s' = trains_columns_v0 ++ ["INTEGER"; "TEXT"]
    ∧ table_info "train_runs" s'
      = match s !! "train_runs" with
        | Some cols => cols ++ ["INTEGER"; "TEXT"]
        | None => train_runs_columns
        end
    ∧ ("numberOfCars" ∉ table_info "trains" s')
    ∧ ("powerType" ∉ table_info "trains" s')
    ∧ server_js_prepares s' = false
    ∧ db_js added_column s' = None.
Proof.
  intros Ht Hr Hint Htext.
  set (s1 := create_tables s).
  set (s2 := <["trains" := trains_columns_v0 ++ ["INTEGER"]]> s1).
  set (s3 := <["trains" := (trains_columns_v0 ++ ["INTEGER"]) ++ ["TEXT"]]> s2).
  assert (H1t : s1 !! "trains" = Some trains_columns_v0).
  { unfold s1, create_tables, create_if_not_exists. rewrite Ht.
    destruct Hr as [-> | ->]; [ rewrite lookup_insert_ne by discriminate | ]; exact Ht. }
  assert (H2t : s2 !! "trains" = Some (trains_columns_v0 ++ ["INTEGER"])).
  { unfold s2. apply lookup_insert_eq. }
  assert (H3t : s3 !! "trains" = Some ((trains_columns_v0 ++ ["INTEGER"]) ++ ["TEXT"])).
  { unfold s3. apply lookup_insert_eq. }
  assert (H3r : s3 !! "train_runs" = s1 !! "train_runs").
  { unfold s3, s2. rewrite !lookup_insert_ne by discriminate. reflexivity. }
  assert (E1 : ensureColumn added_column "trains" "numberOfCars"
                 "INTEGER NOT NULL DEFAULT 0" s1 = Some s2).
  { unfold ensureColumn, exec_add_column, table_info. cbv zeta. rewrite H1t.
    cbn [mbind option_bind]. rewrite Hint. cbn [mbind option_bind]. reflexivity. }
  assert (E2 : ensureColumn added_column "trains" "powerType"
                 "TEXT NOT NULL DEFAULT 'AC'" s2 = Some s3).
  { unfold ensureColumn, exec_add_column, table_info. cbv zeta. rewrite H2t.
    cbn [mbind option_bind]. rewrite Htext. cbn [mbind option_bind]. reflexivity. }
  assert (E4 : ∀ s4, s4 !! "trains" = Some ((trains_columns_v0 ++ ["INTEGER"]) ++ ["TEXT"]) →
                 s4 !! "train_runs" ≠ None →
                 db_js added_column s4 = None).
  { intros s4 H4t H4r. unfold db_js.
    assert (Hidem : create_tables s4 = s4).
    { unfold create_tables, create_if_not_exists. rewrite H4t.
      destruct (s4 !! "train_runs"); [ reflexivity | contradiction ]. }
    rewrite Hidem. unfold migrations.
    assert (E : ensureColumn added_column "trains" "numberOfCars"
                  "INTEGER NOT NULL DEFAULT 0" s4 = None).
    { unfold ensureColumn, exec_add_column, table_info. cbv zeta. rewrite H4t.
      cbn [mbind option_bind]. rewrite Hint. cbn [mbind option_bind]. reflexivity. }
    rewrite E. reflexivity. }
  destruct Hr as [Hr | Hr].
  - assert (H1r : s1 !! "train_runs" = Some train_runs_columns).
    { unfold s1, create_tables, create_if_not_exists. rewrite Ht, Hr.
      apply lookup_insert_eq. }
    rewrite H1r in H3r.
    assert (E3 : ∀ name definition, name ∈ train_runs_columns →
                   ensureColumn added_column "train_runs" name definition s3 = Some s3).
    { intros name definition Hin. apply ensureColumn_present.
      unfold table_info. rewrite H3r. exact Hin. }
    exists s3. rewrite Hr.
    split; [ | split; [ | split; [ | split; [ | split; [ | split ] ] ] ] ].
    + unfold db_js. fold s1. unfold migrations. rewrite E1. cbn [mbind option_bind].
      rewrite E2. cbn [mbind option_bind].
      rewrite E3 by (apply (bool_decide_unpack _); vm_compute; exact I).
      cbn [mbind option_bind].
      apply E3. apply (bool_decide_unpack _). vm_compute. exact I.
    + unfold table_info. rewrite H3t. reflexivity.
    + unfold table_info. rewrite H3r. reflexivity.
    + unfold table_info. rewrite H3t. apply (bool_decide_unpack _). vm_compute. exact I.
    + unfold table_info. rewrite H3t. apply (bool_decide_unpack _). vm_compute. exact I.
    + unfold server_js_prepares, prepared, prepares. cbn [forallb fst snd].
      rewrite H3t. vm_compute. reflexivity.
    + apply E4; [ exact H3t | rewrite H3r; discriminate ].
  - assert (H1r : s1 !! "train_runs" = Some train_runs_columns_v0).
    { unfold s1, create_tables, create_if_not_exists. rewrite Ht, Hr. exact Hr. }
    rewrite H1r in H3r.
    set (s4 := <["train_runs" := train_runs_columns_v0 ++ ["INTEGER"]]> s3).
    set (s5 := <["train_runs" := (train_runs_columns_v0 ++ ["INTEGER"]) ++ ["TEXT"]]> s4).
    assert (H4r : s4 !! "train_runs" = Some (train_runs_columns_v0 ++ ["INTEGER"])).
    { unfold s4. apply lookup_insert_eq. }
    assert (H5r : s5 !! "train_runs"
                  = Some ((train_runs_columns_v0 ++ ["INTEGER"]) ++ ["TEXT"])).
    { unfold s5. apply lookup_insert_eq. }
    assert (H5t : s5 !! "trains" = Some ((trains_columns_v0 ++ ["INTEGER"]) ++ ["TEXT"])).
    { unfold s5, s4. rewrite !lookup_insert_ne by discriminate. exact H3t. }
    assert (E3 : ensureColumn added_column "train_runs" "numberOfCars"
                   "INTEGER NOT NULL DEFAULT 0" s3 = Some s4).
    { unfold ensureColumn, exec_add_column, table_info. cbv zeta. rewrite H3r.
      cbn [mbind option_bind]. rewrite Hint. cbn [mbind option_bind]. reflexivity. }
    assert (E5 : ensureColumn added_column "train_runs" "powerType"
                   "TEXT NOT NULL DEFAULT 'AC'" s4 = Some s5).
    { unfold ensureColumn, exec_add_column, table_info. cbv zeta. rewrite H4r.
      cbn [mbind option_bind]. rewrite Htext. cbn [mbind option_bind]. reflexivity. }
    exists s5. rewrite Hr.
    split; [ | split; [ | split; [ | split; [ | split; [ | split ] ] ] ] ].
    + unfold db_js. fold s1. unfold migrations. rewrite E1. cbn [mbind option_bind].
      rewrite E2. cbn [mbind option_bind]. rewrite E3. cbn [mbind option_bind].
      exact E5.
    + unfold table_info. rewrite H5t. reflexivity.
    + unfold table_info. rewrite H5r. reflexivity.
    + unfold table_info. rewrite H5t. apply (bool_decide_unpack _). vm_compute. exact I.
    + unfold table_info. rewrite H5t. apply (bool_decide_unpack _). vm_compute. exact I.
    + unfold server_js_prepares, prepared, prepares. cbn [forallb fst snd].
      rewrite H5t. vm_compute. reflexivity.
    + apply E4; [ exact H5t | rewrite H5r; discriminate ].
Qed.
End MigrationFacts.

Lemma ensureColumn_adds_what_definition_names_witness :
  ("numberOfCars" ∉ table_info "trains" schema_v0)
  ∧ ensureColumn first_word_column "trains" "numberOfCars" "INTEGER NOT NULL DEFAULT 0"
                 schema_v0
    = Some {[ "trains" := trains_columns_v0 ++ ["INTEGER"] ]}
  ∧ ∃ c, first_word_column "INTEGER NOT NULL DEFAULT 0" = Some c
         ∧ table_info "trains" {[ "trains" := trains_columns_v0 ++ ["INTEGER"] ]}
           = table_info "trains" schema_v0 ++ [c].
Proof.
  assert (H1 : "numberOfCars" ∉ table_info "trains" schema_v0)
    by (apply (bool_decide_unpack _); vm_compute; exact I).
  assert (H2 : ensureColumn first_word_column "trains" "numberOfCars"
                 "INTEGER NOT NULL DEFAULT 0" schema_v0
               = Some {[ "trains" := trains_columns_v0 ++ ["INTEGER"] ]})
    by (vm_compute; reflexivity).
  repeat (split; [ assumption | ]).
  destruct (ensureColumn_adds_what_definition_names first_word_column "trains"
              "numberOfCars" "INTEGER NOT NULL DEFAULT 0" schema_v0 _ H1 H2)
    as (c & Hc & Hinfo & _).
  exists c. split; assumption.
Defined.

Lemma db_js_new_database_witness :
  (∅ : schema) !! "trains" = None ∧ (∅ : schema) !! "train_runs" = None
  ∧ db_js first_word_column ∅ = Some (create_tables ∅).
Proof.
  assert (H1 : (∅ : schema) !! "trains" = None) by reflexivity.
  assert (H2 : (∅ : schema) !! "train_runs" = None) by reflexivity.
  repeat (split; [ assumption | ]).
  destruct (db_js_new_database first_word_column ∅ H1 H2) as (H & _).
  exact H.
Defined.

Lemma db_js_earlier_database_witness :
  schema_v1 !! "trains" = Some trains_columns_v0
  ∧ (schema_v1 !! "train_runs" = None
     ∨ schema_v1 !! "train_runs" = Some train_runs_columns_v0)
  ∧ first_word_column "INTEGER NOT NULL DEFAULT 0" = Some "INTEGER"
  ∧ first_word_column "TEXT NOT NULL DEFAULT 'AC'" = Some "TEXT"
  ∧ ∃ s', db_js first_word_column schema_v1 = Some s'
          ∧ db_js first_word_column s' = None.
Proof.
  assert (H1 : schema_v1 !! "trains" = Some trains_columns_v0) by reflexivity.
  assert (H2 : schema_v1 !! "train_runs" = None
               ∨ schema_v1 !! "train_runs" = Some train_runs_columns_v0)
    by (right; reflexivity).
  assert (H3 : first_word_column "INTEGER NOT NULL DEFAULT 0" = Some "INTEGER")
    by reflexivity.
  assert (H4 : first_word_column "TEXT NOT NULL DEFAULT 'AC'" = Some "TEXT")
    by reflexivity.
  repeat (split; [ assumption | ]).
  destruct (db_js_earlier_database first_word_column schema_v1 H1 H2 H3 H4)
    as (s' & Hs' & _ & _ & _ & _ & _ & Hagain).
  exists s'. split; assumption.
Defined.
